(** * Dawid-Skene EM estimator with blind-spot overrides

    A shallow embedding of [src/run_approach/dawid_skene.py] and the
    properties of its count aggregation, initialisation, M-step, E-step,
    likelihood evaluation and iteration control.

    Numbers.  numpy's float64 values are idealised as exact rationals
    ([Q]); equalities between computed numbers are stated with [==].  The
    divisions of the program are guarded by a positivity test on the
    divisor, with one exception (the division by [float(nPatients)] in
    [m_step]), and [Q] has no NaN: statements on the values of the class
    marginals therefore assume at least one patient, and the bounds on the
    number of iterations are proved whatever the values compared.  The
    count tensor and the gold
    vector are float arrays that only ever hold natural numbers (they start
    at zero and are incremented by one or set to one), so they are
    [nat]-valued here.

    Arrays.  A dense numpy array is an index function together with its
    shape; a store [a[i,j] = v] is a pointwise update.  A store or a load at
    a constant index is checked against the shape and raises [IndexError]
    like numpy does; loop indices are in range by construction. *)

From Stdlib Require Import QArith Qabs ZArith List String Bool Arith Lia Lqa.
Import ListNotations.

Set Implicit Arguments.
Open Scope Q_scope.

(** ** Exceptions and the error monad *)

Inductive exn : Set :=
| IndexError
| ValueError
| KeyError.

Inductive result (A : Type) : Type :=
| Ok (a : A)
| Raise (e : exn).

Arguments Ok {A} a.
Arguments Raise {A} e.

Definition bind {A B : Type} (c : result A) (k : A -> result B) : result B :=
  match c with
  | Ok a => k a
  | Raise e => Raise e
  end.

Notation "x <- c ;; k" := (bind c (fun x => k))
  (at level 61, c at next level, right associativity).

(** [for x in xs: s = body(x, s)], stopping at the first exception. *)
Fixpoint for_each {A S : Type} (body : A -> S -> result S) (xs : list A)
    (s : S) : result S :=
  match xs with
  | [] => Ok s
  | x :: xs' => s' <- body x s ;; for_each body xs' s'
  end.

(** [for i in range(n)]. *)
Definition for_range {S : Type} (n : nat) (body : nat -> S -> result S)
    (s : S) : result S :=
  for_each body (seq 0 n) s.

(** ** numpy on index functions *)

Definition vec := nat -> Q.
Definition mat := nat -> nat -> Q.
Definition ten := nat -> nat -> nat -> Q.

Definition Qltb (x y : Q) : bool := negb (Qle_bool y x).

Definition of_nat (n : nat) : Q := inject_Z (Z.of_nat n).

(** [np.sum] of the first [n] entries. *)
Fixpoint np_sum (n : nat) (f : nat -> Q) : Q :=
  match n with
  | O => 0
  | S m => np_sum m f + f m
  end.

(** [np.prod] of the first [n] entries. *)
Fixpoint np_prod (n : nat) (f : nat -> Q) : Q :=
  match n with
  | O => 1
  | S m => np_prod m f * f m
  end.

(** [np.power(x, c)] for a count [c]: IEEE [pow] returns 1 for a zero
    exponent, whatever the base. *)
Fixpoint np_power (x : Q) (c : nat) : Q :=
  match c with
  | O => 1
  | S c' => x * np_power x c'
  end.

(** [np.dot] of two vectors of length [n]. *)
Definition np_dot (n : nat) (f g : nat -> Q) : Q :=
  np_sum n (fun i => f i * g i).

(** Truth value of a boolean array of [n] entries, as [if], [and] and [or]
    ask for it: an array of one entry has the truth value of that entry, an
    array of two or more raises ValueError ("The truth value of an array
    with more than one element is ambiguous"), and so does an empty one
    ("The truth value of an empty array is ambiguous"; numpy releases before
    2.2 answered False there, with a deprecation warning). *)
Definition truth_value (n : nat) (b : nat -> bool) : result bool :=
  match n with
  | 1%nat => Ok (b 0%nat)
  | _ => Raise ValueError
  end.

Definition zeros2 : mat := fun _ _ => 0.
Definition zeros3 : ten := fun _ _ _ => 0.

(** [a[i,j] = v] *)
Definition set2 (a : mat) (i j : nat) (v : Q) : mat :=
  fun i' j' => if ((i' =? i) && (j' =? j))%nat then v else a i' j'.

(** [a[i,j] = v] with [j] checked against the row length [n]. *)
Definition setitem2 (n : nat) (a : mat) (i j : nat) (v : Q) : result mat :=
  if (j <? n)%nat then Ok (set2 a i j v) else Raise IndexError.

(** [a[i,:] = a[i,:] / s] and, more generally, [a[i,:] = r]. *)
Definition set_row (a : mat) (i : nat) (r : vec) : mat :=
  fun i' j' => if (i' =? i)%nat then r j' else a i' j'.

(** [a[k,j,l] = v] *)
Definition set3 (a : ten) (k j l : nat) (v : Q) : ten :=
  fun k' j' l' =>
    if ((k' =? k) && (j' =? j) && (l' =? l))%nat then v else a k' j' l'.

Definition setitem3 (n : nat) (a : ten) (k j l : nat) (v : Q) : result ten :=
  if (l <? n)%nat then Ok (set3 a k j l v) else Raise IndexError.

(** [a[k,j,:] = r] *)
Definition set_row3 (a : ten) (k j : nat) (r : vec) : ten :=
  fun k' j' l' => if ((k' =? k) && (j' =? j))%nat then r l' else a k' j' l'.

(** ** Data model *)

(** The count tensor [counts], of shape [nPatients, nObservers, nClasses],
    as [np.shape(counts)] returns it. *)
Record counts_t : Type := {
  nPatients : nat;
  nObservers : nat;
  nClasses : nat;
  count : nat -> nat -> nat -> nat
}.

(** The gold evidence vector [gold_data], of shape [nPatients]. *)
Definition gold_t := nat -> nat.

(** ** The blind-spot test of [initialize] and [e_step]

    [(label_type[1]["AM_noise"] == 0 and counts[p,:,1] > 0) or
     (label_type[1]["AM_noise"] == 2 and gold_data[p] > 0)]

    When [AM_noise == 0] the left operand of [or] is the boolean array
    [counts[p,:,1] > 0], whose truth value [or] asks for; loading column 1
    needs two classes.  When the array is false the right operand is
    [False], since [AM_noise] is not 2. *)
Definition blind_spot (counts : counts_t) (gold_data : gold_t) (AM_noise : Z)
    (p : nat) : result bool :=
  if (AM_noise =? 0)%Z then
    if (1 <? nClasses counts)%nat then
      truth_value (nObservers counts) (fun k => (0 <? count counts p k 1)%nat)
    else Raise IndexError
  else Ok ((AM_noise =? 2)%Z && (0 <? gold_data p)%nat).

(** ** [initialize] *)

(** [response_sums = np.sum(counts,1)] *)
Definition response_sums (counts : counts_t) : mat :=
  fun p j => np_sum (nObservers counts) (fun k => of_nat (count counts p k j)).

(** One pass of the loop [for p in range(nPatients)]; the state is
    [(patient_classes, reviewed_blindspots)]. *)
Definition initialize_body (counts : counts_t) (gold_data : gold_t)
    (AM_noise : Z) (p : nat) (st : mat * list nat) : result (mat * list nat) :=
  let '(patient_classes, reviewed_blindspots) := st in
  c <- blind_spot counts gold_data AM_noise p ;;
  if c then
    let reviewed_blindspots := reviewed_blindspots ++ [p] in
    pc <- setitem2 (nClasses counts) patient_classes p 1 1 ;;
    pc <- setitem2 (nClasses counts) pc p 0 0 ;;
    Ok (pc, reviewed_blindspots)
  else
    let p_sum := np_sum (nClasses counts) (response_sums counts p) in
    if Qltb 0 p_sum then
      Ok (set_row patient_classes p
            (fun j => response_sums counts p j / p_sum),
          reviewed_blindspots)
    else Ok (patient_classes, reviewed_blindspots).

Definition initialize (counts : counts_t) (gold_data : gold_t) (AM_noise : Z)
    : result (mat * list nat) :=
  for_range (nPatients counts) (initialize_body counts gold_data AM_noise)
    (zeros2, []).

(** ** [m_step] *)

(** [class_marginals = np.sum(patient_classes,0)/float(nPatients)] *)
Definition class_marginals_of (counts : counts_t) (patient_classes : mat)
    : vec :=
  fun j => np_sum (nPatients counts) (fun i => patient_classes i j)
           / of_nat (nPatients counts).

(** The body of [for j in range(nClasses)] for observer [k]. *)
Definition m_step_body (counts : counts_t) (patient_classes : mat)
    (AM_noise : Z) (k j : nat) (error_rates : ten) : result ten :=
  if ((AM_noise =? 0)%Z && (j =? 0)%nat)%bool then
    er <- setitem3 (nClasses counts) error_rates k j 0 1 ;;
    setitem3 (nClasses counts) er k j 1 0
  else
    er <- for_range (nClasses counts)
            (fun l er =>
               Ok (set3 er k j l
                     (np_dot (nPatients counts)
                        (fun i => patient_classes i j)
                        (fun i => of_nat (count counts i k l)))))
            error_rates ;;
    let sum_over_responses := np_sum (nClasses counts) (er k j) in
    if Qltb 0 sum_over_responses then
      Ok (set_row3 er k j (fun l => er k j l / sum_over_responses))
    else Ok er.

Definition m_step (counts : counts_t) (patient_classes : mat) (AM_noise : Z)
    : result (vec * ten) :=
  let class_marginals := class_marginals_of counts patient_classes in
  error_rates <-
    for_range (nObservers counts)
      (fun k er =>
         for_range (nClasses counts)
           (m_step_body counts patient_classes AM_noise k) er)
      zeros3 ;;
  Ok (class_marginals, error_rates).

(** ** [e_step] *)

(** [np.prod(np.power(error_rates[:,j,:], counts[i,:,:]))] *)
Definition class_likelihood (counts : counts_t) (error_rates : ten)
    (i j : nat) : Q :=
  np_prod (nObservers counts) (fun k =>
    np_prod (nClasses counts) (fun l =>
      np_power (error_rates k j l) (count counts i k l))).

(** The body of [for j in range(nClasses)] for patient [i]. *)
Definition e_step_body (counts : counts_t) (gold_data : gold_t)
    (class_marginals : vec) (error_rates : ten) (AM_noise : Z) (i j : nat)
    (patient_classes : mat) : result mat :=
  c <- blind_spot counts gold_data AM_noise i ;;
  if c then
    pc <- setitem2 (nClasses counts) patient_classes i 1 1 ;;
    setitem2 (nClasses counts) pc i 0 0
  else
    let estimate := class_marginals j in
    let estimate := estimate * class_likelihood counts error_rates i j in
    Ok (set2 patient_classes i j estimate).

(** The body of [for i in range(nPatients)]. *)
Definition e_step_patient (counts : counts_t) (gold_data : gold_t)
    (class_marginals : vec) (error_rates : ten) (AM_noise : Z) (i : nat)
    (patient_classes : mat) : result mat :=
  pc <- for_range (nClasses counts)
          (e_step_body counts gold_data class_marginals error_rates
             AM_noise i)
          patient_classes ;;
  let patient_sum := np_sum (nClasses counts) (pc i) in
  if Qltb 0 patient_sum then
    Ok (set_row pc i (fun j => pc i j / patient_sum))
  else Ok pc.

Definition e_step (counts : counts_t) (gold_data : gold_t)
    (class_marginals : vec) (error_rates : ten) (AM_noise : Z) : result mat :=
  for_range (nPatients counts)
    (e_step_patient counts gold_data class_marginals error_rates AM_noise)
    zeros2.

(** ** [calc_likelihood] *)

(** Values of the log-likelihood accumulator.  The logarithm of a positive
    rational is not rational: the finite value [ln q] is kept as its
    argument [q], so that [ln a + ln b] is [ln (a * b)] exactly and the
    initial [log_L = 0.0] is [Ln 1].  [np.log] of zero is minus infinity
    and of a negative number NaN; floating-point underflow and overflow are
    outside this idealisation. *)
Inductive logval : Type :=
| Ln (q : Q)
| NegInf
| NaN.

Definition np_log (x : Q) : logval :=
  if Qltb 0 x then Ln x else if Qeq_bool x 0 then NegInf else NaN.

Definition log_add (a b : logval) : logval :=
  match a, b with
  | Ln x, Ln y => Ln (x * y)
  | NaN, _ | _, NaN => NaN
  | _, _ => NegInf
  end.

Definition np_isnan (a : logval) : bool :=
  match a with NaN => true | _ => false end.

Definition np_isinf (a : logval) : bool :=
  match a with NegInf => true | _ => false end.

(** What [calc_likelihood] does: it returns a value, or prints
    [(i, log_L, np.log(patient_likelihood), temp)] and calls [sys.exit()]. *)
Inductive likelihood_result : Type :=
| Returns (log_L : logval)
| SysExit (i : nat) (log_L term temp : logval).

(** The inner loop [for j in range(nClasses)]: [patient_likelihood] starts
    at 0.0 and receives [class_prior * patient_class_likelihood]. *)
Definition patient_likelihood (counts : counts_t) (class_marginals : vec)
    (error_rates : ten) (i : nat) : Q :=
  np_sum (nClasses counts) (fun j =>
    class_marginals j * class_likelihood counts error_rates i j).

Fixpoint calc_likelihood_loop (counts : counts_t) (class_marginals : vec)
    (error_rates : ten) (items : list nat) (log_L : logval)
    : likelihood_result :=
  match items with
  | [] => Returns log_L
  | i :: items' =>
      let term :=
        np_log (patient_likelihood counts class_marginals error_rates i) in
      let temp := log_add log_L term in
      if np_isnan temp || np_isinf temp then SysExit i log_L term temp
      else calc_likelihood_loop counts class_marginals error_rates items' temp
  end.

(** [log_L = 0.0], then [for i in range(nPatients)]. *)
Definition calc_likelihood (counts : counts_t) (class_marginals : vec)
    (error_rates : ten) : likelihood_result :=
  calc_likelihood_loop counts class_marginals error_rates
    (seq 0 (nPatients counts)) (Ln 1).

(** ** [run]: the EM controller *)

(** [np.sum(np.abs(class_marginals - old_class_marginals))] *)
Definition class_marginals_diff (counts : counts_t) (cm old_cm : vec) : Q :=
  np_sum (nClasses counts) (fun j => Qabs (cm j - old_cm j)).

(** [np.sum(np.abs(error_rates - old_error_rates))] *)
Definition error_rates_diff (counts : counts_t) (er old_er : ten) : Q :=
  np_sum (nObservers counts) (fun k =>
    np_sum (nClasses counts) (fun j =>
      np_sum (nClasses counts) (fun l => Qabs (er k j l - old_er k j l)))).

(** The test guarded by [if old_class_marginals is not None]. *)
Definition converged_test (counts : counts_t) (tol : Q) (max_iter : Z)
    (iteration : nat) (old : option (vec * ten)) (cm : vec) (er : ten)
    : bool :=
  match old with
  | Some (old_cm, old_er) =>
      (Qltb (class_marginals_diff counts cm old_cm) tol
       && Qltb (error_rates_diff counts er old_er) tol)
      || (max_iter <? Z.of_nat iteration)%Z
  | None => false
  end.

(** How a run ends; [iteration] is the value of the loop counter, that is
    the number of times the loop body was entered. *)
Inductive outcome : Type :=
| Returned (iteration : nat) (patient_classes : mat) (class_marginals : vec)
    (error_rates : ten)
| Exited (iteration : nat) (i : nat) (log_L term temp : logval)
| Raised (iteration : nat) (e : exn)
| OutOfFuel.

(** [while not converged], with [fuel] bounding the number of passes. *)
Fixpoint em_loop (fuel : nat) (counts : counts_t) (gold_data : gold_t)
    (AM_noise : Z) (tol : Q) (max_iter : Z) (iteration : nat)
    (old : option (vec * ten)) (patient_classes : mat) : outcome :=
  match fuel with
  | O => OutOfFuel
  | S fuel' =>
      let iteration := S iteration in
      match m_step counts patient_classes AM_noise with
      | Raise e => Raised iteration e
      | Ok (class_marginals, error_rates) =>
          match e_step counts gold_data class_marginals error_rates
                  AM_noise with
          | Raise e => Raised iteration e
          | Ok patient_classes =>
              match calc_likelihood counts class_marginals error_rates with
              | SysExit i log_L term temp =>
                  Exited iteration i log_L term temp
              | Returns _ =>
                  if converged_test counts tol max_iter iteration old
                       class_marginals error_rates
                  then Returned iteration patient_classes class_marginals
                         error_rates
                  else em_loop fuel' counts gold_data AM_noise tol max_iter
                         iteration (Some (class_marginals, error_rates))
                         patient_classes
              end
          end
      end
  end.

(** The part of [run] after the count aggregation. *)
Definition em (fuel : nat) (counts : counts_t) (gold_data : gold_t)
    (AM_noise : Z) (tol : Q) (max_iter : Z) : outcome :=
  match initialize counts gold_data AM_noise with
  | Raise e => Raised 0 e
  | Ok (patient_classes, _) =>
      em_loop fuel counts gold_data AM_noise tol max_iter 0 None
        patient_classes
  end.

(** The default arguments [tol=0.00001] and [max_iter=100]. *)
Definition default_tol : Q := 1 # 100000.
Definition default_max_iter : Z := 100.

(** ** [responses_to_counts] *)

(** A patient key is a tuple of integers, an observer key an integer, and a
    response a pair [(class_label, truth_label)]. *)
Definition patient := list Z.
Definition observer := Z.
Definition response := (Z * string)%type.

(** A dictionary, in insertion order (keys are pairwise different). *)
Definition dict (K V : Type) := list (K * V).

Definition responses_t := dict patient (dict observer (list response)).

Fixpoint tuple_eqb (a b : patient) : bool :=
  match a, b with
  | [], [] => true
  | x :: a', y :: b' => (x =? y)%Z && tuple_eqb a' b'
  | _, _ => false
  end.

(** [d.keys()] *)
Definition keys {K V : Type} (d : dict K V) : list K := map fst d.

(** [d[key]] *)
Fixpoint getitem {K V : Type} (eqb : K -> K -> bool) (d : dict K V) (key : K)
    : result V :=
  match d with
  | [] => Raise KeyError
  | (k, v) :: d' => if eqb k key then Ok v else getitem eqb d' key
  end.

(** [l.index(x)]: the position of the first element equal to [x]. *)
Fixpoint index {A : Type} (eqb : A -> A -> bool) (l : list A) (x : A)
    : result nat :=
  match l with
  | [] => Raise ValueError
  | y :: l' => if eqb y x then Ok 0%nat else n <- index eqb l' x ;; Ok (S n)
  end.

(** [counts[i,k,j] += 1] *)
Definition incr3 (a : nat -> nat -> nat -> nat) (i k j : nat)
    : nat -> nat -> nat -> nat :=
  fun i' k' j' =>
    if ((i' =? i) && (k' =? k) && (j' =? j))%nat then S (a i' k' j')
    else a i' k' j'.

(** [gold_data[i] = 1] *)
Definition set1 (g : gold_t) (i : nat) (v : nat) : gold_t :=
  fun i' => if (i' =? i)%nat then v else g i'.

Section Aggregation.

(** [list(observers)] for the set [observers]: the enumeration order of a
    Python set is not specified; [list_of_set l] stands for the
    enumeration of the set whose elements were added in the order [l]. *)
Variable list_of_set : list observer -> list observer.

(** The first pass: [observers.add(k)] for every key not yet in the set;
    [seen] lists the elements of the set in the order they were added. *)
Definition collect_observers (responses : responses_t) : list observer :=
  fold_left
    (fun seen ik =>
       fold_left
         (fun seen k =>
            if existsb (Z.eqb k) seen then seen else seen ++ [k])
         (keys (snd ik)) seen)
    responses [].

(** The body of [for response in responses[patient][observer]]. *)
Definition count_response (classes : list Z) (i k : nat) (r : response)
    (st : (nat -> nat -> nat -> nat) * gold_t)
    : result ((nat -> nat -> nat -> nat) * gold_t) :=
  let '(counts, gold_data) := st in
  let '(class_label, truth_label) := r in
  j <- index Z.eqb classes class_label ;;
  let counts := incr3 counts i k j in
  if (class_label =? 1)%Z && String.eqb truth_label "t" then
    Ok (counts, set1 gold_data i 1%nat)
  else Ok (counts, gold_data).

(** The body of [for observer in responses[patient].keys()]. *)
Definition count_observer (responses : responses_t) (observers : list Z)
    (classes : list Z) (pat : patient) (i : nat) (obs : observer)
    (st : (nat -> nat -> nat -> nat) * gold_t)
    : result ((nat -> nat -> nat -> nat) * gold_t) :=
  k <- index Z.eqb observers obs ;;
  by_observer <- getitem tuple_eqb responses pat ;;
  rs <- getitem Z.eqb by_observer obs ;;
  for_each (count_response classes i k) rs st.

(** The body of [for patient in patients]. *)
Definition count_patient (responses : responses_t) (patients : list patient)
    (observers : list Z) (classes : list Z) (pat : patient)
    (st : (nat -> nat -> nat -> nat) * gold_t)
    : result ((nat -> nat -> nat -> nat) * gold_t) :=
  i <- index tuple_eqb patients pat ;;
  by_observer <- getitem tuple_eqb responses pat ;;
  for_each (count_observer responses observers classes pat i)
    (keys by_observer) st.

Definition responses_to_counts (responses : responses_t) (classes : list Z)
    : result (list patient * list observer * list Z * counts_t * gold_t) :=
  let patients := keys responses in
  let observers := list_of_set (collect_observers responses) in
  st <- for_each (count_patient responses patients observers classes)
          patients (fun _ _ _ => 0%nat, fun _ => 0%nat) ;;
  let '(counts, gold_data) := st in
  Ok (patients, observers, classes,
      {| nPatients := List.length patients;
         nObservers := List.length observers;
         nClasses := List.length classes;
         count := counts |},
      gold_data).

(** [run(responses, review_counts, classes, output_filename, label_type,
    tol, max_iter)], up to the printing and the writing of the result. *)
Definition run (fuel : nat) (responses : responses_t) (classes : list Z)
    (AM_noise : Z) (tol : Q) (max_iter : Z) : outcome :=
  match responses_to_counts responses classes with
  | Raise e => Raised 0 e
  | Ok (_, _, _, counts, gold_data) =>
      em fuel counts gold_data AM_noise tol max_iter
  end.

End Aggregation.

(** ** What the loops leave in the arrays

    The rows the loops of [initialize], [e_step] and [m_step] write, as
    expressions of the inputs; the loop invariants below relate the loops to
    them. *)

(** Row [p] of [patient_classes] after [initialize], given the outcome [c]
    of the blind-spot test. *)
Definition initial_row (counts : counts_t) (c : bool) (p : nat) : vec :=
  fun j =>
    if c then (if (j =? 0)%nat then 0 else if (j =? 1)%nat then 1 else 0)
    else
      let p_sum := np_sum (nClasses counts) (response_sums counts p) in
      if Qltb 0 p_sum then response_sums counts p j / p_sum else 0.

(** Row [i] of [patient_classes] after the loop over [j] of [e_step] and
    before the normalisation. *)
Definition e_scores (counts : counts_t) (class_marginals : vec)
    (error_rates : ten) (c : bool) (i : nat) : vec :=
  fun j =>
    if c then (if (j =? 0)%nat then 0 else if (j =? 1)%nat then 1 else 0)
    else class_marginals j * class_likelihood counts error_rates i j.

(** [r / np.sum(r)] when the sum is positive, [r] otherwise. *)
Definition normalize (n : nat) (r : vec) : vec :=
  fun j => if Qltb 0 (np_sum n r) then r j / np_sum n r else r j.

(** Row [[k,j,:]] of [error_rates] before the normalisation. *)
Definition soft_counts (counts : counts_t) (patient_classes : mat)
    (k j : nat) : vec :=
  fun l =>
    np_dot (nPatients counts) (fun i => patient_classes i j)
      (fun i => of_nat (count counts i k l)).

(** Row [[k,j,:]] of [error_rates] after [m_step]. *)
Definition m_row (counts : counts_t) (patient_classes : mat) (AM_noise : Z)
    (k j : nat) : vec :=
  if ((AM_noise =? 0)%Z && (j =? 0)%nat)%bool then
    fun l => if (l =? 0)%nat then 1 else 0
  else normalize (nClasses counts) (soft_counts counts patient_classes k j).

(** ** Loop invariants *)

(** [initialize], loop over [p]: the rows below [n] are final, the others
    still hold the zeros of [np.zeros]. *)
Definition initialize_inv (counts : counts_t) (gold_data : gold_t)
    (AM_noise : Z) (n : nat) (st : mat * list nat) : Prop :=
  (forall p, (p < n)%nat ->
     exists c, blind_spot counts gold_data AM_noise p = Ok c
               /\ (c = true -> (1 < nClasses counts)%nat)
               /\ forall j, fst st p j = initial_row counts c p j)
  /\ (forall p j, (n <= p)%nat -> fst st p j = 0).

(** ** The posteriors of a run

    [posterior counts gold_data AM_noise pc]: [pc] is a value the variable
    [patient_classes] of [run] can hold, that is the result of
    [initialize] or of an [e_step] fed by the [m_step] of such a value. *)
Inductive posterior (counts : counts_t) (gold_data : gold_t) (AM_noise : Z)
    : mat -> Prop :=
| posterior_initialize pc rb :
    initialize counts gold_data AM_noise = Ok (pc, rb) ->
    posterior counts gold_data AM_noise pc
| posterior_e_step pc0 cm er pc :
    posterior counts gold_data AM_noise pc0 ->
    m_step counts pc0 AM_noise = Ok (cm, er) ->
    e_step counts gold_data cm er AM_noise = Ok pc ->
    posterior counts gold_data AM_noise pc.

(** The row [[0, 1]], with zeros in the further classes if there are any. *)
Definition certain_class_1 (n : nat) (r : vec) : Prop :=
  r 0%nat == 0 /\ r 1%nat == 1 /\ forall j, (1 < j < n)%nat -> r j == 0.

(** Number of passes of the loop a run has entered, when it ended. *)
Definition iterations (o : outcome) : option nat :=
  match o with
  | Returned n _ _ _ => Some n
  | Exited n _ _ _ _ => Some n
  | Raised n _ => Some n
  | OutOfFuel => None
  end.

(** ** Concrete inputs *)

(** One patient, one observer, two classes, [counts = [[[4, 0]]]]. *)
Definition counts_4_0 : counts_t :=
  {| nPatients := 1; nObservers := 1; nClasses := 2;
     count := fun i k l => match i, k, l with
                           | O, O, O => 4%nat
                           | _, _, _ => 0%nat
                           end |}.

(** One patient, one observer, two classes, [counts = [[[1, 2]]]]. *)
Definition counts_1_2 : counts_t :=
  {| nPatients := 1; nObservers := 1; nClasses := 2;
     count := fun i k l => match i, k, l with
                           | O, O, O => 1%nat
                           | O, O, 1%nat => 2%nat
                           | _, _, _ => 0%nat
                           end |}.

(** One patient seen by two observers:
    [counts = [[[0, 1], [1, 0]]]]. *)
Definition counts_two_observers : counts_t :=
  {| nPatients := 1; nObservers := 2; nClasses := 2;
     count := fun i k l => match i, k, l with
                           | O, O, 1%nat => 1%nat
                           | O, 1%nat, O => 1%nat
                           | _, _, _ => 0%nat
                           end |}.

(** Two patients, the second one without any observation:
    [counts = [[[2, 0]], [[0, 0]]]]. *)
Definition counts_unobserved : counts_t :=
  {| nPatients := 2; nObservers := 1; nClasses := 2;
     count := fun i k l => match i, k, l with
                           | O, O, O => 2%nat
                           | _, _, _ => 0%nat
                           end |}.

Definition no_gold : gold_t := fun _ => 0%nat.
Definition gold_at_0 : gold_t :=
  fun i => match i with O => 1%nat | _ => 0%nat end.

(** The posterior [[1, 0]] for every patient, the prior [[1/2, 1/2]] and
    the identity confusion matrix for every observer. *)
Definition all_class_0 : mat := fun _ j => match j with O => 1 | _ => 0 end.
Definition uniform_prior : vec := fun _ => 1 # 2.
Definition identity_rates : ten := fun _ j l => if (j =? l)%nat then 1 else 0.

(** [{(1,): {1: [(0,'f'), (0,'f'), (0,'f'), (0,'f')]}}] *)
Definition responses_4_0 : responses_t :=
  [([1%Z], [(1%Z, [(0%Z, "f"%string); (0%Z, "f"%string);
                  (0%Z, "f"%string); (0%Z, "f"%string)])])].

(** [{(1,): {1: [(1,'f')], 2: [(0,'f')]}}] *)
Definition responses_two_observers : responses_t :=
  [([1%Z], [(1%Z, [(1%Z, "f"%string)]); (2%Z, [(0%Z, "f"%string)])])].

(** [{(1,): {1: [(0,'f'), (0,'f')]}, (2,): {1: []}}] *)
Definition responses_unobserved : responses_t :=
  [([1%Z], [(1%Z, [(0%Z, "f"%string); (0%Z, "f"%string)])]);
   ([2%Z], [(1%Z, [])])].

(** [{(1,): {1: [(0,'f'), (1,'t'), (1,'f')], 2: [(0,'t')]},
      (2,): {1: [(0,'t')]}}] *)
Definition responses_gold : responses_t :=
  [([1%Z], [(1%Z, [(0%Z, "f"%string); (1%Z, "t"%string); (1%Z, "f"%string)]);
            (2%Z, [(0%Z, "t"%string)])]);
   ([2%Z], [(1%Z, [(0%Z, "t"%string)])])].

(** ** The accumulated log-likelihood *)

(** [log_L] after the first [n] items, were the loop of [calc_likelihood]
    never to exit. *)
Fixpoint log_L_upto (counts : counts_t) (class_marginals : vec)
    (error_rates : ten) (n : nat) : logval :=
  match n with
  | O => Ln 1
  | S m =>
      log_add (log_L_upto counts class_marginals error_rates m)
        (np_log (patient_likelihood counts class_marginals error_rates m))
  end.

(** Neither NaN nor infinite. *)
Definition np_isfinite (a : logval) : bool :=
  negb (np_isnan a || np_isinf a).

(** ** The observations behind the counts *)

(** The responses of observer [obs] on patient [pat]: [responses[pat][obs]],
    and no response when the observer has not seen the patient. *)
Definition observations (responses : responses_t) (pat : patient)
    (obs : observer) : list response :=
  match getitem tuple_eqb responses pat with
  | Ok by_observer =>
      match getitem Z.eqb by_observer obs with
      | Ok rs => rs
      | Raise _ => []
      end
  | Raise _ => []
  end.

(** All the responses on patient [pat], whoever the observer. *)
Definition all_observations (responses : responses_t) (pat : patient)
    : list response :=
  match getitem tuple_eqb responses pat with
  | Ok by_observer => List.concat (map snd by_observer)
  | Raise _ => []
  end.

(** Number of responses with class label [label]. *)
Definition count_label (label : Z) (rs : list response) : nat :=
  List.length (filter (fun r => (fst r =? label)%Z) rs).

(** A response of class 1 flagged as gold:
    [class_label == 1 and truth_label == 't']. *)
Definition gold_class_1 (r : response) : bool :=
  (fst r =? 1)%Z && String.eqb (snd r) "t".

(** A dictionary of dictionaries: keys are pairwise different. *)
Definition well_formed (responses : responses_t) : Prop :=
  NoDup (keys responses)
  /\ forall pat by_observer,
       In (pat, by_observer) responses -> NoDup (keys by_observer).

(** Number of responses of the list that land in class index [j]. *)
Definition hits (classes : list Z) (j : nat) (rs : list response) : nat :=
  List.length
    (filter (fun r => match index Z.eqb classes (fst r) with
                      | Ok j' => (j' =? j)%nat
                      | Raise _ => false
                      end) rs).

(** ** Items with observations *)

(** Item [i] has at least one observation. *)
Definition observed (counts : counts_t) (i : nat) : Prop :=
  exists k l, (k < nObservers counts)%nat /\ (l < nClasses counts)%nat
              /\ (0 < count counts i k l)%nat.

(** Class [j] is not excluded for item [i] by the forced row of
    [AM_noise == 0]: under that noise model an item of true class 0 only
    ever receives the label 0. *)
Definition admissible (counts : counts_t) (AM_noise : Z) (i j : nat) : Prop :=
  AM_noise = 0%Z -> j = 0%nat ->
  forall k l, (k < nObservers counts)%nat -> (l < nClasses counts)%nat ->
              l <> 0%nat -> count counts i k l = 0%nat.

(** Every row is a distribution that gives a positive probability to an
    admissible class. *)
Definition supported (counts : counts_t) (AM_noise : Z) (pc : mat) : Prop :=
  forall i, (i < nPatients counts)%nat ->
    (forall j, (j < nClasses counts)%nat -> 0 <= pc i j)
    /\ np_sum (nClasses counts) (pc i) == 1
    /\ exists j, (j < nClasses counts)%nat /\ 0 < pc i j
                 /\ admissible counts AM_noise i j.

(** Is some label other than 0 present among the counts of item [i]? *)
Definition other_label (counts : counts_t) (i : nat) : bool :=
  existsb (fun k =>
    existsb (fun l => negb (l =? 0)%nat && (0 <? count counts i k l)%nat)
      (seq 0 (nClasses counts)))
    (seq 0 (nObservers counts)).

(** * Further functions of the program *)

(** ** Blind spots recorded by [initialize] *)

(** The blind-spot test returns and holds for item [p]. *)
Definition forced (counts : counts_t) (gold_data : gold_t) (AM_noise : Z)
    (p : nat) : bool :=
  match blind_spot counts gold_data AM_noise p with
  | Ok c => c
  | Raise _ => false
  end.

(** ** The passes of the loop of [run] *)

(** One pass of the loop body without its tests: the M-step on the
    posterior, then the E-step on the parameters it returns. *)
Definition em_pass (counts : counts_t) (gold_data : gold_t) (AM_noise : Z)
    (patient_classes : mat) : result (mat * vec * ten) :=
  params <- m_step counts patient_classes AM_noise ;;
  let '(class_marginals, error_rates) := params in
  pc <- e_step counts gold_data class_marginals error_rates AM_noise ;;
  Ok (pc, class_marginals, error_rates).

(** The posterior after [n] passes. *)
Fixpoint em_passes (counts : counts_t) (gold_data : gold_t) (AM_noise : Z)
    (n : nat) (patient_classes : mat) : result mat :=
  match n with
  | O => Ok patient_classes
  | S m =>
      st <- em_pass counts gold_data AM_noise patient_classes ;;
      em_passes counts gold_data AM_noise m (fst (fst st))
  end.

(** One patient whose only observer has given no response:
    [{(1,): {1: []}}], that is [counts = [[[0, 0]]]]. *)
Definition responses_no_observation : responses_t :=
  [([1%Z], [(1%Z, [])])].

Definition counts_no_observation : counts_t :=
  {| nPatients := 1; nObservers := 1; nClasses := 2;
     count := fun _ _ _ => 0%nat |}.

(** ** [majority_voting] *)

(** The larger of two numbers. *)
Definition np_maximum (a b : Q) : Q := if Qle_bool a b then b else a.

(** The maximum of the entries [0 .. n]. *)
Fixpoint max_upto (n : nat) (f : vec) : Q :=
  match n with
  | O => f 0%nat
  | S m => np_maximum (max_upto m f) (f (S m))
  end.

(** [np.max] of the first [n] entries; numpy raises ValueError on an empty
    array ("zero-size array to reduction operation maximum which has no
    identity"). *)
Definition np_max (n : nat) (f : vec) : result Q :=
  match n with
  | O => Raise ValueError
  | S m => Ok (max_upto m f)
  end.

(** [np.argwhere(b)]: the indices at which [b] holds, in increasing
    order. *)
Definition np_argwhere (n : nat) (b : nat -> bool) : list nat :=
  filter b (seq 0 n).

(** [np.min] of an array of indices; ValueError on an empty one. *)
Definition np_min (indices : list nat) : result nat :=
  match indices with
  | [] => Raise ValueError
  | x :: l => Ok (fold_left Nat.min l x)
  end.

(** One pass of the loop [for p in range(nPatients)]. *)
Definition majority_voting_body (counts : counts_t) (p : nat)
    (patient_classes : mat) : result mat :=
  m <- np_max (nClasses counts) (response_sums counts p) ;;
  let indices :=
    np_argwhere (nClasses counts)
      (fun j => Qeq_bool (response_sums counts p j) m) in
  w <- np_min indices ;;
  Ok (set2 patient_classes p w 1).

Definition majority_voting (counts : counts_t) : result mat :=
  for_range (nPatients counts) (majority_voting_body counts) zeros2.

(** ** [write_to_file] *)

(** The first index of the maximum among the entries [0 .. n]. *)
Fixpoint argmax_upto (n : nat) (f : vec) : nat :=
  match n with
  | O => 0%nat
  | S m =>
      let best := argmax_upto m f in
      if Qltb (f best) (f (S m)) then S m else best
  end.

(** [np.argmax] of the first [n] entries: the index of the first
    occurrence of the maximum; ValueError on an empty array ("attempt to get
    argmax of an empty sequence"). *)
Definition np_argmax (n : nat) (f : vec) : result nat :=
  match n with
  | O => Raise ValueError
  | S m => Ok (argmax_upto m f)
  end.

(** [l[i]] for a list. *)
Definition list_getitem {A : Type} (l : list A) (i : nat) : result A :=
  match nth_error l i with
  | Some x => Ok x
  | None => Raise IndexError
  end.

(** The first loop of [write_to_file]: the lists [labels] and [weights].
    [nClasses] is the row length of [patient_classes]. *)
Definition best_labels (nPatients nClasses : nat) (patient_classes : mat)
    : result (list nat * list Q) :=
  for_range nPatients
    (fun i (st : list nat * list Q) =>
       let '(labels, weights) := st in
       best_label <- np_argmax nClasses (patient_classes i) ;;
       Ok (labels ++ [best_label],
           weights ++ [patient_classes i best_label]))
    ([], []).

(** A line of the output file,
    [str(list(patients[i])) + "," + str(labels[i]) + "," + str(weights[i])],
    kept as its three fields. *)
Definition line_t := (patient * nat * Q)%type.

(** [write_to_file(nPatients, patients, patient_classes, output_filename)]:
    the lines written to the file, in order. *)
Definition write_to_file (nPatients nClasses : nat) (patients : list patient)
    (patient_classes : mat) : result (list line_t) :=
  lw <- best_labels nPatients nClasses patient_classes ;;
  let '(labels, weights) := lw in
  for_range nPatients
    (fun i (f : list line_t) =>
       pat <- list_getitem patients i ;;
       label <- list_getitem labels i ;;
       weight <- list_getitem weights i ;;
       Ok (f ++ [(pat, label, weight)]))
    [].

(** ** [read_input_data] *)

From Stdlib Require Import Ascii.

(** [s.rstrip('\n')]: the string without its trailing newlines. *)
Fixpoint rstrip_newline (s : string) : string :=
  match s with
  | EmptyString => EmptyString
  | String c s' =>
      match rstrip_newline s' with
      | EmptyString =>
          if Ascii.eqb c "010"%char then EmptyString
          else String c EmptyString
      | r => String c r
      end
  end.

(** [s.split(sep)] for a separator of one character: the pieces between
    the occurrences of [sep], of which there is always at least one. *)
Fixpoint split (sep : ascii) (s : string) : list string :=
  match s with
  | EmptyString => [EmptyString]
  | String c s' =>
      if Ascii.eqb c sep then EmptyString :: split sep s'
      else match split sep s' with
           | [] => [String c EmptyString]
           | w :: ws => String c w :: ws
           end
  end.

(** [s[1:-1]]: the string without its first and its last character, empty
    for a string of fewer than three characters. *)
Definition strip_ends (s : string) : string :=
  substring 1 (String.length s - 2) s.

(** [key in d] *)
Definition contains {K V : Type} (eqb : K -> K -> bool) (d : dict K V)
    (key : K) : bool :=
  existsb (fun k => eqb k key) (keys d).

(** [d[key] = v]: the value of an existing key is replaced in place, a new
    key is added at the end. *)
Fixpoint setitem {K V : Type} (eqb : K -> K -> bool) (d : dict K V) (key : K)
    (v : V) : dict K V :=
  match d with
  | [] => [(key, v)]
  | (k, v0) :: d' =>
      if eqb k key then (k, v) :: d' else (k, v0) :: setitem eqb d' key v
  end.

(** The position an integer index designates in an array of [n] entries:
    numpy counts a negative index from the end and raises IndexError out of
    [-n .. n-1]. *)
Definition np_index (n : nat) (i : Z) : result nat :=
  if ((0 <=? i) && (i <? Z.of_nat n))%Z then Ok (Z.to_nat i)
  else if ((- Z.of_nat n <=? i) && (i <? 0))%Z
       then Ok (Z.to_nat (i + Z.of_nat n))
       else Raise IndexError.

(** [a[i] += 1] *)
Definition incr1 (a : vec) (i : nat) : vec :=
  fun i' => if (i' =? i)%nat then a i' + 1 else a i'.

Section Reader.

(** [int(s)] as a partial function, undefined where Python raises
    ValueError, and [s.strip()]. *)
Variable int : string -> option Z.
Variable strip : string -> string.

Definition py_int (s : string) : result Z :=
  match int s with
  | Some z => Ok z
  | None => Raise ValueError
  end.

(** [[int(x.strip()) for x in x_i]] *)
Fixpoint parse_ints (x_i : list string) : result (list Z) :=
  match x_i with
  | [] => Ok []
  | x :: x_i' =>
      z <- py_int (strip x) ;;
      zs <- parse_ints x_i' ;;
      Ok (z :: zs)
  end.

(** The body of [for label_str in labels]; the state is
    [(data, review_counts)]. *)
Definition read_label (classes : list Z) (x_i : patient) (label_str : string)
    (st : responses_t * vec) : result (responses_t * vec) :=
  let '(data, review_counts) := st in
  let label_values := split ";" (strip_ends label_str) in
  s <- list_getitem label_values 0 ;;
  class_label <- py_int s ;;
  truth_label <- list_getitem label_values 1 ;;
  review_counts <-
    (if String.eqb truth_label "t" then
       i <- np_index (List.length classes) class_label ;;
       Ok (incr1 review_counts i)
     else Ok review_counts) ;;
  let label := (class_label, truth_label) in
  by_observer <- getitem tuple_eqb data x_i ;;
  rs <- getitem Z.eqb by_observer 1%Z ;;
  Ok (setitem tuple_eqb data x_i
        (setitem Z.eqb by_observer 1%Z (rs ++ [label])),
      review_counts).

(** The body of [for line in lines]. *)
Definition read_line (classes : list Z) (line : string)
    (st : responses_t * vec) : result (responses_t * vec) :=
  let '(data, review_counts) := st in
  let values := split "=" line in
  v <- list_getitem values 0 ;;
  x_i <- parse_ints (split "," (strip_ends v)) ;;
  let data :=
    if contains tuple_eqb data x_i then data
    else setitem tuple_eqb data x_i [(1%Z, [])] in
  v <- list_getitem values 1 ;;
  let labels := split "," (strip_ends v) in
  for_each (read_label classes x_i) labels (data, review_counts).

(** [read_input_data(filename)] on the lines of the file, as iterating
    over the open file yields them. *)
Definition read_input_data (file : list string)
    : result (responses_t * vec * list Z) :=
  let lines := map rstrip_newline file in
  let classes := [0%Z; 1%Z] in
  st <- for_each (read_line classes) lines ([], fun _ => 0) ;;
  let '(data, review_counts) := st in
  Ok (data, review_counts, classes).

End Reader.

(** A reviewed response that [review_counts] counts at position [j]. *)
Definition reviewed (n j : nat) (r : response) : bool :=
  String.eqb (snd r) "t"
  && match np_index n (fst r) with
     | Ok i => (i =? j)%nat
     | Raise _ => false
     end.

(** Number of reviewed responses of the dictionary counted at [j]. *)
Definition reviewed_total (n j : nat) (data : responses_t) : nat :=
  list_sum
    (map (fun pb : patient * dict observer (list response) =>
            list_sum
              (map (fun ors : observer * list response =>
                      List.length (filter (reviewed n j) (snd ors)))
                 (snd pb)))
       data).

(** Every patient of the dictionary has the single observer 1, with at
    least one response. *)
Definition labelled (data : responses_t) : Prop :=
  forall pat by_observer,
    In (pat, by_observer) data ->
    exists rs, by_observer = [(1%Z, rs)] /\ rs <> [].

(** The dictionary while the labels of the line of patient [x_i] are
    read: the list of [x_i] may still be empty. *)
Definition labelling (x_i : patient) (data : responses_t) : Prop :=
  NoDup (keys data) /\ In x_i (keys data)
  /\ forall pat by_observer,
       In (pat, by_observer) data ->
       exists rs, by_observer = [(1%Z, rs)] /\ (pat <> x_i -> rs <> []).

(** ** Concrete files *)

(** A sample of [int], defined on the literals [0] and [1], and the
    identity for [strip]. *)
Definition int_0_1 (s : string) : option Z :=
  if String.eqb s "0" then Some 0%Z
  else if String.eqb s "1" then Some 1%Z
  else None.

Definition no_strip (s : string) : string := s.

(** The file of the two lines [(1)=[(0;f),(1;t)]] and [(0)=[(0;f)]]. *)
Definition file_two_lines : list string :=
  [String.append "(1)=[(0;f),(1;t)]" (String "010"%char EmptyString);
   "(0)=[(0;f)]"%string].

(** ** What a file says *)

Section Parsed.

Variable int : string -> option Z.
Variable strip : string -> string.

(** The response a label string [(c;t)] stands for. *)
Definition parse_response (label_str : string) : option response :=
  let label_values := split ";" (strip_ends label_str) in
  match nth_error label_values 0, nth_error label_values 1 with
  | Some s, Some truth_label =>
      match int s with
      | Some class_label => Some (class_label, truth_label)
      | None => None
      end
  | _, _ => None
  end.

(** The patient key of a line, the text before the first ['=']. *)
Definition line_key (line : string) : option patient :=
  match nth_error (split "=" line) 0 with
  | Some v =>
      match parse_ints int strip (split "," (strip_ends v)) with
      | Ok x_i => Some x_i
      | Raise _ => None
      end
  | None => None
  end.

(** The responses of a line, in the order of the line. *)
Definition line_responses (line : string) : list response :=
  match nth_error (split "=" line) 1 with
  | Some v =>
      flat_map (fun label_str =>
                  match parse_response label_str with
                  | Some r => [r]
                  | None => []
                  end)
        (split "," (strip_ends v))
  | None => []
  end.

(** The responses of the lines of patient [pat], in the order of the
    file. *)
Definition responses_of (lines : list string) (pat : patient)
    : list response :=
  flat_map (fun line =>
              match line_key line with
              | Some x_i =>
                  if tuple_eqb x_i pat then line_responses line else []
              | None => []
              end)
    lines.

End Parsed.

(** * Properties *)

(** ** Loops *)

Lemma bind_ok {A B : Type} (c : result A) (k : A -> result B) (b : B) :
  (x <- c ;; k x) = Ok b -> exists a, c = Ok a /\ k a = Ok b.
Proof.
  destruct c as [a|e]; simpl; intros H; [eauto | discriminate].
Qed.

Lemma for_each_app {A S : Type} (body : A -> S -> result S) xs ys (s : S) :
  for_each body (xs ++ ys) s = (s' <- for_each body xs s ;; for_each body ys s').
Proof.
  revert s; induction xs as [|x xs IH]; intros s; simpl; [reflexivity|].
  destruct (body x s) as [s1|e]; simpl; auto.
Qed.

Lemma for_range_S {S : Type} n (body : nat -> S -> result S) (s : S) :
  for_range (Datatypes.S n) body s = (s' <- for_range n body s ;; body n s').
Proof.
  unfold for_range. rewrite seq_S, for_each_app. simpl.
  destruct (for_each body (seq 0 n) s) as [s1|e]; simpl; [|reflexivity].
  destruct (body n s1); reflexivity.
Qed.

(** Loop invariant rule for [for i in range(n)]. *)
Lemma for_range_inv {S : Type} (Inv : nat -> S -> Prop) n
    (body : nat -> S -> result S) (s0 s : S) :
  Inv 0%nat s0 ->
  (forall i s1 s2, (i < n)%nat -> Inv i s1 -> body i s1 = Ok s2 ->
                   Inv (Datatypes.S i) s2) ->
  for_range n body s0 = Ok s -> Inv n s.
Proof.
  intros H0 Hstep. revert s.
  induction n as [|n IH]; intros s Hrun.
  - unfold for_range in Hrun. simpl in Hrun. inversion Hrun; subst; exact H0.
  - rewrite for_range_S in Hrun. apply bind_ok in Hrun.
    destruct Hrun as (s1 & Hn & Hb).
    apply (Hstep n s1 s); [lia| |exact Hb].
    apply IH; [|exact Hn]. intros i a b Hi. apply Hstep. lia.
Qed.

(** A loop whose body cannot raise under the invariant does not raise. *)
Lemma for_range_total {S : Type} (Inv : nat -> S -> Prop) n
    (body : nat -> S -> result S) (s0 : S) :
  Inv 0%nat s0 ->
  (forall i s1, (i < n)%nat -> Inv i s1 ->
                exists s2, body i s1 = Ok s2 /\ Inv (Datatypes.S i) s2) ->
  exists s, for_range n body s0 = Ok s /\ Inv n s.
Proof.
  intros H0 Hstep. induction n as [|n IH].
  - exists s0. split; [reflexivity | exact H0].
  - destruct IH as (s1 & Hn & HI).
    { intros i a Hi. apply Hstep. lia. }
    destruct (Hstep n s1 (Nat.lt_succ_diag_r n) HI) as (s2 & Hb & HI2).
    exists s2. rewrite for_range_S, Hn. simpl. auto.
Qed.

(** ** Rational arithmetic *)

Lemma Qltb_lt x y : Qltb x y = true <-> x < y.
Proof.
  unfold Qltb. rewrite negb_true_iff, <- not_true_iff_false, Qle_bool_iff.
  split; [apply Qnot_le_lt | apply Qlt_not_le].
Qed.

Lemma Qltb_ge x y : Qltb x y = false <-> y <= x.
Proof.
  unfold Qltb. rewrite negb_false_iff. apply Qle_bool_iff.
Qed.

Lemma of_nat_nonneg n : 0 <= of_nat n.
Proof.
  unfold of_nat. change 0 with (inject_Z 0). rewrite <- Zle_Qle. lia.
Qed.

Lemma of_nat_pos n : (0 < n)%nat -> 0 < of_nat n.
Proof.
  intros H. unfold of_nat. change 0 with (inject_Z 0). rewrite <- Zlt_Qlt. lia.
Qed.

Lemma np_sum_ext n f g :
  (forall i, (i < n)%nat -> f i = g i) -> np_sum n f = np_sum n g.
Proof.
  induction n as [|n IH]; intros H; simpl; [reflexivity|].
  rewrite IH, H; auto.
Qed.

Lemma np_sum_ext_eq n f g :
  (forall i, (i < n)%nat -> f i == g i) -> np_sum n f == np_sum n g.
Proof.
  induction n as [|n IH]; intros H; simpl; [reflexivity|].
  rewrite IH, H; auto. reflexivity.
Qed.

Lemma np_sum_nonneg n f :
  (forall i, (i < n)%nat -> 0 <= f i) -> 0 <= np_sum n f.
Proof.
  induction n as [|n IH]; intros H; simpl; [apply Qle_refl|].
  assert (0 <= np_sum n f) by auto.
  assert (0 <= f n) by auto. lra.
Qed.

Lemma np_sum_ge_term n f i :
  (forall i, (i < n)%nat -> 0 <= f i) -> (i < n)%nat -> f i <= np_sum n f.
Proof.
  induction n as [|n IH]; intros H Hi; [lia|]. simpl.
  assert (0 <= np_sum n f) by (apply np_sum_nonneg; auto).
  assert (0 <= f n) by auto.
  destruct (Nat.eq_dec i n) as [->|Hne]; [lra|].
  assert (f i <= np_sum n f) by (apply IH; auto; lia). lra.
Qed.

(** A sum of non-negative terms that is not positive has only zero terms. *)
Lemma np_sum_zero_terms n f i :
  (forall i, (i < n)%nat -> 0 <= f i) -> np_sum n f <= 0 -> (i < n)%nat ->
  f i == 0.
Proof.
  intros H Hs Hi.
  pose proof (np_sum_ge_term f H Hi). pose proof (H i Hi). lra.
Qed.

Lemma np_sum_zero n f :
  (forall i, (i < n)%nat -> f i == 0) -> np_sum n f == 0.
Proof.
  induction n as [|n IH]; intros H; simpl; [reflexivity|].
  rewrite IH, H; auto. reflexivity.
Qed.

Lemma np_sum_scale n f c :
  np_sum n (fun i => f i * c) == np_sum n f * c.
Proof.
  induction n as [|n IH]; simpl; [ring | rewrite IH; ring].
Qed.

Lemma np_sum_div n f s :
  np_sum n (fun i => f i / s) == np_sum n f / s.
Proof. unfold Qdiv. apply np_sum_scale. Qed.

Lemma np_sum_plus n f g :
  np_sum n (fun i => f i + g i) == np_sum n f + np_sum n g.
Proof.
  induction n as [|n IH]; simpl; [ring | rewrite IH; ring].
Qed.

(** Exchange of two finite sums. *)
Lemma np_sum_swap n m (f : nat -> nat -> Q) :
  np_sum n (fun i => np_sum m (fun j => f i j))
  == np_sum m (fun j => np_sum n (fun i => f i j)).
Proof.
  induction n as [|n IH]; simpl.
  - symmetry. apply np_sum_zero. reflexivity.
  - rewrite IH. symmetry. apply np_sum_plus.
Qed.

(** The sum of a row divided by its own positive sum is 1. *)
Lemma np_sum_normalized n f :
  0 < np_sum n f -> np_sum n (fun j => f j / np_sum n f) == 1.
Proof.
  intros H. rewrite np_sum_div. field. lra.
Qed.

(** A sum with a single non-zero entry. *)
Lemma np_sum_single n a (v : Q) :
  (a < n)%nat -> np_sum n (fun j => if (j =? a)%nat then v else 0) == v.
Proof.
  induction n as [|n IH]; intros Ha; [lia|]. simpl.
  destruct (Nat.eq_dec a n) as [->|Hne].
  - rewrite Nat.eqb_refl, np_sum_zero; [ring|].
    intros i Hi. destruct (Nat.eqb_spec i n); [lia | reflexivity].
  - rewrite IH by lia. destruct (Nat.eqb_spec n a); [lia | ring].
Qed.

Lemma np_power_nonneg x c : 0 <= x -> 0 <= np_power x c.
Proof.
  intros H. induction c as [|c IH]; simpl; [lra|].
  apply Qmult_le_0_compat; assumption.
Qed.

Lemma np_power_pos x c : 0 < x -> 0 < np_power x c.
Proof.
  intros H. induction c as [|c IH]; simpl; [lra|].
  apply Qmult_lt_0_compat; assumption.
Qed.

Lemma np_prod_ext n f g :
  (forall i, (i < n)%nat -> f i = g i) -> np_prod n f = np_prod n g.
Proof.
  induction n as [|n IH]; intros H; simpl; [reflexivity|].
  rewrite IH, H; auto.
Qed.

Lemma np_prod_nonneg n f :
  (forall i, (i < n)%nat -> 0 <= f i) -> 0 <= np_prod n f.
Proof.
  induction n as [|n IH]; intros H; simpl; [lra|].
  apply Qmult_le_0_compat; auto.
Qed.

Lemma np_prod_pos n f :
  (forall i, (i < n)%nat -> 0 < f i) -> 0 < np_prod n f.
Proof.
  induction n as [|n IH]; intros H; simpl; [lra|].
  apply Qmult_lt_0_compat; auto.
Qed.

Lemma np_prod_one n f :
  (forall i, (i < n)%nat -> f i == 1) -> np_prod n f == 1.
Proof.
  induction n as [|n IH]; intros H; simpl; [reflexivity|].
  rewrite IH, H; auto. ring.
Qed.

Lemma np_prod_ext_eq n f g :
  (forall i, (i < n)%nat -> f i == g i) -> np_prod n f == np_prod n g.
Proof.
  induction n as [|n IH]; intros H; simpl; [reflexivity|].
  rewrite IH, H; auto. reflexivity.
Qed.

(** ** Array updates *)

Lemma set2_same a i j v : set2 a i j v i j = v.
Proof. unfold set2. rewrite !Nat.eqb_refl. reflexivity. Qed.

Lemma set2_other_row a i j v i' j' : i' <> i -> set2 a i j v i' j' = a i' j'.
Proof.
  intros H. unfold set2. destruct (Nat.eqb_spec i' i); [contradiction|].
  reflexivity.
Qed.

Lemma set2_other_col a i j v i' j' : j' <> j -> set2 a i j v i' j' = a i' j'.
Proof.
  intros H. unfold set2. destruct (Nat.eqb_spec j' j); [contradiction|].
  rewrite andb_false_r. reflexivity.
Qed.

Lemma set_row_same a i r j : set_row a i r i j = r j.
Proof. unfold set_row. rewrite Nat.eqb_refl. reflexivity. Qed.

Lemma set_row_other a i r i' j : i' <> i -> set_row a i r i' j = a i' j.
Proof.
  intros H. unfold set_row. destruct (Nat.eqb_spec i' i); [contradiction|].
  reflexivity.
Qed.

(** The two stores of the blind-spot branch, [a[i,1] = 1; a[i,0] = 0]:
    they need two classes and leave the other rows alone. *)
Lemma override_stores n a i b :
  (pc <- setitem2 n a i 1 1 ;; setitem2 n pc i 0 0) = Ok b ->
  (1 < n)%nat /\ b = set2 (set2 a i 1 1) i 0 0.
Proof.
  unfold setitem2. destruct (Nat.ltb_spec 1 n) as [H1|H1]; simpl;
    [|discriminate].
  destruct (Nat.ltb_spec 0 n) as [H0|H0]; [|lia].
  intros H; inversion H; auto.
Qed.

Lemma override_stores_ok n a i :
  (1 < n)%nat ->
  (pc <- setitem2 n a i 1 1 ;; setitem2 n pc i 0 0)
  = Ok (set2 (set2 a i 1 1) i 0 0).
Proof.
  intros H. unfold setitem2.
  destruct (Nat.ltb_spec 1 n) as [H1|H1]; [|lia]. simpl.
  destruct (Nat.ltb_spec 0 n) as [H0|H0]; [reflexivity | lia].
Qed.

Lemma override_row a i j :
  (forall j, j <> 0%nat -> j <> 1%nat -> a i j = 0) ->
  set2 (set2 a i 1 1) i 0 0 i j
  = if (j =? 0)%nat then 0 else if (j =? 1)%nat then 1 else 0.
Proof.
  intros Hz. unfold set2. rewrite !Nat.eqb_refl. simpl.
  destruct (Nat.eqb_spec j 0); [reflexivity|].
  destruct (Nat.eqb_spec j 1); [reflexivity | apply Hz; assumption].
Qed.

(** ** [initialize] *)

Section Initialize.

Variables (counts : counts_t) (gold_data : gold_t) (AM_noise : Z).

Lemma initialize_body_inv n st1 st2 :
  initialize_inv counts gold_data AM_noise n st1 ->
  initialize_body counts gold_data AM_noise n st1 = Ok st2 ->
  initialize_inv counts gold_data AM_noise (S n) st2.
Proof.
  intros [Hdone Hzero] Hbody. destruct st1 as [pc1 rb1].
  unfold initialize_body in Hbody.
  destruct (blind_spot counts gold_data AM_noise n) as [c|e] eqn:Hc;
    simpl in Hbody; [|discriminate].
  assert (Hrows : exists pc2 rb2, st2 = (pc2, rb2)
            /\ (c = true -> (1 < nClasses counts)%nat)
            /\ (forall p j, p <> n -> pc2 p j = pc1 p j)
            /\ (forall j, pc2 n j = initial_row counts c n j)).
  { destruct c.
    - destruct (setitem2 (nClasses counts) pc1 n 1 1) as [a|e] eqn:H1;
        simpl in Hbody; [|discriminate].
      destruct (setitem2 (nClasses counts) a n 0 0) as [b|e] eqn:H2;
        simpl in Hbody; [|discriminate].
      inversion Hbody; subst st2; clear Hbody.
      assert (Hb : (pc <- setitem2 (nClasses counts) pc1 n 1 1 ;;
                    setitem2 (nClasses counts) pc n 0 0) = Ok b)
        by (rewrite H1; exact H2).
      apply override_stores in Hb. destruct Hb as [Htwo ->].
      exists (set2 (set2 pc1 n 1 1) n 0 0), (rb1 ++ [n]).
      split; [reflexivity|]. split; [intros _; exact Htwo|]. split.
      + intros p j Hp. rewrite !set2_other_row by exact Hp. reflexivity.
      + intros j. unfold initial_row. apply override_row.
        intros j' _ _. apply (Hzero n j'). simpl. lia.
    - unfold initial_row.
      destruct (Qltb 0 (np_sum (nClasses counts) (response_sums counts n)));
        inversion Hbody; subst st2; clear Hbody.
      + eexists _, _. split; [reflexivity|]. split; [discriminate|]. split.
        * intros p j Hp. apply set_row_other. exact Hp.
        * intros j. apply set_row_same.
      + eexists _, _. split; [reflexivity|]. split; [discriminate|].
        split; [reflexivity|].
        intros j. apply (Hzero n j). lia. }
  destruct Hrows as (pc2 & rb2 & -> & Htwo & Hother & Hrow).
  split; simpl.
  - intros p Hp. destruct (Nat.eq_dec p n) as [->|Hne].
    + exists c. auto.
    + destruct (Hdone p) as (c' & Hc' & Htwo' & Hr); [lia|].
      exists c'. split; [exact Hc'|]. split; [exact Htwo'|]. intros j.
      rewrite Hother by exact Hne. apply Hr.
  - intros p j Hp. rewrite Hother by lia. apply Hzero. lia.
Qed.

(** Every row of the result of [initialize] is the row [initial_row]. *)
Lemma initialize_rows pc rb p :
  initialize counts gold_data AM_noise = Ok (pc, rb) ->
  (p < nPatients counts)%nat ->
  exists c, blind_spot counts gold_data AM_noise p = Ok c
            /\ (c = true -> (1 < nClasses counts)%nat)
            /\ forall j, pc p j = initial_row counts c p j.
Proof.
  intros Hrun Hp. unfold initialize in Hrun.
  apply (for_range_inv (initialize_inv counts gold_data AM_noise)) in Hrun.
  - destruct Hrun as [Hdone _]. apply (Hdone p Hp).
  - split; [intros q Hq; lia | reflexivity].
  - intros i s1 s2 _. apply initialize_body_inv.
Qed.

(** [initialize] raises only where the blind-spot test or its two stores
    do. *)
Lemma initialize_total :
  (forall p, (p < nPatients counts)%nat ->
     exists c, blind_spot counts gold_data AM_noise p = Ok c
               /\ (c = true -> (1 < nClasses counts)%nat)) ->
  exists pc rb, initialize counts gold_data AM_noise = Ok (pc, rb).
Proof.
  intros Hc. unfold initialize.
  destruct (@for_range_total _ (fun _ _ => True) (nPatients counts)
              (initialize_body counts gold_data AM_noise) (zeros2, []))
    as ([pc rb] & Hrun & _); [exact I| |eauto].
  intros i [pc1 rb1] Hi _. destruct (Hc i Hi) as (c & Hb & Hn).
  unfold initialize_body. rewrite Hb. simpl. destruct c.
  - assert (H1 : (1 < nClasses counts)%nat) by auto.
    unfold setitem2.
    destruct (Nat.ltb_spec 1 (nClasses counts)); [|lia]. simpl.
    destruct (Nat.ltb_spec 0 (nClasses counts)); [|lia]. simpl. eauto.
  - destruct (Qltb 0 _); eauto.
Qed.

End Initialize.

(** ** [e_step] *)

Section EStep.

Variables (counts : counts_t) (gold_data : gold_t).
Variables (class_marginals : vec) (error_rates : ten) (AM_noise : Z).

Let body := e_step_body counts gold_data class_marginals error_rates AM_noise.

(** The loop over [j] for patient [i], started on a row of zeros: it needs
    the blind-spot test to succeed as soon as there is a class, and leaves
    the scores [e_scores] in row [i]. *)
Lemma e_step_body_loop i pc0 pc :
  (forall j, pc0 i j = 0) ->
  for_range (nClasses counts) (body i) pc0 = Ok pc ->
  (forall i' j, i' <> i -> pc i' j = pc0 i' j)
  /\ (forall j, (nClasses counts <= j)%nat -> pc i j = 0)
  /\ (forall j, (j < nClasses counts)%nat ->
        exists c, blind_spot counts gold_data AM_noise i = Ok c
                  /\ (c = true -> (1 < nClasses counts)%nat)
                  /\ pc i j = e_scores counts class_marginals error_rates c i j).
Proof.
  intros Hz Hrun.
  destruct (blind_spot counts gold_data AM_noise i) as [c|e] eqn:Hc.
  - apply (for_range_inv (fun n a =>
      (forall i' j, i' <> i -> a i' j = pc0 i' j)
      /\ ((0 < n)%nat -> c = true -> (1 < nClasses counts)%nat)
      /\ (forall j, a i j =
            if c then
              if (0 <? n)%nat
              then (if (j =? 0)%nat then 0 else if (j =? 1)%nat then 1 else 0)
              else 0
            else if (j <? n)%nat
                 then class_marginals j
                      * class_likelihood counts error_rates i j
                 else 0))) in Hrun.
    + destruct Hrun as (Ho & Hn & Hr). split; [exact Ho|]. split.
      * intros j Hj. rewrite Hr.
        destruct c.
        -- destruct (Nat.ltb_spec 0 (nClasses counts)) as [H0|H0];
             [|reflexivity].
           specialize (Hn H0 eq_refl).
           destruct (Nat.eqb_spec j 0); [lia|].
           destruct (Nat.eqb_spec j 1); [lia | reflexivity].
        -- destruct (Nat.ltb_spec j (nClasses counts)); [lia | reflexivity].
      * intros j Hj. exists c. split; [reflexivity|]. split.
        -- apply Hn. lia.
        -- rewrite Hr. unfold e_scores. destruct c.
           ++ destruct (Nat.ltb_spec 0 (nClasses counts)); [reflexivity | lia].
           ++ destruct (Nat.ltb_spec j (nClasses counts)); [reflexivity | lia].
    + split; [reflexivity|]. split; [lia|].
      intros j. rewrite Hz. destruct c; reflexivity.
    + intros n a b Hn (Ho & _ & Hr) Hb. unfold body, e_step_body in Hb.
      rewrite Hc in Hb. simpl in Hb. destruct c.
      * apply override_stores in Hb. destruct Hb as [H1 ->].
        split; [|split].
        -- intros i' j Hi'. rewrite !set2_other_row by exact Hi'. auto.
        -- intros _ _. exact H1.
        -- intros j. simpl. apply override_row. intros j' Hj0 Hj1.
           rewrite Hr. destruct (0 <? n)%nat; [|reflexivity].
           destruct (Nat.eqb_spec j' 0); [contradiction|].
           destruct (Nat.eqb_spec j' 1); [contradiction | reflexivity].
      * inversion Hb; subst b; clear Hb. split; [|split].
        -- intros i' j Hi'. rewrite set2_other_row by exact Hi'. auto.
        -- intros _ H; discriminate.
        -- intros j. destruct (Nat.eq_dec j n) as [->|Hne].
           ++ rewrite set2_same.
              destruct (Nat.ltb_spec n (S n)); [reflexivity | lia].
           ++ rewrite set2_other_col by exact Hne. rewrite Hr.
              destruct (Nat.ltb_spec j n), (Nat.ltb_spec j (S n));
                try reflexivity; lia.
  - (* the test raises: the loop can only have been empty *)
    apply (for_range_inv (fun n a => n = 0%nat /\ a = pc0)) in Hrun.
    + destruct Hrun as [Hn ->]. split; [reflexivity|]. split.
      * intros j _. apply Hz.
      * intros j Hj. lia.
    + auto.
    + intros n a b _ _ Hb. unfold body, e_step_body in Hb.
      rewrite Hc in Hb. discriminate.
Qed.

(** One pass of the loop over [i]: row [i] becomes the normalised scores,
    the other rows are untouched. *)
Lemma e_step_patient_row i pc0 pc :
  (forall j, pc0 i j = 0) ->
  e_step_patient counts gold_data class_marginals error_rates AM_noise i pc0
  = Ok pc ->
  (forall i' j, i' <> i -> pc i' j = pc0 i' j)
  /\ (forall j, (j < nClasses counts)%nat ->
        exists c, blind_spot counts gold_data AM_noise i = Ok c
                  /\ (c = true -> (1 < nClasses counts)%nat)
                  /\ pc i j
                     = normalize (nClasses counts)
                         (e_scores counts class_marginals error_rates c i) j).
Proof.
  intros Hz Hrun. unfold e_step_patient in Hrun.
  apply bind_ok in Hrun. destruct Hrun as (pc1 & Hloop & Hnorm).
  apply e_step_body_loop in Hloop; [|exact Hz].
  destruct Hloop as (Ho & _ & Hr).
  assert (Hsum : forall c,
            blind_spot counts gold_data AM_noise i = Ok c ->
            np_sum (nClasses counts) (pc1 i)
            = np_sum (nClasses counts)
                (e_scores counts class_marginals error_rates c i)).
  { intros c Hc. apply np_sum_ext. intros j Hj.
    destruct (Hr j Hj) as (c' & Hc' & _ & ->). congruence. }
  destruct (Qltb 0 (np_sum (nClasses counts) (pc1 i))) eqn:Hpos;
    inversion Hnorm; subst pc; clear Hnorm.
  - split.
    + intros i' j Hi'. rewrite set_row_other by exact Hi'. auto.
    + intros j Hj. destruct (Hr j Hj) as (c & Hc & H1 & Hv).
      exists c. split; [exact Hc|]. split; [exact H1|].
      rewrite set_row_same. unfold normalize.
      rewrite <- (Hsum c Hc), Hpos, Hv. reflexivity.
  - split; [exact Ho|].
    intros j Hj. destruct (Hr j Hj) as (c & Hc & H1 & Hv).
    exists c. split; [exact Hc|]. split; [exact H1|].
    unfold normalize. rewrite <- (Hsum c Hc), Hpos. exact Hv.
Qed.

(** Every row of the result of [e_step] is the normalised row of scores. *)
Lemma e_step_rows pc i j :
  e_step counts gold_data class_marginals error_rates AM_noise = Ok pc ->
  (i < nPatients counts)%nat -> (j < nClasses counts)%nat ->
  exists c, blind_spot counts gold_data AM_noise i = Ok c
            /\ (c = true -> (1 < nClasses counts)%nat)
            /\ pc i j
               = normalize (nClasses counts)
                   (e_scores counts class_marginals error_rates c i) j.
Proof.
  intros Hrun Hi Hj. unfold e_step in Hrun.
  apply (for_range_inv (fun n a =>
    (forall i j, (i < n)%nat -> (j < nClasses counts)%nat ->
       exists c, blind_spot counts gold_data AM_noise i = Ok c
                 /\ (c = true -> (1 < nClasses counts)%nat)
                 /\ a i j
                    = normalize (nClasses counts)
                        (e_scores counts class_marginals error_rates c i) j)
    /\ (forall i j, (n <= i)%nat -> a i j = 0))) in Hrun.
  - destruct Hrun as [Hdone _]. apply Hdone; assumption.
  - split; [intros; lia | reflexivity].
  - intros n a b Hn [Hdone Hzero] Hb.
    apply e_step_patient_row in Hb; [|intros j'; apply Hzero; lia].
    destruct Hb as [Ho Hr]. split.
    + intros i' j' Hi' Hj'. destruct (Nat.eq_dec i' n) as [->|Hne].
      * apply Hr. exact Hj'.
      * rewrite Ho by exact Hne. apply Hdone; [lia | exact Hj'].
    + intros i' j' Hi'. rewrite Ho by lia. apply Hzero. lia.
Qed.

End EStep.

(** ** [m_step] *)

Lemma set3_same a k j l v : set3 a k j l v k j l = v.
Proof. unfold set3. rewrite !Nat.eqb_refl. reflexivity. Qed.

Lemma set3_other a k j l v k' j' l' :
  k' <> k \/ j' <> j \/ l' <> l -> set3 a k j l v k' j' l' = a k' j' l'.
Proof.
  intros H. unfold set3.
  destruct (Nat.eqb_spec k' k), (Nat.eqb_spec j' j), (Nat.eqb_spec l' l);
    simpl; try reflexivity.
  exfalso. destruct H as [H|[H|H]]; contradiction.
Qed.

Lemma set_row3_same a k j r l : set_row3 a k j r k j l = r l.
Proof. unfold set_row3. rewrite !Nat.eqb_refl. reflexivity. Qed.

Lemma set_row3_other a k j r k' j' l :
  k' <> k \/ j' <> j -> set_row3 a k j r k' j' l = a k' j' l.
Proof.
  intros H. unfold set_row3.
  destruct (Nat.eqb_spec k' k), (Nat.eqb_spec j' j); simpl; try reflexivity.
  exfalso. destruct H as [H|H]; contradiction.
Qed.

Section MStep.

Variables (counts : counts_t) (patient_classes : mat) (AM_noise : Z).

(** The loop over [l] stores the soft counts of row [[k,j,:]]. *)
Lemma soft_counts_loop k j er0 er :
  for_range (nClasses counts)
    (fun l er =>
       Ok (set3 er k j l
             (np_dot (nPatients counts)
                (fun i => patient_classes i j)
                (fun i => of_nat (count counts i k l)))))
    er0 = Ok er ->
  (forall k' j' l, k' <> k \/ j' <> j -> er k' j' l = er0 k' j' l)
  /\ (forall l, (l < nClasses counts)%nat ->
        er k j l = soft_counts counts patient_classes k j l).
Proof.
  intros Hrun.
  apply (for_range_inv (fun n a =>
    (forall k' j' l, k' <> k \/ j' <> j -> a k' j' l = er0 k' j' l)
    /\ (forall l, (l < n)%nat ->
          a k j l = soft_counts counts patient_classes k j l))) in Hrun.
  - exact Hrun.
  - split; [reflexivity | intros; lia].
  - intros n a b _ [Ho Hr] Hb. inversion Hb; subst b; clear Hb. split.
    + intros k' j' l H. rewrite set3_other by tauto. auto.
    + intros l Hl. destruct (Nat.eq_dec l n) as [->|Hne].
      * apply set3_same.
      * rewrite set3_other by tauto. apply Hr. lia.
Qed.

(** One pass of the loop over [j]: row [[k,j,:]], found full of zeros,
    becomes [m_row]; no other row changes. *)
Lemma m_step_body_row k j er0 er :
  (forall l, er0 k j l = 0) ->
  m_step_body counts patient_classes AM_noise k j er0 = Ok er ->
  (forall k' j' l, k' <> k \/ j' <> j -> er k' j' l = er0 k' j' l)
  /\ (forall l, (l < nClasses counts)%nat ->
        er k j l = m_row counts patient_classes AM_noise k j l).
Proof.
  intros Hz Hrun. unfold m_step_body in Hrun. unfold m_row.
  destruct ((AM_noise =? 0)%Z && (j =? 0)%nat)%bool.
  - unfold setitem3 in Hrun.
    destruct (Nat.ltb_spec 0 (nClasses counts)); simpl in Hrun;
      [|discriminate].
    destruct (Nat.ltb_spec 1 (nClasses counts)); simpl in Hrun;
      [|discriminate].
    inversion Hrun; subst er; clear Hrun. split.
    + intros k' j' l Hne. rewrite !set3_other by tauto. reflexivity.
    + intros l Hl. unfold set3. rewrite !Nat.eqb_refl. simpl.
      destruct (Nat.eqb_spec l 1) as [->|Hl1]; [reflexivity|].
      destruct (Nat.eqb_spec l 0) as [->|Hl0]; [reflexivity | apply Hz].
  - apply bind_ok in Hrun. destruct Hrun as (er1 & Hloop & Hnorm).
    apply soft_counts_loop in Hloop. destruct Hloop as [Ho Hr].
    assert (Hsum : np_sum (nClasses counts) (er1 k j)
                   = np_sum (nClasses counts)
                       (soft_counts counts patient_classes k j))
      by (apply np_sum_ext; exact Hr).
    unfold normalize. rewrite <- Hsum.
    destruct (Qltb 0 (np_sum (nClasses counts) (er1 k j)));
      inversion Hnorm; subst er; clear Hnorm.
    + split.
      * intros k' j' l Hne. rewrite set_row3_other by exact Hne. auto.
      * intros l Hl. rewrite set_row3_same, Hr by exact Hl. reflexivity.
    + split; [exact Ho | exact Hr].
Qed.

(** The class marginals are the column means and every row of the error
    rates is [m_row]. *)
Lemma m_step_rows cm er :
  m_step counts patient_classes AM_noise = Ok (cm, er) ->
  cm = class_marginals_of counts patient_classes
  /\ forall k j l,
       (k < nObservers counts)%nat -> (j < nClasses counts)%nat ->
       (l < nClasses counts)%nat ->
       er k j l = m_row counts patient_classes AM_noise k j l.
Proof.
  intros Hrun. unfold m_step in Hrun.
  apply bind_ok in Hrun. destruct Hrun as (er' & Hloop & Hret).
  inversion Hret; subst cm er'; clear Hret.
  split; [reflexivity|].
  apply (for_range_inv (fun n a =>
    (forall k j l, (k < n)%nat -> (j < nClasses counts)%nat ->
       (l < nClasses counts)%nat ->
       a k j l = m_row counts patient_classes AM_noise k j l)
    /\ (forall k j l, (n <= k)%nat -> a k j l = 0))) in Hloop.
  - destruct Hloop as [Hdone _]. exact Hdone.
  - split; [intros; lia | reflexivity].
  - intros n a b _ [Hdone Hzero] Hb.
    apply (for_range_inv (fun m c =>
      (forall k j l, k <> n \/ (m <= j)%nat -> c k j l = a k j l)
      /\ (forall j l, (j < m)%nat -> (l < nClasses counts)%nat ->
            c n j l = m_row counts patient_classes AM_noise n j l))) in Hb.
    + destruct Hb as [Ho Hr]. split.
      * intros k j l Hk Hj Hl. destruct (Nat.eq_dec k n) as [->|Hne].
        -- apply Hr; assumption.
        -- rewrite Ho by tauto. apply Hdone; [lia | assumption..].
      * intros k j l Hk. rewrite Ho by (left; lia). apply Hzero. lia.
    + split; [reflexivity | intros; lia].
    + intros m c d _ [Ho Hr] Hd.
      apply m_step_body_row in Hd.
      * destruct Hd as [Ho' Hr']. split.
        -- intros k j l H. rewrite Ho' by (destruct H; [tauto | right; lia]).
           apply Ho. destruct H; [tauto | right; lia].
        -- intros j l Hj Hl. destruct (Nat.eq_dec j m) as [->|Hne].
           ++ apply Hr'. exact Hl.
           ++ rewrite Ho' by tauto. apply Hr; [lia | exact Hl].
      * intros l. rewrite Ho by (right; lia). apply Hzero. lia.
Qed.

(** [m_step] raises only on the two stores of the forced row. *)
Lemma m_step_total :
  (AM_noise = 0%Z -> nClasses counts <> 1%nat \/ nObservers counts = 0%nat) ->
  exists cm er, m_step counts patient_classes AM_noise = Ok (cm, er).
Proof.
  intros Hshape. unfold m_step.
  destruct (@for_range_total _ (fun _ _ => True) (nObservers counts)
              (fun k er =>
                 for_range (nClasses counts)
                   (m_step_body counts patient_classes AM_noise k) er)
              zeros3) as (er & Hrun & _); [exact I| |].
  - intros k a Hk _.
    destruct (@for_range_total _ (fun _ _ => True) (nClasses counts)
                (m_step_body counts patient_classes AM_noise k) a)
      as (b & Hb & _); [exact I| |eauto].
    intros j c Hj _. unfold m_step_body.
    destruct (Z.eqb_spec AM_noise 0) as [HA|HA]; simpl.
    + destruct (Nat.eqb_spec j 0) as [->|Hj0].
      * unfold setitem3.
        destruct (Hshape HA) as [H1|H1]; [|lia].
        destruct (Nat.ltb_spec 0 (nClasses counts)); [|lia]. simpl.
        destruct (Nat.ltb_spec 1 (nClasses counts)); [|lia]. eauto.
      * destruct (@for_range_total _ (fun _ _ => True) (nClasses counts)
                    (fun l er =>
                       Ok (set3 er k j l
                             (np_dot (nPatients counts)
                                (fun i => patient_classes i j)
                                (fun i => of_nat (count counts i k l))))) c)
          as (d & Hd & _); [exact I | eauto |].
        rewrite Hd. simpl. destruct (Qltb 0 _); eauto.
    + destruct (@for_range_total _ (fun _ _ => True) (nClasses counts)
                  (fun l er =>
                     Ok (set3 er k j l
                           (np_dot (nPatients counts)
                              (fun i => patient_classes i j)
                              (fun i => of_nat (count counts i k l))))) c)
        as (d & Hd & _); [exact I | eauto |].
      rewrite Hd. simpl. destruct (Qltb 0 _); eauto.
  - rewrite Hrun. simpl. eauto.
Qed.

End MStep.

(** ** When the blind-spot test and the steps return *)

Lemma blind_spot_plain counts gold_data AM_noise p :
  AM_noise <> 0%Z -> AM_noise <> 2%Z ->
  blind_spot counts gold_data AM_noise p = Ok false.
Proof.
  intros H0 H2. unfold blind_spot.
  destruct (Z.eqb_spec AM_noise 0); [contradiction|].
  destruct (Z.eqb_spec AM_noise 2); [contradiction | reflexivity].
Qed.

Lemma blind_spot_gold counts gold_data p :
  blind_spot counts gold_data 2 p = Ok (0 <? gold_data p)%nat.
Proof. reflexivity. Qed.

Lemma blind_spot_single_observer counts gold_data p :
  nObservers counts = 1%nat -> (1 < nClasses counts)%nat ->
  blind_spot counts gold_data 0 p = Ok (0 <? count counts p 0 1)%nat.
Proof.
  intros HO HC. unfold blind_spot. simpl.
  destruct (Nat.ltb_spec 1 (nClasses counts)); [|lia].
  rewrite HO. reflexivity.
Qed.

(** With two or more observers the test of [AM_noise == 0] raises. *)
Lemma blind_spot_many_observers counts gold_data p :
  (1 < nObservers counts)%nat -> (1 < nClasses counts)%nat ->
  blind_spot counts gold_data 0 p = Raise ValueError.
Proof.
  intros HO HC. unfold blind_spot. simpl.
  destruct (Nat.ltb_spec 1 (nClasses counts)); [|lia].
  destruct (nObservers counts) as [|[|n]]; [lia | lia | reflexivity].
Qed.

(** The test returns whenever there are two classes and, for
    [AM_noise == 0], exactly one observer. *)
Lemma blind_spot_returns counts gold_data AM_noise p :
  (1 < nClasses counts)%nat ->
  (AM_noise = 0%Z -> nObservers counts = 1%nat) ->
  exists c, blind_spot counts gold_data AM_noise p = Ok c.
Proof.
  intros HC HO. unfold blind_spot.
  destruct (Z.eqb_spec AM_noise 0) as [H0|H0]; [|eauto].
  destruct (Nat.ltb_spec 1 (nClasses counts)); [|lia].
  rewrite (HO H0). simpl. eauto.
Qed.

Lemma e_step_total counts gold_data class_marginals error_rates AM_noise :
  (forall i, (i < nPatients counts)%nat ->
     exists c, blind_spot counts gold_data AM_noise i = Ok c
               /\ (c = true -> (1 < nClasses counts)%nat)) ->
  exists pc,
    e_step counts gold_data class_marginals error_rates AM_noise = Ok pc.
Proof.
  intros Hc. unfold e_step.
  destruct (@for_range_total _ (fun _ _ => True) (nPatients counts)
              (e_step_patient counts gold_data class_marginals error_rates
                 AM_noise) zeros2) as (pc & Hrun & _); [exact I| |eauto].
  intros i a Hi _. destruct (Hc i Hi) as (c & Hb & Hn).
  unfold e_step_patient.
  destruct (@for_range_total _ (fun _ _ => True) (nClasses counts)
              (e_step_body counts gold_data class_marginals error_rates
                 AM_noise i) a) as (b & Hb' & _); [exact I| |].
  - intros j d Hj _. unfold e_step_body. rewrite Hb. simpl. destruct c.
    + rewrite override_stores_ok by auto. eauto.
    + eauto.
  - rewrite Hb'. simpl. destruct (Qltb 0 _); eauto.
Qed.

(** Without noise model ([AM_noise] neither 0 nor 2) the E-step always
    returns. *)
Lemma e_step_plain_returns counts gold_data class_marginals error_rates
    AM_noise :
  AM_noise <> 0%Z -> AM_noise <> 2%Z ->
  exists pc,
    e_step counts gold_data class_marginals error_rates AM_noise = Ok pc.
Proof.
  intros H0 H2. apply e_step_total. intros i _. exists false.
  split; [apply blind_spot_plain; assumption | discriminate].
Qed.

(** ** Signs *)

Lemma class_likelihood_nonneg counts error_rates i j :
  (forall k l, (k < nObservers counts)%nat -> (l < nClasses counts)%nat ->
               0 <= error_rates k j l) ->
  0 <= class_likelihood counts error_rates i j.
Proof.
  intros H. unfold class_likelihood.
  apply np_prod_nonneg. intros k Hk.
  apply np_prod_nonneg. intros l Hl.
  apply np_power_nonneg. auto.
Qed.

Lemma e_scores_nonneg counts class_marginals error_rates c i j :
  0 <= class_marginals j ->
  (forall k l, (k < nObservers counts)%nat -> (l < nClasses counts)%nat ->
               0 <= error_rates k j l) ->
  0 <= e_scores counts class_marginals error_rates c i j.
Proof.
  intros Hcm Her. unfold e_scores. destruct c.
  - destruct (j =? 0)%nat; [lra|]. destruct (j =? 1)%nat; lra.
  - apply Qmult_le_0_compat; [exact Hcm|].
    apply class_likelihood_nonneg. exact Her.
Qed.

Lemma normalize_nonneg n r j :
  (forall j, (j < n)%nat -> 0 <= r j) -> (j < n)%nat -> 0 <= normalize n r j.
Proof.
  intros H Hj. unfold normalize.
  destruct (Qltb 0 (np_sum n r)) eqn:Hs; [|auto].
  apply Qltb_lt in Hs. apply Qle_shift_div_l; [exact Hs|].
  rewrite Qmult_0_l. auto.
Qed.

(** A normalised row of non-negative entries sums to 1 or is all-zero. *)
Lemma normalize_sum n r :
  (forall j, (j < n)%nat -> 0 <= r j) ->
  np_sum n (normalize n r) == 1
  \/ forall j, (j < n)%nat -> normalize n r j == 0.
Proof.
  intros H. unfold normalize.
  destruct (Qltb 0 (np_sum n r)) eqn:Hs.
  - left. apply Qltb_lt in Hs. apply np_sum_normalized. exact Hs.
  - right. apply Qltb_ge in Hs. intros j Hj.
    apply (np_sum_zero_terms r H Hs Hj).
Qed.

Lemma normalize_positive n r j :
  0 < np_sum n r -> normalize n r j == r j / np_sum n r.
Proof.
  intros H. unfold normalize. apply Qltb_lt in H. rewrite H. reflexivity.
Qed.

Lemma normalize_zero n r j :
  np_sum n r <= 0 -> normalize n r j = r j.
Proof.
  intros H. unfold normalize. apply Qltb_ge in H. rewrite H. reflexivity.
Qed.

(** The sum of the forced row [[0, 1, 0, ...]] over two or more classes. *)
Lemma override_sum n :
  (1 < n)%nat ->
  np_sum n (fun j => if (j =? 0)%nat then 0
                     else if (j =? 1)%nat then 1 else 0) == 1.
Proof.
  intros Hn.
  rewrite (np_sum_ext_eq _ (fun j => if (j =? 1)%nat then 1 else 0)).
  - apply np_sum_single. exact Hn.
  - intros j _. destruct (Nat.eqb_spec j 0) as [->|]; reflexivity.
Qed.

(** * The E-step *)

(** C1.  E-step postcondition.  For an item [i] to which no blind-spot
    override applies (in particular for every item when [AM_noise == 1]),
    the posterior row written by [e_step] is obtained from the scores
    [ClassMarginal[j] * prod_k prod_l ErrorRate[k,j,l] ^ Count[i,k,l]]:
    when their sum is positive the row is the scores divided by the sum,
    and sums to 1; when the sum is zero (marginals and error rates being
    probabilities, hence non-negative) the row is exactly all-zero; and in
    any case where the sum is not positive the row is the scores
    themselves. *)
Theorem e_step_posterior_row counts gold_data class_marginals error_rates
    AM_noise pc i :
  e_step counts gold_data class_marginals error_rates AM_noise = Ok pc ->
  (i < nPatients counts)%nat ->
  AM_noise = 1%Z \/ blind_spot counts gold_data AM_noise i = Ok false ->
  let score := fun j =>
    class_marginals j
    * np_prod (nObservers counts) (fun k =>
        np_prod (nClasses counts) (fun l =>
          np_power (error_rates k j l) (count counts i k l))) in
  let total := np_sum (nClasses counts) score in
  (0 < total ->
     (forall j, (j < nClasses counts)%nat -> pc i j == score j / total)
     /\ np_sum (nClasses counts) (pc i) == 1)
  /\ (total == 0 ->
      (forall j, (j < nClasses counts)%nat -> 0 <= class_marginals j) ->
      (forall k j l, (k < nObservers counts)%nat ->
         (j < nClasses counts)%nat -> (l < nClasses counts)%nat ->
         0 <= error_rates k j l) ->
      forall j, (j < nClasses counts)%nat -> pc i j == 0)
  /\ (total <= 0 ->
      forall j, (j < nClasses counts)%nat -> pc i j == score j).
Proof.
  intros Hrun Hi Hplain score total.
  assert (Hc : blind_spot counts gold_data AM_noise i = Ok false).
  { destruct Hplain as [->|H]; [apply blind_spot_plain; lia | exact H]. }
  assert (Hrow : forall j, (j < nClasses counts)%nat ->
            pc i j = normalize (nClasses counts) score j).
  { intros j Hj.
    destruct (@e_step_rows _ _ _ _ _ _ _ _ Hrun Hi Hj)
      as (c & Hc' & _ & Hv).
    rewrite Hc in Hc'. inversion Hc'; subst c. exact Hv. }
  split; [|split].
  - intros Hpos. split.
    + intros j Hj. rewrite (Hrow j Hj). apply normalize_positive. exact Hpos.
    + rewrite (np_sum_ext _ _ Hrow).
      rewrite (np_sum_ext_eq _ (fun j => score j / total)).
      * apply np_sum_normalized. exact Hpos.
      * intros j _. apply normalize_positive. exact Hpos.
  - intros Hzero Hcm Her j Hj. rewrite (Hrow j Hj).
    assert (Hle : total <= 0) by (rewrite Hzero; apply Qle_refl).
    rewrite normalize_zero by exact Hle.
    apply (@np_sum_zero_terms (nClasses counts) score); [|exact Hle | exact Hj].
    intros j' Hj'.
    apply (e_scores_nonneg counts class_marginals error_rates false i);
      auto.
  - intros Hle j Hj. rewrite (Hrow j Hj).
    rewrite normalize_zero by exact Hle. reflexivity.
Qed.

(** On [counts = [[[4, 0]]]] with the prior [[1/2, 1/2]] and the identity
    confusion matrix, the scores are [[1/2, 0]] and the row is [[1, 0]]. *)
Lemma e_step_posterior_row_witness :
  exists pc,
    e_step counts_4_0 no_gold uniform_prior identity_rates 1 = Ok pc
    /\ pc 0%nat 0%nat == 1 /\ pc 0%nat 1%nat == 0
    /\ np_sum 2 (pc 0%nat) == 1.
Proof.
  eexists. split; [reflexivity|].
  destruct (@e_step_posterior_row counts_4_0 no_gold uniform_prior
              identity_rates 1 _ 0%nat eq_refl (Nat.lt_0_succ 0)
              (or_introl eq_refl)) as ((Hrow & Hsum) & _ & _).
  - reflexivity.
  - split; [|split].
    + rewrite (Hrow 0%nat) by (simpl; lia). reflexivity.
    + rewrite (Hrow 1%nat) by (simpl; lia). reflexivity.
    + exact Hsum.
Defined.

(** * The M-step *)

(** C3.  M-step postcondition.  The class marginals are the column-wise
    mean of the posterior over the items (there being at least one item).
    For observer [k] and true class
    [j]: when [AM_noise == 0] and [j == 0] the row of error rates is the
    constant [[1, 0]] (zeros in any further class), whatever the data;
    otherwise its entry for the emitted class [l] is the dot product of
    column [j] of the posterior with column [l] of the counts of [k],
    divided by the sum of these dot products over [l] when that sum is
    positive (the row then sums to 1), and the row is exactly all-zero when
    that sum is zero (the posterior being non-negative). *)
Theorem m_step_postcondition counts patient_classes AM_noise cm er :
  m_step counts patient_classes AM_noise = Ok (cm, er) ->
  ((0 < nPatients counts)%nat ->
   forall j,
     cm j == np_sum (nPatients counts) (fun i => patient_classes i j)
             / of_nat (nPatients counts))
  /\ forall k j,
       (k < nObservers counts)%nat -> (j < nClasses counts)%nat ->
       (AM_noise = 0%Z /\ j = 0%nat ->
          er k j 0%nat == 1 /\ er k j 1%nat == 0
          /\ forall l, (1 < l < nClasses counts)%nat -> er k j l == 0)
       /\ (~ (AM_noise = 0%Z /\ j = 0%nat) ->
           let dots := fun l =>
             np_sum (nPatients counts) (fun i =>
               patient_classes i j * of_nat (count counts i k l)) in
           let total := np_sum (nClasses counts) dots in
           (0 < total ->
              (forall l, (l < nClasses counts)%nat ->
                 er k j l == dots l / total)
              /\ np_sum (nClasses counts) (er k j) == 1)
           /\ (total == 0 ->
               (forall i, (i < nPatients counts)%nat ->
                  0 <= patient_classes i j) ->
               forall l, (l < nClasses counts)%nat -> er k j l == 0)).
Proof.
  intros Hrun.
  assert (Htotal : AM_noise = 0%Z -> (0 < nObservers counts)%nat ->
                   (0 < nClasses counts)%nat -> (1 < nClasses counts)%nat).
  { (* the two stores of the forced row have been executed *)
    intros HA HO HC. unfold m_step in Hrun.
    apply bind_ok in Hrun. destruct Hrun as (er' & Hloop & _).
    unfold for_range in Hloop.
    destruct (nObservers counts) as [|nO]; [lia|].
    destruct (nClasses counts) as [|[|nC]] eqn:HnC; [lia| |lia].
    simpl in Hloop. unfold m_step_body in Hloop at 1.
    rewrite HA, HnC in Hloop. simpl in Hloop. discriminate. }
  apply m_step_rows in Hrun. destruct Hrun as [-> Her].
  split; [intros _ j; reflexivity|].
  intros k j Hk Hj. split.
  - intros [HA ->].
    assert (H1 : (1 < nClasses counts)%nat) by (apply Htotal; auto; lia).
    assert (Hrow : forall l, (l < nClasses counts)%nat ->
              er k 0%nat l = if (l =? 0)%nat then 1 else 0).
    { intros l Hl. rewrite (Her k 0%nat l Hk Hj Hl). unfold m_row.
      rewrite HA. reflexivity. }
    split; [rewrite Hrow by lia; reflexivity|].
    split; [rewrite Hrow by lia; reflexivity|].
    intros l Hl. rewrite Hrow by lia.
    destruct (Nat.eqb_spec l 0); [lia | reflexivity].
  - intros Hfree dots total.
    assert (Hrow : forall l, (l < nClasses counts)%nat ->
              er k j l = normalize (nClasses counts) dots l).
    { intros l Hl. rewrite (Her k j l Hk Hj Hl). unfold m_row.
      destruct (Z.eqb_spec AM_noise 0) as [HA|HA];
        destruct (Nat.eqb_spec j 0) as [Hj0|Hj0]; simpl;
        try reflexivity.
      exfalso. apply Hfree. auto. }
    split.
    + intros Hpos. split.
      * intros l Hl. rewrite (Hrow l Hl). apply normalize_positive.
        exact Hpos.
      * rewrite (np_sum_ext _ _ Hrow).
        rewrite (np_sum_ext_eq _ (fun l => dots l / total)).
        -- apply np_sum_normalized. exact Hpos.
        -- intros l _. apply normalize_positive. exact Hpos.
    + intros Hzero Hpc l Hl. rewrite (Hrow l Hl).
      assert (Hle : total <= 0) by (rewrite Hzero; apply Qle_refl).
      rewrite normalize_zero by exact Hle.
      apply (@np_sum_zero_terms (nClasses counts) dots);
        [|exact Hle | exact Hl].
      intros l' _. apply np_sum_nonneg. intros i' Hi'.
      apply Qmult_le_0_compat; [auto | apply of_nat_nonneg].
Qed.

(** On [counts = [[[4, 0]]]] and the posterior [[[1, 0]]], without noise
    model: the marginals are [[1, 0]], the row of true class 0 is
    [[1, 0]] and the row of true class 1, without soft evidence, is
    all-zero. *)
Lemma m_step_postcondition_witness :
  exists cm er,
    m_step counts_4_0 all_class_0 1 = Ok (cm, er)
    /\ cm 0%nat == 1 /\ cm 1%nat == 0
    /\ er 0%nat 0%nat 0%nat == 1 /\ er 0%nat 0%nat 1%nat == 0
    /\ er 0%nat 1%nat 0%nat == 0 /\ er 0%nat 1%nat 1%nat == 0.
Proof.
  eexists _, _. split; [reflexivity|].
  destruct (@m_step_postcondition counts_4_0 all_class_0 1 _ _ eq_refl)
    as [Hcm Her].
  assert (Hfree : forall j, ~ (1%Z = 0%Z /\ j = 0%nat))
    by (intros j [H _]; discriminate).
  destruct (Her 0%nat 0%nat (Nat.lt_0_succ 0) (Nat.lt_0_succ 1))
    as [_ H0].
  destruct (Her 0%nat 1%nat (Nat.lt_0_succ 0) (Nat.lt_succ_diag_r 1))
    as [_ H1].
  destruct (H0 (Hfree 0%nat)) as [Hpos _].
  destruct (H1 (Hfree 1%nat)) as [_ Hzero].
  destruct Hpos as [Hrow _]; [reflexivity|].
  split; [|split; [|split; [|split; [|split]]]].
  - rewrite Hcm by (simpl; lia). reflexivity.
  - rewrite Hcm by (simpl; lia). reflexivity.
  - rewrite (Hrow 0%nat) by (simpl; lia). reflexivity.
  - rewrite (Hrow 1%nat) by (simpl; lia). reflexivity.
  - apply Hzero; [reflexivity | | simpl; lia].
    intros i _. unfold all_class_0. discriminate.
  - apply Hzero; [reflexivity | | simpl; lia].
    intros i _. unfold all_class_0. discriminate.
Defined.

(** * The zero-power convention *)

(** C7.  Zero-power convention.  In the score of the E-step and in the
    likelihood evaluator an error rate raised to a count of 0 is the factor
    1, also when the error rate is 0; hence the product over the cells of
    an item does not depend on the error rates of the cells whose count is
    0, and an item without any count has likelihood product 1 under every
    class. *)
Theorem zero_power_convention :
  np_power 0 0 = 1
  /\ (forall x, np_power x 0 = 1)
  /\ (forall counts er er' i j,
        (forall k l, (k < nObservers counts)%nat ->
           (l < nClasses counts)%nat ->
           count counts i k l <> 0%nat -> er k j l = er' k j l) ->
        class_likelihood counts er i j = class_likelihood counts er' i j
        /\ (forall cm, e_scores counts cm er false i j
                       = e_scores counts cm er' false i j))
  /\ (forall counts cm er er' i,
        (forall k j l, (k < nObservers counts)%nat ->
           (j < nClasses counts)%nat -> (l < nClasses counts)%nat ->
           count counts i k l <> 0%nat -> er k j l = er' k j l) ->
        patient_likelihood counts cm er i = patient_likelihood counts cm er' i)
  /\ (forall counts er i j,
        (forall k l, (k < nObservers counts)%nat ->
           (l < nClasses counts)%nat -> count counts i k l = 0%nat) ->
        class_likelihood counts er i j == 1).
Proof.
  assert (Hind : forall counts er er' i j,
            (forall k l, (k < nObservers counts)%nat ->
               (l < nClasses counts)%nat ->
               count counts i k l <> 0%nat -> er k j l = er' k j l) ->
            class_likelihood counts er i j = class_likelihood counts er' i j).
  { intros counts er er' i j H. unfold class_likelihood.
    apply np_prod_ext. intros k Hk. apply np_prod_ext. intros l Hl.
    destruct (Nat.eq_dec (count counts i k l) 0) as [Hz|Hnz].
    - rewrite Hz. reflexivity.
    - rewrite (H k l Hk Hl Hnz). reflexivity. }
  split; [reflexivity|]. split; [reflexivity|]. split; [|split].
  - intros counts er er' i j H. split; [apply Hind; exact H|].
    intros cm. unfold e_scores. rewrite (Hind counts er er' i j H).
    reflexivity.
  - intros counts cm er er' i H. unfold patient_likelihood.
    apply np_sum_ext. intros j Hj.
    rewrite (Hind counts er er' i j); [reflexivity|].
    intros k l Hk Hl. apply H; assumption.
  - intros counts er i j H. unfold class_likelihood.
    apply np_prod_one. intros k Hk. apply np_prod_one. intros l Hl.
    rewrite (H k l Hk Hl). reflexivity.
Qed.

(** An observer whose estimated rates are all 0 and who has not seen the
    item leaves the likelihood product at 1. *)
Lemma zero_power_convention_witness :
  class_likelihood
    {| nPatients := 1; nObservers := 1; nClasses := 2;
       count := fun _ _ _ => 0%nat |}
    zeros3 0 0 == 1.
Proof.
  destruct zero_power_convention as (_ & _ & _ & _ & H).
  apply H. intros k l _ _. reflexivity.
Defined.

(** * The blind-spot override *)

(** The row [[0, 1, 0, ...]] is left unchanged, up to [==], by the
    normalisation. *)
Lemma normalize_override n j :
  (1 < n)%nat ->
  normalize n (fun j => if (j =? 0)%nat then 0
                        else if (j =? 1)%nat then 1 else 0) j
  == if (j =? 0)%nat then 0 else if (j =? 1)%nat then 1 else 0.
Proof.
  intros Hn. rewrite normalize_positive.
  - rewrite (override_sum Hn). field.
  - rewrite (override_sum Hn). reflexivity.
Qed.

(** The override where the test has a truth value.  With two classes or
    more: for [AM_noise == 0] and a single observer, every item with at
    least one count of class 1 has the posterior row [[0, 1]] after the
    initialisation and after every E-step, whatever the marginals and
    error rates; likewise for [AM_noise == 2] and any number of observers,
    every item whose gold entry is set.  Both [initialize] and [e_step]
    return on these inputs. *)
Theorem blind_spot_override counts gold_data AM_noise p :
  (1 < nClasses counts)%nat ->
  (p < nPatients counts)%nat ->
  (AM_noise = 0%Z /\ nObservers counts = 1%nat
   /\ (0 < count counts p 0 1)%nat)
  \/ (AM_noise = 2%Z /\ (0 < gold_data p)%nat) ->
  (exists pc rb,
     initialize counts gold_data AM_noise = Ok (pc, rb)
     /\ certain_class_1 (nClasses counts) (pc p))
  /\ (forall class_marginals error_rates,
        exists pc,
          e_step counts gold_data class_marginals error_rates AM_noise
          = Ok pc
          /\ certain_class_1 (nClasses counts) (pc p)).
Proof.
  intros HC Hp Hcase.
  assert (Hret : forall i, (i < nPatients counts)%nat ->
            exists c, blind_spot counts gold_data AM_noise i = Ok c
                      /\ (c = true -> (1 < nClasses counts)%nat)).
  { intros i _.
    destruct (@blind_spot_returns counts gold_data AM_noise i HC)
      as (c & Hc); [|eauto].
    intros HA. destruct Hcase as [(_ & HO & _)|(HA2 & _)]; lia. }
  assert (Hc : blind_spot counts gold_data AM_noise p = Ok true).
  { destruct Hcase as [(-> & HO & Hcount)|(-> & Hgold)].
    - rewrite blind_spot_single_observer by assumption.
      destruct (Nat.ltb_spec 0 (count counts p 0 1)); [reflexivity | lia].
    - rewrite blind_spot_gold.
      destruct (Nat.ltb_spec 0 (gold_data p)); [reflexivity | lia]. }
  split.
  - destruct (@initialize_total _ _ _ Hret) as (pc & rb & Hrun).
    exists pc, rb. split; [exact Hrun|].
    destruct (@initialize_rows _ _ _ _ _ _ Hrun Hp) as (c & Hc' & _ & Hrow).
    rewrite Hc in Hc'. inversion Hc'; subst c.
    unfold certain_class_1. rewrite !Hrow. unfold initial_row. simpl.
    split; [reflexivity|]. split; [reflexivity|].
    intros j Hj. rewrite Hrow. unfold initial_row.
    destruct (Nat.eqb_spec j 0); [lia|].
    destruct (Nat.eqb_spec j 1); [lia | reflexivity].
  - intros cm er.
    destruct (@e_step_total counts gold_data cm er AM_noise Hret)
      as (pc & Hrun).
    exists pc. split; [exact Hrun|].
    assert (Hrow : forall j, (j < nClasses counts)%nat ->
              pc p j == if (j =? 0)%nat then 0
                        else if (j =? 1)%nat then 1 else 0).
    { intros j Hj.
      destruct (@e_step_rows _ _ _ _ _ _ _ _ Hrun Hp Hj)
        as (c & Hc' & _ & Hv).
      rewrite Hc in Hc'. inversion Hc'; subst c. rewrite Hv.
      unfold e_scores. apply normalize_override. exact HC. }
    unfold certain_class_1.
    split; [rewrite Hrow by lia; reflexivity|].
    split; [rewrite Hrow by lia; reflexivity|].
    intros j Hj. rewrite Hrow by lia.
    destruct (Nat.eqb_spec j 0); [lia|].
    destruct (Nat.eqb_spec j 1); [lia | reflexivity].
Qed.

(** [counts = [[[1, 2]]]] with [AM_noise == 0]: two labels of class 1 out
    of three force the row [[0, 1]]. *)
Lemma blind_spot_override_witness :
  (exists pc rb,
     initialize counts_1_2 no_gold 0 = Ok (pc, rb)
     /\ certain_class_1 2 (pc 0%nat))
  /\ (forall class_marginals error_rates,
        exists pc,
          e_step counts_1_2 no_gold class_marginals error_rates 0 = Ok pc
          /\ certain_class_1 2 (pc 0%nat)).
Proof.
  apply (@blind_spot_override counts_1_2 no_gold 0 0).
  - simpl. lia.
  - simpl. lia.
  - left. split; [reflexivity|]. split; [reflexivity|]. simpl. lia.
Defined.

(** C2.  The override is lost with two observers.  The item below has a
    count of class 1 from its first observer, and the claim gives it the
    row [[0, 1]]; with [AM_noise == 0] neither [initialize] nor [e_step]
    produces a posterior, and [run] raises before its first pass: the test
    asks for the truth value of the two-entry array [counts[p,:,1] > 0]
    instead of asking whether any of its entries holds, and numpy raises
    ValueError. *)
Lemma blind_spot_override_two_observers :
  (0 < count counts_two_observers 0 0 1)%nat
  /\ initialize counts_two_observers no_gold 0 = Raise ValueError
  /\ (forall class_marginals error_rates,
        e_step counts_two_observers no_gold class_marginals error_rates 0
        = Raise ValueError)
  /\ run (fun l => l) 200 responses_two_observers [0%Z; 1%Z] 0
       default_tol default_max_iter
     = Raised 0 ValueError.
Proof.
  split; [simpl; lia|]. split; [reflexivity|]. split; reflexivity.
Qed.

(** * The likelihood evaluator *)

Section Likelihood.

Variables (counts : counts_t) (class_marginals : vec) (error_rates : ten).

Let upto := log_L_upto counts class_marginals error_rates.
Let likelihood := patient_likelihood counts class_marginals error_rates.
Let loop := calc_likelihood_loop counts class_marginals error_rates.

Lemma np_log_finite x : np_isfinite (np_log x) = true <-> 0 < x.
Proof.
  unfold np_log. destruct (Qltb 0 x) eqn:H.
  - apply Qltb_lt in H. split; [intros _; exact H | reflexivity].
  - apply Qltb_ge in H. split.
    + destruct (Qeq_bool x 0); discriminate.
    + intros Hx. lra.
Qed.

Lemma log_add_finite a b :
  np_isfinite (log_add a b) = true
  <-> np_isfinite a = true /\ np_isfinite b = true.
Proof.
  destruct a, b; simpl; unfold np_isfinite; simpl; intuition discriminate.
Qed.

(** The accumulator is finite after [n] items exactly when each of them has
    a positive likelihood. *)
Lemma log_L_upto_finite n :
  np_isfinite (upto n) = true
  <-> forall i, (i < n)%nat -> 0 < likelihood i.
Proof.
  induction n as [|n IH].
  - split; [intros _ i Hi; lia | reflexivity].
  - unfold upto. simpl. rewrite log_add_finite, np_log_finite.
    fold upto. rewrite IH. split.
    + intros [Hn Hlast] i Hi.
      destruct (Nat.eq_dec i n) as [->|Hne]; [exact Hlast | apply Hn; lia].
    + intros H. split; [intros i Hi; apply H; lia | apply H; lia].
Qed.

Lemma log_L_upto_finite_le n m :
  (m <= n)%nat -> np_isfinite (upto n) = true -> np_isfinite (upto m) = true.
Proof.
  intros Hle. rewrite !log_L_upto_finite. intros H i Hi. apply H. lia.
Qed.

(** The loop from item [m] on, entered with the value accumulated so far. *)
Lemma calc_likelihood_loop_spec n m :
  match loop (seq m n) (upto m) with
  | Returns v =>
      v = upto (m + n)
      /\ forall i, (m < i <= m + n)%nat -> np_isfinite (upto i) = true
  | SysExit i a b c =>
      (m <= i < m + n)%nat
      /\ (forall i', (m < i' <= i)%nat -> np_isfinite (upto i') = true)
      /\ np_isfinite (upto (S i)) = false
      /\ a = upto i /\ b = np_log (likelihood i) /\ c = upto (S i)
  end.
Proof.
  revert m. induction n as [|n IH]; intros m.
  - simpl. rewrite Nat.add_0_r. split; [reflexivity | intros; lia].
  - unfold loop. simpl. fold loop. fold likelihood.
    change (log_add (upto m) (np_log (likelihood m))) with (upto (S m)).
    destruct (np_isnan (upto (S m)) || np_isinf (upto (S m))) eqn:Hbad.
    + split; [lia|]. split; [intros; lia|].
      split; [unfold np_isfinite; rewrite Hbad; reflexivity|].
      auto.
    + assert (Hfin : np_isfinite (upto (S m)) = true)
        by (unfold np_isfinite; rewrite Hbad; reflexivity).
      specialize (IH (S m)).
      destruct (loop (seq (S m) n) (upto (S m))) as [v|i a b c].
      * destruct IH as [-> Hall]. split; [f_equal; lia|].
        intros i Hi. destruct (Nat.eq_dec i (S m)) as [->|Hne];
          [exact Hfin | apply Hall; lia].
      * destruct IH as (Hi & Hbefore & Hrest). split; [lia|].
        split; [|exact Hrest].
        intros i' Hi'. destruct (Nat.eq_dec i' (S m)) as [->|Hne];
          [exact Hfin | apply Hbefore; lia].
Qed.

End Likelihood.

(** C6.  Likelihood evaluator.  The likelihood of item [i] is the sum over
    the classes [j] of [ClassMarginal[j]] times the product over observers
    and emitted classes of [ErrorRate[k,j,l] ^ Count[i,k,l]]; no blind-spot
    override enters (the function takes neither the configuration nor the
    gold vector).  [calc_likelihood] accumulates the logarithms: it exits,
    printing the item index, the value accumulated so far, the logarithm of
    the item and the new value, exactly at the first item at which the
    accumulated value is NaN or infinite, that is the first item whose
    likelihood is not positive; otherwise it returns the total, which is
    finite. *)
Theorem calc_likelihood_spec counts class_marginals error_rates :
  let upto := log_L_upto counts class_marginals error_rates in
  let likelihood := patient_likelihood counts class_marginals error_rates in
  (forall i,
     likelihood i
     = np_sum (nClasses counts) (fun j =>
         class_marginals j
         * np_prod (nObservers counts) (fun k =>
             np_prod (nClasses counts) (fun l =>
               np_power (error_rates k j l) (count counts i k l)))))
  /\ (forall n, np_isfinite (upto n) = true
                <-> forall i, (i < n)%nat -> 0 < likelihood i)
  /\ (forall i a b c,
        calc_likelihood counts class_marginals error_rates = SysExit i a b c
        <-> (i < nPatients counts)%nat
            /\ np_isfinite (upto i) = true
            /\ np_isfinite (upto (S i)) = false
            /\ a = upto i /\ b = np_log (likelihood i) /\ c = upto (S i))
  /\ (forall v,
        calc_likelihood counts class_marginals error_rates = Returns v
        <-> np_isfinite (upto (nPatients counts)) = true
            /\ v = upto (nPatients counts)).
Proof.
  intros upto likelihood.
  pose proof (calc_likelihood_loop_spec counts class_marginals error_rates
                (nPatients counts) 0) as Hloop.
  change (calc_likelihood_loop counts class_marginals error_rates
            (seq 0 (nPatients counts))
            (log_L_upto counts class_marginals error_rates 0))
    with (calc_likelihood counts class_marginals error_rates) in Hloop.
  cbn [Nat.add] in Hloop. fold upto in Hloop. fold likelihood in Hloop.
  split; [reflexivity|].
  split; [apply log_L_upto_finite|].
  split.
  - intros i a b c. split.
    + intros Hexit. rewrite Hexit in Hloop.
      destruct Hloop as (Hi & Hbefore & Hbad & Heq).
      split; [lia|]. split; [|split; assumption].
      destruct i as [|i]; [reflexivity | apply Hbefore; lia].
    + intros (Hi & Hfin & Hbad & -> & -> & ->).
      destruct (calc_likelihood counts class_marginals error_rates)
        as [v|i' a b c].
      * destruct Hloop as [_ Hall].
        rewrite (Hall (S i)) in Hbad by lia. discriminate.
      * destruct Hloop as (Hi' & Hbefore & Hbad' & -> & -> & ->).
        assert (i' = i); [|subst i'; reflexivity].
        destruct (Nat.lt_trichotomy i' i) as [Hlt|[Heq|Hgt]];
          [|exact Heq|].
        -- assert (Hok : np_isfinite (upto (S i')) = true)
             by (apply (@log_L_upto_finite_le counts class_marginals
                          error_rates i (S i')); [lia | exact Hfin]).
           rewrite Hok in Hbad'. discriminate.
        -- rewrite (Hbefore (S i)) in Hbad by lia. discriminate.
  - intros v. split.
    + intros Hret. rewrite Hret in Hloop. destruct Hloop as [-> Hall].
      split; [|reflexivity].
      destruct (nPatients counts) as [|n]; [reflexivity | apply Hall; lia].
    + intros [Hfin ->].
      destruct (calc_likelihood counts class_marginals error_rates)
        as [v|i a b c].
      * destruct Hloop as [-> _]. reflexivity.
      * destruct Hloop as (Hi & _ & Hbad & _).
        assert (Hok : np_isfinite (upto (S i)) = true)
          by (apply (@log_L_upto_finite_le counts class_marginals
                       error_rates (nPatients counts) (S i));
              [lia | exact Hfin]).
        rewrite Hok in Hbad. discriminate.
Qed.

(** A single item with [counts = [[[4, 0]]]]: under the prior [[1/2, 1/2]]
    and the identity confusion matrix the evaluator returns [ln (1/2)];
    under all-zero error rates the likelihood of the item is zero and the
    evaluator exits at item 0 with minus infinity. *)
Lemma calc_likelihood_spec_witness :
  calc_likelihood counts_4_0 uniform_prior identity_rates
  = Returns (log_L_upto counts_4_0 uniform_prior identity_rates 1)
  /\ calc_likelihood counts_4_0 uniform_prior zeros3
     = SysExit 0 (Ln 1) NegInf NegInf.
Proof.
  split.
  - apply (proj2 (proj2 (proj2 (calc_likelihood_spec counts_4_0
                                   uniform_prior identity_rates)))).
    split; reflexivity.
  - apply (proj1 (proj2 (proj2 (calc_likelihood_spec counts_4_0
                                   uniform_prior zeros3)))).
    simpl. repeat split; lia.
Defined.

(** * The EM controller *)

Lemma converged_test_spec counts tol max_iter n old_cm old_er cm er :
  converged_test counts tol max_iter n (Some (old_cm, old_er)) cm er = true
  <-> (class_marginals_diff counts cm old_cm < tol
       /\ error_rates_diff counts er old_er < tol)
      \/ (max_iter < Z.of_nat n)%Z.
Proof.
  unfold converged_test.
  rewrite orb_true_iff, andb_true_iff, !Qltb_lt, Z.ltb_lt. reflexivity.
Qed.

(** While the test fails against a previous iteration, the iteration count
    has not exceeded [max_iter]. *)
Lemma not_converged_within counts tol max_iter n old_cm old_er cm er :
  converged_test counts tol max_iter n (Some (old_cm, old_er)) cm er = false ->
  (Z.of_nat n <= max_iter)%Z.
Proof.
  intros Hconv. destruct (Z.le_gt_cases (Z.of_nat n) max_iter) as [H|H];
    [exact H|].
  exfalso.
  assert (converged_test counts tol max_iter n (Some (old_cm, old_er)) cm er
          = true)
    by (apply converged_test_spec; right; lia).
  congruence.
Qed.

Section Controller.

Variables (counts : counts_t) (gold_data : gold_t) (AM_noise : Z).
Variables (tol : Q) (max_iter : Z).

Let loop fuel := em_loop fuel counts gold_data AM_noise tol max_iter.

(** The iteration at which the loop entered with counter [it] must have
    stopped: one pass further when a previous iteration exists, two when
    none does, or [max_iter + 1]. *)
Let horizon (it : nat) (old : option (vec * ten)) : Z :=
  Z.max (max_iter + 1)
    (Z.of_nat it + match old with None => 2 | Some _ => 1 end).

Lemma em_loop_bound fuel it old pc n :
  iterations (loop fuel it old pc) = Some n ->
  (it < n)%nat /\ (Z.of_nat n <= horizon it old)%Z.
Proof.
  unfold loop, horizon. revert it old pc.
  induction fuel as [|fuel IH]; intros it old pc; simpl; [discriminate|].
  destruct (m_step counts pc AM_noise) as [[cm er]|e]; simpl;
    [|intros H; inversion H; subst n; destruct old; lia].
  destruct (e_step counts gold_data cm er AM_noise) as [pc'|e]; simpl;
    [|intros H; inversion H; subst n; destruct old; lia].
  destruct (calc_likelihood counts cm er) as [v|i a b c]; simpl;
    [|intros H; inversion H; subst n; destruct old; lia].
  destruct (converged_test counts tol max_iter (S it) old cm er) eqn:Hconv;
    simpl; [intros H; inversion H; subst n; destruct old; lia|].
  intros H. apply IH in H. destruct H as [Hlt Hle]. split; [lia|].
  destruct old as [[old_cm old_er]|]; [|lia].
  pose proof (not_converged_within _ _ _ _ _ _ _ _ Hconv). lia.
Qed.

Lemma em_loop_fuel fuel it old pc :
  (horizon it old - Z.of_nat it <= Z.of_nat fuel)%Z ->
  loop fuel it old pc <> OutOfFuel.
Proof.
  unfold loop, horizon. revert it old pc.
  induction fuel as [|fuel IH]; intros it old pc Hfuel; simpl.
  - exfalso. destruct old; lia.
  - destruct (m_step counts pc AM_noise) as [[cm er]|e]; [|discriminate].
    destruct (e_step counts gold_data cm er AM_noise) as [pc'|e];
      [|discriminate].
    destruct (calc_likelihood counts cm er) as [v|i a b c]; [|discriminate].
    destruct (converged_test counts tol max_iter (S it) old cm er) eqn:Hconv;
      [discriminate|].
    apply IH.
    destruct old as [[old_cm old_er]|]; [|lia].
    pose proof (not_converged_within _ _ _ _ _ _ _ _ Hconv). lia.
Qed.

(** The loop cannot return on a pass that has no previous iteration. *)
Lemma em_loop_min fuel it old pc n pc' cm er :
  loop fuel it old pc = Returned n pc' cm er ->
  (it + match old with None => 2 | Some _ => 1 end <= n)%nat.
Proof.
  unfold loop. revert it old pc.
  induction fuel as [|fuel IH]; intros it old pc; simpl; [discriminate|].
  destruct (m_step counts pc AM_noise) as [[cm1 er1]|e]; [|discriminate].
  destruct (e_step counts gold_data cm1 er1 AM_noise) as [pc1|e];
    [|discriminate].
  destruct (calc_likelihood counts cm1 er1) as [v|i a b c]; [|discriminate].
  destruct (converged_test counts tol max_iter (S it) old cm1 er1) eqn:Hconv.
  - intros H. inversion H; subst. destruct old; [lia | discriminate].
  - intros H. apply IH in H. destruct old; lia.
Qed.

(** What the loop returns comes out of two consecutive iterations, and the
    test holds between their parameters. *)
Lemma em_loop_returned fuel it old pc n pc' cm er :
  posterior counts gold_data AM_noise pc ->
  match old with
  | None => True
  | Some (old_cm, old_er) =>
      exists pa, posterior counts gold_data AM_noise pa
                 /\ m_step counts pa AM_noise = Ok (old_cm, old_er)
                 /\ e_step counts gold_data old_cm old_er AM_noise = Ok pc
  end ->
  loop fuel it old pc = Returned n pc' cm er ->
  exists pa old_cm old_er pb,
    posterior counts gold_data AM_noise pa
    /\ m_step counts pa AM_noise = Ok (old_cm, old_er)
    /\ e_step counts gold_data old_cm old_er AM_noise = Ok pb
    /\ m_step counts pb AM_noise = Ok (cm, er)
    /\ e_step counts gold_data cm er AM_noise = Ok pc'
    /\ converged_test counts tol max_iter n (Some (old_cm, old_er)) cm er
       = true.
Proof.
  unfold loop. revert it old pc.
  induction fuel as [|fuel IH]; intros it old pc Hpost Hold; simpl;
    [discriminate|].
  destruct (m_step counts pc AM_noise) as [[cm1 er1]|e] eqn:Hm;
    [|discriminate].
  destruct (e_step counts gold_data cm1 er1 AM_noise) as [pc1|e] eqn:He;
    [|discriminate].
  destruct (calc_likelihood counts cm1 er1) as [v|i a b c]; [|discriminate].
  destruct (converged_test counts tol max_iter (S it) old cm1 er1) eqn:Hconv.
  - intros H. inversion H; subst.
    destruct old as [[old_cm old_er]|]; [|discriminate].
    destruct Hold as (pa & Hpa & Hma & Hea).
    exists pa, old_cm, old_er, pc. auto 10.
  - apply IH.
    + apply (posterior_e_step Hpost Hm He).
    + exists pc. auto.
Qed.

End Controller.

(** What a run returns is a posterior of the run. *)
Lemma em_returned_posterior fuel counts gold_data AM_noise tol max_iter n pc
    cm er :
  em fuel counts gold_data AM_noise tol max_iter = Returned n pc cm er ->
  posterior counts gold_data AM_noise pc
  /\ exists pb, posterior counts gold_data AM_noise pb
                /\ m_step counts pb AM_noise = Ok (cm, er).
Proof.
  unfold em.
  destruct (initialize counts gold_data AM_noise) as [[pc0 rb]|e] eqn:Hinit;
    [|discriminate].
  intros H.
  apply em_loop_returned in H;
    [|apply (posterior_initialize _ _ _ Hinit) | exact I].
  destruct H as (pa & old_cm & old_er & pb & Hpa & Hma & Hea & Hmb & Heb & _).
  assert (Hpb : posterior counts gold_data AM_noise pb)
    by (apply (posterior_e_step Hpa Hma Hea)).
  split; [apply (posterior_e_step Hpb Hmb Heb) | eauto].
Qed.

(** C8 (as amended).  Bounded termination of the EM controller.  The loop
    of [run] always terminates: with [max (max_iter + 1) 2] passes of fuel a
    run never runs out of fuel, and however it ends (return, exit of the
    likelihood evaluator, exception) the loop body has been entered at most
    [max (max_iter + 1) 2] times.  When the run returns at iteration [n],
    the class marginals and error rates of iterations [n - 1] and [n] differ
    by less than [tol] in summed absolute value, or [n] exceeds
    [max_iter]. *)
Theorem em_controller_terminates list_of_set responses classes AM_noise tol
    max_iter :
  let bound := Z.to_nat (Z.max (max_iter + 1) 2) in
  (forall fuel, (bound <= fuel)%nat ->
     run list_of_set fuel responses classes AM_noise tol max_iter
     <> OutOfFuel)
  /\ (forall fuel n,
        iterations
          (run list_of_set fuel responses classes AM_noise tol max_iter)
        = Some n ->
        (n <= bound)%nat)
  /\ (forall fuel n pc cm er,
        run list_of_set fuel responses classes AM_noise tol max_iter
        = Returned n pc cm er ->
        exists patients observers cls counts gold_data pa old_cm old_er pb,
          responses_to_counts list_of_set responses classes
          = Ok (patients, observers, cls, counts, gold_data)
          /\ posterior counts gold_data AM_noise pa
          /\ m_step counts pa AM_noise = Ok (old_cm, old_er)
          /\ e_step counts gold_data old_cm old_er AM_noise = Ok pb
          /\ m_step counts pb AM_noise = Ok (cm, er)
          /\ e_step counts gold_data cm er AM_noise = Ok pc
          /\ ((class_marginals_diff counts cm old_cm < tol
               /\ error_rates_diff counts er old_er < tol)
              \/ (max_iter < Z.of_nat n)%Z)).
Proof.
  intros bound. unfold run, em.
  destruct (responses_to_counts list_of_set responses classes)
    as [[[[[patients observers] cls] counts] gold_data]|e].
  2:{ split; [discriminate|]. split; [|discriminate].
      intros fuel n H. inversion H. lia. }
  destruct (initialize counts gold_data AM_noise) as [[pc0 rb]|e] eqn:Hinit.
  2:{ split; [discriminate|]. split; [|discriminate].
      intros fuel n H. inversion H. lia. }
  split; [|split].
  - intros fuel Hfuel. apply em_loop_fuel. unfold bound in Hfuel. lia.
  - intros fuel n H. apply em_loop_bound in H. unfold bound. lia.
  - intros fuel n pc cm er H.
    apply em_loop_returned in H;
      [|apply (posterior_initialize _ _ _ Hinit) | exact I].
    destruct H as (pa & old_cm & old_er & pb & Hpa & Hma & Hea & Hmb & Heb
                   & Hconv).
    apply converged_test_spec in Hconv.
    exists patients, observers, cls, counts, gold_data, pa, old_cm, old_er, pb.
    auto 10.
Qed.

(** With the default arguments, 101 passes of fuel are enough for the four
    labels [0, 0, 0, 0] of one patient, and the loop body is entered at
    most 101 times. *)
Lemma em_controller_terminates_witness :
  run (fun l => l) 101 responses_4_0 [0%Z; 1%Z] 1 default_tol
    default_max_iter <> OutOfFuel
  /\ forall n,
       iterations
         (run (fun l => l) 101 responses_4_0 [0%Z; 1%Z] 1 default_tol
            default_max_iter) = Some n ->
       (n <= 101)%nat.
Proof.
  destruct (em_controller_terminates (fun l => l) responses_4_0
              [0%Z; 1%Z] 1 default_tol default_max_iter) as (Hfuel & Hn & _).
  split.
  - apply Hfuel. simpl. lia.
  - intros n H. apply (Hn 101%nat n H).
Defined.

(** C8 as stated fails for [max_iter = 0]: the run on the four labels
    [0, 0, 0, 0] of one patient returns normally after entering the loop
    body twice, which is more than [max_iter + 1 = 1]. *)
Lemma em_controller_max_iter_zero :
  (exists pc cm er,
     run (fun l => l) 200 responses_4_0 [0%Z; 1%Z] 1 default_tol 0
     = Returned 2 pc cm er)
  /\ ~ (Z.of_nat 2 <= 0 + 1)%Z.
Proof.
  split; [|lia].
  eexists _, _, _. vm_compute. reflexivity.
Qed.

(** A run that leaves the loop by [return] with the counter at [n] has
    gone through [n] passes: the values it returns are those of an M-step
    and an E-step on the posterior that the passes before the last one
    computed, and with no previous parameters there is at least one such
    pass. *)
Lemma em_loop_passes counts gold_data AM_noise tol max_iter fuel :
  forall it old pc0 n pc cm er,
    em_loop fuel counts gold_data AM_noise tol max_iter it old pc0
    = Returned n pc cm er ->
    exists k pb,
      n = S (it + k)
      /\ em_passes counts gold_data AM_noise k pc0 = Ok pb
      /\ em_pass counts gold_data AM_noise pb = Ok (pc, cm, er)
      /\ (old = None -> (1 <= k)%nat).
Proof.
  induction fuel as [|fuel IH]; intros it old pc0 n pc cm er; simpl;
    [discriminate|].
  destruct (m_step counts pc0 AM_noise) as [[cm1 er1]|e] eqn:Hm;
    [|discriminate].
  destruct (e_step counts gold_data cm1 er1 AM_noise) as [pc1|e] eqn:He;
    [|discriminate].
  assert (Hpass : em_pass counts gold_data AM_noise pc0
                  = Ok (pc1, cm1, er1))
    by (unfold em_pass; rewrite Hm; simpl; rewrite He; reflexivity).
  destruct (calc_likelihood counts cm1 er1) as [v|i a b c]; [|discriminate].
  destruct (converged_test counts tol max_iter (S it) old cm1 er1) eqn:Hconv.
  - intros H. inversion H; subst. exists 0%nat, pc0.
    split; [lia|]. split; [reflexivity|]. split; [exact Hpass|].
    intros ->. discriminate.
  - intros H. apply IH in H. destruct H as (k & pb & Hn & Hk & Hlast & _).
    exists (S k), pb. split; [lia|]. split; [|split; [exact Hlast | lia]].
    simpl. rewrite Hpass. exact Hk.
Qed.

(** C10 (as amended).  The EM controller never returns after the first
    iteration: on the first pass there are no previous parameters, and the
    test (tolerance and iteration bound alike) is not evaluated.  Whatever
    [tol] and [max_iter], a run that returns has performed at least two
    full iterations: it returns at a counter [n = m + 2], its posterior,
    marginals and error rates are the results of the M-step and the E-step
    of the last pass, run on the posterior that [m + 1] earlier passes of
    M-step and E-step computed from the initial one.  Not every run gets
    that far: a run that ends within its first pass does so by the exit of
    the likelihood evaluator or by an exception. *)
Theorem em_controller_two_iterations :
  (forall list_of_set fuel responses classes AM_noise tol max_iter n pc cm
          er,
     run list_of_set fuel responses classes AM_noise tol max_iter
     = Returned n pc cm er ->
     exists patients observers cls counts gold_data pc0 rb m pb,
       responses_to_counts list_of_set responses classes
       = Ok (patients, observers, cls, counts, gold_data)
       /\ initialize counts gold_data AM_noise = Ok (pc0, rb)
       /\ n = S (S m)
       /\ em_passes counts gold_data AM_noise (S m) pc0 = Ok pb
       /\ em_pass counts gold_data AM_noise pb = Ok (pc, cm, er))
  /\ (forall list_of_set fuel responses classes AM_noise tol max_iter,
        iterations
          (run list_of_set fuel responses classes AM_noise tol max_iter)
        = Some 1%nat ->
        (exists i log_L term temp,
           run list_of_set fuel responses classes AM_noise tol max_iter
           = Exited 1 i log_L term temp)
        \/ (exists e,
              run list_of_set fuel responses classes AM_noise tol max_iter
              = Raised 1 e)).
Proof.
  assert (Hret : forall list_of_set fuel responses classes AM_noise tol
                        max_iter n pc cm er,
            run list_of_set fuel responses classes AM_noise tol max_iter
            = Returned n pc cm er ->
            exists patients observers cls counts gold_data pc0 rb m pb,
              responses_to_counts list_of_set responses classes
              = Ok (patients, observers, cls, counts, gold_data)
              /\ initialize counts gold_data AM_noise = Ok (pc0, rb)
              /\ n = S (S m)
              /\ em_passes counts gold_data AM_noise (S m) pc0 = Ok pb
              /\ em_pass counts gold_data AM_noise pb = Ok (pc, cm, er)).
  { intros list_of_set fuel responses classes AM_noise tol max_iter n pc cm
           er.
    unfold run, em.
    destruct (responses_to_counts list_of_set responses classes)
      as [[[[[patients observers] cls] counts] gold_data]|e] eqn:Hagg;
      [|discriminate].
    destruct (initialize counts gold_data AM_noise) as [[pc0 rb]|e]
      eqn:Hinit; [|discriminate].
    intros H. apply em_loop_passes in H.
    destruct H as (k & pb & Hn & Hk & Hlast & Hfirst).
    destruct k as [|m]; [specialize (Hfirst eq_refl); lia|].
    exists patients, observers, cls, counts, gold_data, pc0, rb, m, pb.
    split; [reflexivity|]. split; [exact Hinit|].
    split; [lia|]. split; assumption. }
  split; [exact Hret|].
  intros list_of_set fuel responses classes AM_noise tol max_iter Hone.
  destruct (run list_of_set fuel responses classes AM_noise tol max_iter)
    as [n pc cm er|n i a b c|n e|] eqn:Hrun; simpl in Hone;
    try discriminate; inversion Hone; subst n.
  - apply Hret in Hrun.
    destruct Hrun as (? & ? & ? & ? & ? & ? & ? & m & ? & _ & _ & Hn & _).
    lia.
  - left. eauto.
  - right. eauto.
Qed.

(** With a tolerance of 1000 and [max_iter = 0] the deltas are below the
    tolerance from the start, and still the run on the four labels
    [0, 0, 0, 0] returns at iteration 2, after two passes. *)
Lemma em_controller_two_iterations_witness :
  exists n pc cm er,
    run (fun l => l) 5 responses_4_0 [0%Z; 1%Z] 1 1000 0
    = Returned n pc cm er
    /\ (2 <= n)%nat.
Proof.
  assert (Hrun : exists pc cm er,
            run (fun l => l) 5 responses_4_0 [0%Z; 1%Z] 1 1000 0
            = Returned 2 pc cm er)
    by (eexists _, _, _; vm_compute; reflexivity).
  destruct Hrun as (pc & cm & er & Hrun).
  destruct (proj1 em_controller_two_iterations (fun l => l) 5%nat
              responses_4_0 [0%Z; 1%Z] 1%Z 1000 0%Z 2%nat pc cm er Hrun)
    as (? & ? & ? & ? & ? & ? & ? & m & ? & _ & _ & Hn & _).
  exists 2%nat, pc, cm, er. split; [exact Hrun | lia].
Defined.

(** C10 as stated fails: not every run performs two iterations.  On one
    patient whose observer has given no response, the first M-step gives
    the marginals [[0, 0]], the likelihood of the item is 0, its logarithm
    is minus infinity and the likelihood evaluator exits within the first
    pass. *)
Lemma em_controller_first_pass_exit :
  run (fun l => l) 5 responses_no_observation [0%Z; 1%Z] 1 default_tol
    default_max_iter
  = Exited 1 0 (Ln 1) NegInf NegInf
  /\ iterations
       (run (fun l => l) 5 responses_no_observation [0%Z; 1%Z] 1 default_tol
          default_max_iter) = Some 1%nat
  /\ ~ (2 <= 1)%nat.
Proof.
  split; [vm_compute; reflexivity|]. split; [vm_compute; reflexivity | lia].
Qed.

(** * Invariants of the posterior *)

Lemma response_sums_nonneg counts p j : 0 <= response_sums counts p j.
Proof.
  unfold response_sums. apply np_sum_nonneg. intros k _. apply of_nat_nonneg.
Qed.

Lemma initial_row_nonneg counts c p j : 0 <= initial_row counts c p j.
Proof.
  unfold initial_row. destruct c.
  - destruct (j =? 0)%nat; [lra|]. destruct (j =? 1)%nat; lra.
  - destruct (Qltb 0 (np_sum (nClasses counts) (response_sums counts p)))
      eqn:Hs; [|lra].
    apply Qltb_lt in Hs. apply Qle_shift_div_l; [exact Hs|].
    rewrite Qmult_0_l. apply response_sums_nonneg.
Qed.

(** A row written by [initialize] sums to 1 or is all-zero. *)
Lemma initial_row_sum counts c p :
  (c = true -> (1 < nClasses counts)%nat) ->
  np_sum (nClasses counts) (initial_row counts c p) == 1
  \/ forall j, (j < nClasses counts)%nat -> initial_row counts c p j == 0.
Proof.
  intros Htwo. unfold initial_row. destruct c.
  - left. apply override_sum. auto.
  - destruct (Qltb 0 (np_sum (nClasses counts) (response_sums counts p)))
      eqn:Hs.
    + left. apply Qltb_lt in Hs. apply np_sum_normalized. exact Hs.
    + right. intros j _. reflexivity.
Qed.

Lemma class_marginals_nonneg counts patient_classes j :
  (forall i, (i < nPatients counts)%nat -> 0 <= patient_classes i j) ->
  0 <= class_marginals_of counts patient_classes j.
Proof.
  intros H. unfold class_marginals_of.
  assert (Hs : 0 <= np_sum (nPatients counts)
                      (fun i => patient_classes i j))
    by (apply np_sum_nonneg; exact H).
  destruct (nPatients counts) as [|n].
  - simpl. unfold Qdiv. rewrite Qmult_0_l. apply Qle_refl.
  - apply Qle_shift_div_l; [apply of_nat_pos; lia|].
    rewrite Qmult_0_l. exact Hs.
Qed.

Lemma soft_counts_nonneg counts patient_classes k j l :
  (forall i, (i < nPatients counts)%nat -> 0 <= patient_classes i j) ->
  0 <= soft_counts counts patient_classes k j l.
Proof.
  intros H. unfold soft_counts, np_dot. apply np_sum_nonneg. intros i Hi.
  apply Qmult_le_0_compat; [auto | apply of_nat_nonneg].
Qed.

Lemma m_row_nonneg counts patient_classes AM_noise k j l :
  (forall i, (i < nPatients counts)%nat -> 0 <= patient_classes i j) ->
  (l < nClasses counts)%nat ->
  0 <= m_row counts patient_classes AM_noise k j l.
Proof.
  intros H Hl. unfold m_row.
  destruct ((AM_noise =? 0)%Z && (j =? 0)%nat)%bool.
  - destruct (l =? 0)%nat; lra.
  - apply normalize_nonneg; [|exact Hl].
    intros l' _. apply soft_counts_nonneg. exact H.
Qed.

(** [m_step] turns a non-negative posterior into non-negative marginals and
    error rates. *)
Lemma m_step_nonneg counts patient_classes AM_noise cm er :
  (forall i j, (i < nPatients counts)%nat -> (j < nClasses counts)%nat ->
               0 <= patient_classes i j) ->
  m_step counts patient_classes AM_noise = Ok (cm, er) ->
  (forall j, (j < nClasses counts)%nat -> 0 <= cm j)
  /\ (forall k j l, (k < nObservers counts)%nat ->
        (j < nClasses counts)%nat -> (l < nClasses counts)%nat ->
        0 <= er k j l).
Proof.
  intros Hpc Hrun. apply m_step_rows in Hrun. destruct Hrun as [-> Her].
  split.
  - intros j Hj. apply class_marginals_nonneg. intros i Hi. auto.
  - intros k j l Hk Hj Hl. rewrite (Her k j l Hk Hj Hl).
    apply m_row_nonneg; [|exact Hl]. intros i Hi. auto.
Qed.

(** [e_step] turns non-negative marginals and error rates into rows that
    are non-negative and sum to 1 or are all-zero. *)
Lemma e_step_rows_normalized counts gold_data cm er AM_noise pc i :
  (forall j, (j < nClasses counts)%nat -> 0 <= cm j) ->
  (forall k j l, (k < nObservers counts)%nat ->
     (j < nClasses counts)%nat -> (l < nClasses counts)%nat ->
     0 <= er k j l) ->
  e_step counts gold_data cm er AM_noise = Ok pc ->
  (i < nPatients counts)%nat ->
  (forall j, (j < nClasses counts)%nat -> 0 <= pc i j)
  /\ (np_sum (nClasses counts) (pc i) == 1
      \/ forall j, (j < nClasses counts)%nat -> pc i j == 0).
Proof.
  intros Hcm Her Hrun Hi.
  destruct (nClasses counts) as [|n] eqn:HnC.
  { split; [intros j Hj; lia | right; intros j Hj; lia]. }
  rewrite <- HnC in *.
  assert (H0 : (0 < nClasses counts)%nat) by lia.
  destruct (@e_step_rows _ _ _ _ _ _ _ _ Hrun Hi H0) as (c & Hc & _ & _).
  assert (Hrow : forall j, (j < nClasses counts)%nat ->
            pc i j = normalize (nClasses counts)
                       (e_scores counts cm er c i) j).
  { intros j Hj.
    destruct (@e_step_rows _ _ _ _ _ _ _ _ Hrun Hi Hj)
      as (c' & Hc' & _ & Hv).
    rewrite Hc in Hc'. inversion Hc'; subst c'. exact Hv. }
  assert (Hscore : forall j, (j < nClasses counts)%nat ->
            0 <= e_scores counts cm er c i j).
  { intros j Hj. apply e_scores_nonneg; [auto|].
    intros k l Hk Hl. auto. }
  split.
  - intros j Hj. rewrite (Hrow j Hj).
    apply normalize_nonneg; assumption.
  - destruct (@normalize_sum _ _ Hscore) as [Hone|Hzero].
    + left. rewrite (np_sum_ext _ _ Hrow). exact Hone.
    + right. intros j Hj. rewrite (Hrow j Hj). apply Hzero. exact Hj.
Qed.

(** C4.  Posterior row-normalisation invariant.  Every value the posterior
    takes in a run, as the output of the initialiser or of an E-step, has
    non-negative rows, each of which sums to 1 or is exactly all-zero. *)
Theorem posterior_rows_normalized counts gold_data AM_noise pc :
  posterior counts gold_data AM_noise pc ->
  forall i, (i < nPatients counts)%nat ->
    (forall j, (j < nClasses counts)%nat -> 0 <= pc i j)
    /\ (np_sum (nClasses counts) (pc i) == 1
        \/ forall j, (j < nClasses counts)%nat -> pc i j == 0).
Proof.
  induction 1 as [pc rb Hinit | pc0 cm er pc Hpost IH Hm He]; intros i Hi.
  - destruct (@initialize_rows _ _ _ _ _ _ Hinit Hi)
      as (c & _ & Htwo & Hrow).
    split.
    + intros j _. rewrite Hrow. apply initial_row_nonneg.
    + destruct (@initial_row_sum counts c i Htwo) as [Hone|Hzero].
      * left. rewrite (np_sum_ext _ _ (fun j _ => Hrow j)). exact Hone.
      * right. intros j Hj. rewrite Hrow. apply Hzero. exact Hj.
  - destruct (@m_step_nonneg counts pc0 AM_noise cm er) as [Hcm Her];
      [|exact Hm|].
    + intros i' j Hi' Hj. apply (proj1 (IH i' Hi') j Hj).
    + apply (@e_step_rows_normalized counts gold_data cm er AM_noise pc i);
        assumption.
Qed.

(** The posterior of [counts = [[[1, 2]]]] after the initialisation,
    [[[1/3, 2/3]]], and after one iteration. *)
Lemma posterior_rows_normalized_witness :
  exists pc0 rb cm er pc,
    initialize counts_1_2 no_gold 1 = Ok (pc0, rb)
    /\ m_step counts_1_2 pc0 1 = Ok (cm, er)
    /\ e_step counts_1_2 no_gold cm er 1 = Ok pc
    /\ np_sum 2 (pc0 0%nat) == 1
    /\ np_sum 2 (pc 0%nat) == 1.
Proof.
  eexists _, _, _, _, _.
  split; [reflexivity|]. split; [reflexivity|]. split; [reflexivity|].
  assert (H0 : posterior counts_1_2 no_gold 1 _)
    by (eapply posterior_initialize; reflexivity).
  assert (H1 : posterior counts_1_2 no_gold 1 _)
    by (eapply (posterior_e_step H0); reflexivity).
  split.
  - destruct (@posterior_rows_normalized _ _ _ _ H0 0%nat (Nat.lt_0_succ 0))
      as [_ [Hone|Hzero]]; [exact Hone|].
    exfalso. specialize (Hzero 1%nat (Nat.lt_succ_diag_r 1)).
    vm_compute in Hzero. discriminate.
  - destruct (@posterior_rows_normalized _ _ _ _ H1 0%nat (Nat.lt_0_succ 0))
      as [_ [Hone|Hzero]]; [exact Hone|].
    exfalso. specialize (Hzero 1%nat (Nat.lt_succ_diag_r 1)).
    vm_compute in Hzero. discriminate.
Defined.

(** * Count aggregation *)

(** ** Lists and dictionaries *)

Lemma tuple_eqb_eq a b : tuple_eqb a b = true <-> a = b.
Proof.
  revert b. induction a as [|x a IH]; intros [|y b]; simpl;
    try (split; [discriminate | discriminate]); [tauto|].
  rewrite andb_true_iff, Z.eqb_eq, IH. split.
  - intros [-> ->]. reflexivity.
  - intros H. inversion H. auto.
Qed.

Section Dictionaries.

Variables (K : Type) (eqb : K -> K -> bool).
Hypothesis eqb_eq : forall x y, eqb x y = true <-> x = y.

Lemma eqb_refl x : eqb x x = true.
Proof. apply eqb_eq. reflexivity. Qed.

Lemma eqb_neq x y : x <> y -> eqb x y = false.
Proof.
  intros H. destruct (eqb x y) eqn:E; [|reflexivity].
  apply eqb_eq in E. contradiction.
Qed.

Lemma index_In l x : In x l -> exists n, index eqb l x = Ok n.
Proof.
  induction l as [|y l IH]; intros H; [contradiction|]. simpl.
  destruct (eqb y x) eqn:E; [eauto|].
  destruct H as [->|H]; [rewrite eqb_refl in E; discriminate|].
  destruct (IH H) as (n & ->). simpl. eauto.
Qed.

Lemma index_Ok_In l x n : index eqb l x = Ok n -> In x l.
Proof.
  revert n. induction l as [|y l IH]; intros n; simpl; [discriminate|].
  destruct (eqb y x) eqn:E.
  - intros _. left. apply eqb_eq. exact E.
  - intros H. apply bind_ok in H. destruct H as (m & Hm & _).
    right. apply (IH m Hm).
Qed.

(** Two values found at the same position are equal. *)
Lemma index_inj l x y n :
  index eqb l x = Ok n -> index eqb l y = Ok n -> x = y.
Proof.
  revert n. induction l as [|z l IH]; intros n; simpl; [discriminate|].
  destruct (eqb z x) eqn:Ex, (eqb z y) eqn:Ey.
  - intros _ _. apply eqb_eq in Ex, Ey. congruence.
  - intros H1 H2. inversion H1; subst n.
    destruct (index eqb l y); simpl in H2; discriminate.
  - intros H1 H2. inversion H2; subst n.
    destruct (index eqb l x); simpl in H1; discriminate.
  - intros H1 H2. apply bind_ok in H1, H2.
    destruct H1 as (a & Ha & Ha'), H2 as (b & Hb & Hb').
    inversion Ha'; inversion Hb'; subst. apply (IH a Ha).
    assert (a = b) by lia. subst b. exact Hb.
Qed.

Lemma getitem_In (V : Type) (d : dict K V) k v :
  NoDup (keys d) -> In (k, v) d -> getitem eqb d k = Ok v.
Proof.
  induction d as [|[k' v'] d IH]; intros Hnd H; [contradiction|].
  simpl in *. inversion Hnd as [|? ? Hnotin Hnd']; subst.
  destruct H as [H|H].
  - inversion H; subst. rewrite eqb_refl. reflexivity.
  - destruct (eqb k' k) eqn:E.
    + apply eqb_eq in E. subst k'. exfalso. apply Hnotin.
      unfold keys. apply (in_map fst d (k, v) H).
    + apply IH; assumption.
Qed.

Lemma getitem_Ok_In (V : Type) (d : dict K V) k v :
  getitem eqb d k = Ok v -> In (k, v) d.
Proof.
  induction d as [|[k' v'] d IH]; simpl; [discriminate|].
  destruct (eqb k' k) eqn:E.
  - intros H. inversion H; subst. apply eqb_eq in E. subst. auto.
  - intros H. right. apply IH. exact H.
Qed.

Lemma getitem_key (V : Type) (d : dict K V) k :
  In k (keys d) -> exists v, getitem eqb d k = Ok v.
Proof.
  induction d as [|[k' v'] d IH]; intros H; [contradiction|]. simpl in *.
  destruct (eqb k' k) eqn:E; [eauto|].
  destruct H as [->|H]; [rewrite eqb_refl in E; discriminate | auto].
Qed.

Lemma getitem_not_key (V : Type) (d : dict K V) k :
  ~ In k (keys d) -> getitem eqb d k = Raise KeyError.
Proof.
  induction d as [|[k' v'] d IH]; intros H; [reflexivity|]. simpl in *.
  destruct (eqb k' k) eqn:E.
  - apply eqb_eq in E. subst. tauto.
  - apply IH. tauto.
Qed.

End Dictionaries.

(** ** The three loops of [responses_to_counts] *)

Lemma hits_cons classes j r rs :
  hits classes j (r :: rs)
  = ((match index Z.eqb classes (fst r) with
      | Ok j' => if (j' =? j)%nat then 1 else 0
      | Raise _ => 0
      end) + hits classes j rs)%nat.
Proof.
  unfold hits. simpl.
  destruct (index Z.eqb classes (fst r)) as [j'|e]; [|reflexivity].
  destruct (j' =? j)%nat; reflexivity.
Qed.

(** The loop over the responses of one observer on one patient adds, in the
    cells of that patient and observer, the number of responses of each
    class, and sets the gold entry of the patient if one of the responses
    is a gold response of class 1. *)
Lemma count_response_loop classes i k rs c0 g0 c g :
  for_each (count_response classes i k) rs (c0, g0) = Ok (c, g) ->
  (forall i' k' j',
     c i' k' j'
     = if ((i' =? i) && (k' =? k))%nat
       then (c0 i' k' j' + hits classes j' rs)%nat
       else c0 i' k' j')
  /\ (forall i',
        g i' = if (i' =? i)%nat && existsb gold_class_1 rs then 1%nat
               else g0 i').
Proof.
  revert c0 g0. induction rs as [|[label truth] rs IH]; intros c0 g0 Hrun.
  - simpl in Hrun. inversion Hrun; subst. split.
    + intros i' k' j'. unfold hits. simpl. rewrite Nat.add_0_r.
      destruct ((i' =? i) && (k' =? k))%nat; reflexivity.
    + intros i'. simpl. rewrite andb_false_r. reflexivity.
  - simpl in Hrun. unfold count_response at 1 in Hrun.
    destruct (index Z.eqb classes label) as [j|e] eqn:Hj; simpl in Hrun;
      [|discriminate].
    assert (Hstep : exists g1,
              for_each (count_response classes i k) rs
                (incr3 c0 i k j, g1) = Ok (c, g)
              /\ forall i', g1 i' = if (i' =? i)%nat
                                       && gold_class_1 (label, truth)
                                    then 1%nat else g0 i').
    { unfold gold_class_1. simpl.
      destruct ((label =? 1)%Z && String.eqb truth "t"); simpl in Hrun.
      - exists (set1 g0 i 1%nat). split; [exact Hrun|].
        intros i'. unfold set1. rewrite andb_true_r. reflexivity.
      - exists g0. split; [exact Hrun|].
        intros i'. rewrite andb_false_r. reflexivity. }
    destruct Hstep as (g1 & Hrest & Hg1).
    apply IH in Hrest. destruct Hrest as [Hc Hg]. split.
    + intros i' k' j'. rewrite Hc, hits_cons. simpl. rewrite Hj.
      unfold incr3.
      destruct (Nat.eqb_spec i' i), (Nat.eqb_spec k' k); simpl;
        try reflexivity.
      destruct (Nat.eqb_spec j' j), (Nat.eqb_spec j j'); subst; lia.
    + intros i'. rewrite Hg, Hg1. simpl.
      destruct (i' =? i)%nat; simpl; [|reflexivity].
      destruct (gold_class_1 (label, truth)); simpl; [|reflexivity].
      destruct (existsb gold_class_1 rs); reflexivity.
Qed.

Lemma existsb_eqb_In l (x : Z) : existsb (Z.eqb x) l = true <-> In x l.
Proof.
  rewrite existsb_exists. split.
  - intros (y & Hy & E). apply Z.eqb_eq in E. subst. exact Hy.
  - intros H. exists x. split; [exact H | apply Z.eqb_refl].
Qed.

(** The loop over the observers of one patient. *)
Lemma count_observer_loop responses observers classes pat i os c0 g0 c g :
  NoDup os ->
  for_each (count_observer responses observers classes pat i) os (c0, g0)
  = Ok (c, g) ->
  (forall i' k' j', i' <> i -> c i' k' j' = c0 i' k' j')
  /\ (forall obs k j,
        index Z.eqb observers obs = Ok k ->
        c i k j
        = if existsb (Z.eqb obs) os
          then (c0 i k j + hits classes j (observations responses pat obs))%nat
          else c0 i k j)
  /\ (forall i',
        g i' = if (i' =? i)%nat
                  && existsb (fun obs =>
                       existsb gold_class_1 (observations responses pat obs))
                       os
               then 1%nat else g0 i').
Proof.
  revert c0 g0. induction os as [|o os IH]; intros c0 g0 Hnd Hrun.
  - simpl in Hrun. inversion Hrun; subst.
    split; [reflexivity|]. split; [reflexivity|].
    intros i'. simpl. rewrite andb_false_r. reflexivity.
  - inversion Hnd as [|? ? Hnotin Hnd']; subst.
    simpl in Hrun. apply bind_ok in Hrun.
    destruct Hrun as ([c1 g1] & Hfirst & Hrest).
    unfold count_observer in Hfirst.
    apply bind_ok in Hfirst. destruct Hfirst as (k0 & Hk0 & Hfirst).
    apply bind_ok in Hfirst. destruct Hfirst as (by_observer & Hd & Hfirst).
    apply bind_ok in Hfirst. destruct Hfirst as (rs & Hrs & Hfirst).
    apply count_response_loop in Hfirst. destruct Hfirst as [Hc1 Hg1].
    assert (Hobs : observations responses pat o = rs)
      by (unfold observations; rewrite Hd, Hrs; reflexivity).
    apply IH in Hrest; [|exact Hnd']. destruct Hrest as (Ho & Hc & Hg).
    split; [|split].
    + intros i' k' j' Hi'. rewrite Ho by exact Hi'. rewrite Hc1.
      destruct (Nat.eqb_spec i' i); [contradiction | reflexivity].
    + intros obs k j Hk. rewrite (Hc obs k j Hk), Hc1, Nat.eqb_refl. simpl.
      destruct (Z.eqb_spec obs o) as [->|Hne]; simpl.
      * assert (k = k0) by congruence. subst k0.
        rewrite Nat.eqb_refl, Hobs.
        destruct (existsb (Z.eqb o) os) eqn:E; [|reflexivity].
        apply existsb_eqb_In in E. contradiction.
      * destruct (Nat.eqb_spec k k0) as [->|Hk'].
        -- exfalso. apply Hne.
           apply (@index_inj Z Z.eqb Z.eqb_eq observers obs o k0 Hk Hk0).
        -- reflexivity.
    + intros i'. rewrite Hg, Hg1. simpl. rewrite Hobs.
      destruct (i' =? i)%nat; simpl; [|reflexivity].
      destruct (existsb gold_class_1 rs); simpl; [|reflexivity].
      destruct (existsb _ os); reflexivity.
Qed.

Lemma existsb_eq_in (A : Type) (f g : A -> bool) l :
  (forall x, In x l -> f x = g x) -> existsb f l = existsb g l.
Proof.
  induction l as [|x l IH]; intros H; simpl; [reflexivity|].
  rewrite (H x), IH; auto with datatypes.
Qed.

(** Looking the keys of a dictionary up one by one visits all its values. *)
Lemma existsb_values (V : Type) (f : V -> bool) (d : dict Z (list V)) :
  NoDup (keys d) ->
  existsb (fun k => existsb f match getitem Z.eqb d k with
                              | Ok vs => vs
                              | Raise _ => []
                              end) (keys d)
  = existsb f (List.concat (map snd d)).
Proof.
  induction d as [|[k v] d IH]; intros Hnd; [reflexivity|].
  simpl in *. inversion Hnd as [|? ? Hnotin Hnd']; subst.
  rewrite Z.eqb_refl, existsb_app. f_equal.
  rewrite <- (IH Hnd'). apply existsb_eq_in. intros x Hx.
  destruct (Z.eqb_spec k x) as [->|Hne]; [contradiction | reflexivity].
Qed.

Lemma existsb_tuple_In l (x : patient) :
  existsb (tuple_eqb x) l = true <-> In x l.
Proof.
  rewrite existsb_exists. split.
  - intros (y & Hy & E). apply tuple_eqb_eq in E. subst. exact Hy.
  - intros H. exists x. split; [exact H | apply tuple_eqb_eq; reflexivity].
Qed.

(** An observer who has not seen the patient has no observation on it. *)
Lemma observations_not_seen (responses : responses_t) pat
    (by_observer : dict observer (list response)) obs :
  getitem tuple_eqb responses pat = Ok by_observer ->
  existsb (Z.eqb obs) (keys by_observer) = false ->
  observations responses pat obs = [].
Proof.
  intros Hd Hobs. unfold observations. rewrite Hd.
  rewrite (@getitem_not_key Z Z.eqb Z.eqb_eq); [reflexivity|].
  intros Hin. apply (proj2 (@existsb_eqb_In (keys by_observer) obs)) in Hin.
  rewrite Hin in Hobs. discriminate.
Qed.

(** The loop over the patients. *)
Lemma count_patient_loop responses patients observers classes ps c0 g0 c g :
  well_formed responses -> NoDup ps ->
  for_each (count_patient responses patients observers classes) ps (c0, g0)
  = Ok (c, g) ->
  (forall pat i obs k j,
     index tuple_eqb patients pat = Ok i ->
     index Z.eqb observers obs = Ok k ->
     c i k j
     = if existsb (tuple_eqb pat) ps
       then (c0 i k j + hits classes j (observations responses pat obs))%nat
       else c0 i k j)
  /\ (forall pat i,
        index tuple_eqb patients pat = Ok i ->
        g i = if existsb (tuple_eqb pat) ps
                 && existsb gold_class_1 (all_observations responses pat)
              then 1%nat else g0 i).
Proof.
  intros [Hkeys Hinner]. revert c0 g0.
  induction ps as [|p0 ps IH]; intros c0 g0 Hnd Hrun.
  - simpl in Hrun. inversion Hrun; subst. split; reflexivity.
  - inversion Hnd as [|? ? Hnotin Hnd']; subst.
    simpl in Hrun. apply bind_ok in Hrun.
    destruct Hrun as ([c1 g1] & Hfirst & Hrest).
    unfold count_patient in Hfirst.
    apply bind_ok in Hfirst. destruct Hfirst as (i0 & Hi0 & Hfirst).
    apply bind_ok in Hfirst. destruct Hfirst as (by_observer & Hd & Hfirst).
    assert (Hnd0 : NoDup (keys by_observer)).
    { apply (Hinner p0). apply (@getitem_Ok_In _ tuple_eqb tuple_eqb_eq).
      exact Hd. }
    apply count_observer_loop in Hfirst; [|exact Hnd0].
    destruct Hfirst as (Ho1 & Hc1 & Hg1).
    apply IH in Hrest; [|exact Hnd']. destruct Hrest as [Hc Hg].
    assert (Hrest0 : existsb (tuple_eqb p0) ps = false).
    { destruct (existsb (tuple_eqb p0) ps) eqn:E; [|reflexivity].
      apply existsb_tuple_In in E. contradiction. }
    split.
    + intros pat i obs k j Hi Hk. rewrite (Hc pat i obs k j Hi Hk). simpl.
      destruct (tuple_eqb pat p0) eqn:Ep; simpl.
      * apply tuple_eqb_eq in Ep. subst pat.
        assert (i = i0) by congruence. subst i0.
        rewrite Hrest0, (Hc1 obs k j Hk).
        destruct (existsb (Z.eqb obs) (keys by_observer)) eqn:Eo;
          [reflexivity|].
        rewrite (observations_not_seen _ _ _ Hd Eo). unfold hits. simpl. lia.
      * assert (Hne : i <> i0).
        { intros ->. rewrite
            (@index_inj _ tuple_eqb tuple_eqb_eq patients pat p0 i0 Hi Hi0)
            in Ep.
          rewrite (proj2 (tuple_eqb_eq p0 p0) eq_refl) in Ep. discriminate. }
        rewrite (Ho1 i k j Hne). reflexivity.
    + intros pat i Hi. rewrite (Hg pat i Hi), Hg1. simpl.
      destruct (tuple_eqb pat p0) eqn:Ep; simpl.
      * apply tuple_eqb_eq in Ep. subst pat.
        assert (i = i0) by congruence. subst i0.
        rewrite Hrest0, Nat.eqb_refl. simpl.
        unfold all_observations. rewrite Hd.
        assert (Hall :
                  existsb
                    (fun obs : observer =>
                       existsb gold_class_1 (observations responses p0 obs))
                    (keys by_observer)
                  = existsb gold_class_1
                      (List.concat (map snd by_observer))).
        { etransitivity;
            [|exact (@existsb_values _ gold_class_1 by_observer Hnd0)].
          apply existsb_eq_in. intros obs _.
          unfold observations. rewrite Hd. reflexivity. }
        rewrite Hall. reflexivity.
      * assert (Hne : i <> i0).
        { intros ->. rewrite
            (@index_inj _ tuple_eqb tuple_eqb_eq patients pat p0 i0 Hi Hi0)
            in Ep.
          rewrite (proj2 (tuple_eqb_eq p0 p0) eq_refl) in Ep. discriminate. }
        destruct (Nat.eqb_spec i i0); [contradiction|]. reflexivity.
Qed.

(** The responses that land in the class index of a label are the responses
    with that label. *)
Lemma hits_count_label classes label j rs :
  index Z.eqb classes label = Ok j ->
  hits classes j rs = count_label label rs.
Proof.
  intros Hj. unfold hits, count_label. f_equal.
  apply filter_ext. intros r.
  destruct (Z.eqb_spec (fst r) label) as [->|Hne].
  - rewrite Hj. apply Nat.eqb_refl.
  - destruct (index Z.eqb classes (fst r)) as [j'|e] eqn:Hr; [|reflexivity].
    destruct (Nat.eqb_spec j' j) as [->|]; [|reflexivity].
    exfalso. apply Hne.
    apply (@index_inj Z Z.eqb Z.eqb_eq classes (fst r) label j Hr Hj).
Qed.

Lemma gold_class_1_spec r :
  gold_class_1 r = true <-> fst r = 1%Z /\ snd r = "t"%string.
Proof.
  unfold gold_class_1. rewrite andb_true_iff, Z.eqb_eq, String.eqb_eq.
  reflexivity.
Qed.

(** C9.  Count aggregation postcondition.  After [responses_to_counts], for
    every patient, observer and class label, found at the positions [i],
    [k] and [j] of the lists of patients, observers and classes, the cell
    [counts[i,k,j]] is the number of responses of that observer on that
    patient with that class label (none when the observer has not seen the
    patient); and the gold entry of a patient is 1 if and only if one of
    its responses has class label 1 and truth label ['t'], and is 0
    otherwise, in particular when its gold responses are all of another
    class. *)
Theorem responses_to_counts_spec list_of_set responses classes patients
    observers cls counts gold_data :
  well_formed responses ->
  responses_to_counts list_of_set responses classes
  = Ok (patients, observers, cls, counts, gold_data) ->
  (patients = keys responses
   /\ nPatients counts = List.length patients
   /\ nObservers counts = List.length observers
   /\ nClasses counts = List.length classes)
  /\ (forall pat obs label i k j,
        index tuple_eqb patients pat = Ok i ->
        index Z.eqb observers obs = Ok k ->
        index Z.eqb classes label = Ok j ->
        count counts i k j
        = count_label label (observations responses pat obs))
  /\ (forall pat i,
        index tuple_eqb patients pat = Ok i ->
        (gold_data i = 1%nat
         <-> exists r, In r (all_observations responses pat)
                       /\ fst r = 1%Z /\ snd r = "t"%string)
        /\ (gold_data i = 1%nat \/ gold_data i = 0%nat)
        /\ ((forall r, In r (all_observations responses pat) ->
               snd r = "t"%string -> fst r <> 1%Z) ->
            gold_data i = 0%nat)).
Proof.
  intros Hwf Hrun. unfold responses_to_counts in Hrun.
  apply bind_ok in Hrun. destruct Hrun as ([c g] & Hloop & Hret).
  inversion Hret; subst; clear Hret. simpl.
  apply count_patient_loop in Hloop; [|exact Hwf | apply Hwf].
  destruct Hloop as [Hc Hg].
  split; [auto|]. split.
  - intros pat obs label i k j Hi Hk Hj.
    rewrite (Hc pat i obs k j Hi Hk).
    assert (Hin : existsb (tuple_eqb pat) (keys responses) = true).
    { apply existsb_tuple_In.
      apply (@index_Ok_In _ tuple_eqb tuple_eqb_eq _ _ _ Hi). }
    rewrite Hin. apply hits_count_label. exact Hj.
  - intros pat i Hi. rewrite (Hg pat i Hi).
    assert (Hin : existsb (tuple_eqb pat) (keys responses) = true).
    { apply existsb_tuple_In.
      apply (@index_Ok_In _ tuple_eqb tuple_eqb_eq _ _ _ Hi). }
    rewrite Hin. simpl.
    destruct (existsb gold_class_1 (all_observations responses pat)) eqn:E.
    + apply existsb_exists in E. destruct E as (r & Hr & Hgold).
      apply gold_class_1_spec in Hgold. destruct Hgold as [H1 Ht].
      split; [|split].
      * split; [intros _; exists r; auto | reflexivity].
      * left. reflexivity.
      * intros Hnone. exfalso. apply (Hnone r Hr Ht H1).
    + split; [|split].
      * split; [discriminate|].
        intros (r & Hr & H1 & Ht).
        assert (existsb gold_class_1 (all_observations responses pat) = true).
        { apply existsb_exists. exists r. split; [exact Hr|].
          apply gold_class_1_spec. auto. }
        congruence.
      * right. reflexivity.
      * reflexivity.
Qed.

Lemma responses_gold_well_formed : well_formed responses_gold.
Proof.
  split.
  - simpl. repeat constructor; simpl; intuition discriminate.
  - intros pat by_observer [H|[H|[]]]; inversion H; subst; simpl;
      repeat constructor; simpl; intuition discriminate.
Qed.

(** On [{(1,): {1: [(0,'f'), (1,'t'), (1,'f')], 2: [(0,'t')]},
         (2,): {1: [(0,'t')]}}]:
    the first observer gave class 1 twice to the first patient, whose gold
    entry is set; the second patient has only a gold response of class 0,
    and its gold entry is not set. *)
Lemma responses_to_counts_spec_witness :
  exists patients observers cls counts gold_data,
    responses_to_counts (fun l => l) responses_gold [0%Z; 1%Z]
    = Ok (patients, observers, cls, counts, gold_data)
    /\ count counts 0 0 1 = 2%nat
    /\ count counts 0 1 0 = 1%nat
    /\ gold_data 0%nat = 1%nat
    /\ gold_data 1%nat = 0%nat.
Proof.
  eexists _, _, _, _, _. split; [reflexivity|].
  destruct (@responses_to_counts_spec (fun l => l) responses_gold
              [0%Z; 1%Z] _ _ _ _ _ responses_gold_well_formed eq_refl)
    as (_ & Hcount & Hgold).
  split; [|split; [|split]].
  - rewrite (Hcount [1%Z] 1%Z 1%Z 0%nat 0%nat 1%nat eq_refl eq_refl eq_refl).
    reflexivity.
  - rewrite (Hcount [1%Z] 2%Z 0%Z 0%nat 1%nat 0%nat eq_refl eq_refl eq_refl).
    reflexivity.
  - apply (proj1 (Hgold [1%Z] 0%nat eq_refl)).
    exists (1%Z, "t"%string). simpl. auto.
  - apply (proj2 (proj2 (Hgold [2%Z] 1%nat eq_refl))).
    intros r [<-|[]] _. simpl. discriminate.
Defined.

(** ** [responses_to_counts] returns when the labels are known classes *)

Lemma for_each_total (A S : Type) (body : A -> S -> result S) xs :
  (forall x s, In x xs -> exists s', body x s = Ok s') ->
  forall s, exists s', for_each body xs s = Ok s'.
Proof.
  induction xs as [|x xs IH]; intros H s; simpl; [eauto|].
  destruct (H x s (or_introl eq_refl)) as (s1 & ->). simpl.
  apply IH. intros y s2 Hy. apply H. right. exact Hy.
Qed.

Lemma collect_keys_In ks seen x :
  In x (fold_left
          (fun seen k =>
             if existsb (Z.eqb k) seen then seen else seen ++ [k])
          ks seen)
  <-> In x seen \/ In x ks.
Proof.
  revert seen. induction ks as [|k ks IH]; intros seen; simpl; [tauto|].
  rewrite IH. destruct (existsb (Z.eqb k) seen) eqn:E.
  - apply existsb_eqb_In in E. split; [tauto|].
    intros [H|[<-|H]]; auto.
  - rewrite in_app_iff. simpl. tauto.
Qed.

Lemma collect_fold_In (rs : responses_t) seen x :
  In x (fold_left
          (fun seen (ik : patient * dict observer (list response)) =>
             fold_left
               (fun seen k =>
                  if existsb (Z.eqb k) seen then seen else seen ++ [k])
               (keys (snd ik)) seen)
          rs seen)
  <-> In x seen \/ exists ik, In ik rs /\ In x (keys (snd ik)).
Proof.
  revert seen. induction rs as [|ik rs IH]; intros seen; simpl.
  - split; [tauto|]. intros [H|(ik & [] & _)]. exact H.
  - rewrite IH, collect_keys_In. split.
    + intros [[H|H]|(ik' & Hik & H)]; eauto.
    + intros [H|(ik' & [<-|Hik] & H)]; eauto.
Qed.

(** Every observer of every patient is collected. *)
Lemma collect_observers_In (responses : responses_t) pat by_observer obs :
  In (pat, by_observer) responses -> In obs (keys by_observer) ->
  In obs (collect_observers responses).
Proof.
  intros Hin Hobs. unfold collect_observers. apply collect_fold_In.
  right. exists (pat, by_observer). auto.
Qed.

Lemma responses_to_counts_total list_of_set (responses : responses_t)
    classes :
  (forall l x, In x l -> In x (list_of_set l)) ->
  (forall pat by_observer obs rs r,
     In (pat, by_observer) responses -> In (obs, rs) by_observer ->
     In r rs -> In (fst r) classes) ->
  exists res, responses_to_counts list_of_set responses classes = Ok res.
Proof.
  intros Hset Hlabels. unfold responses_to_counts.
  destruct (@for_each_total _ _
              (count_patient responses (keys responses)
                 (list_of_set (collect_observers responses)) classes)
              (keys responses)) with (s := (fun (_ _ _ : nat) => 0%nat,
                                           fun _ : nat => 0%nat))
    as ([c g] & Hrun).
  2:{ rewrite Hrun. simpl. eauto. }
  intros pat st Hpat. unfold count_patient.
  destruct (@index_In _ tuple_eqb tuple_eqb_eq _ _ Hpat) as (i & ->). simpl.
  destruct (@getitem_key _ tuple_eqb tuple_eqb_eq _ responses pat Hpat)
    as (by_observer & Hd).
  rewrite Hd. simpl.
  pose proof (@getitem_Ok_In _ tuple_eqb tuple_eqb_eq _ _ _ _ Hd) as Hin.
  apply for_each_total. intros obs st1 Hobs. unfold count_observer.
  destruct (@index_In _ Z.eqb Z.eqb_eq
              (list_of_set (collect_observers responses)) obs) as (k & ->).
  { apply Hset. apply (@collect_observers_In _ _ _ _ Hin Hobs). }
  simpl. rewrite Hd. simpl.
  destruct (@getitem_key _ Z.eqb Z.eqb_eq _ by_observer obs Hobs)
    as (rs & Hrs).
  rewrite Hrs. simpl.
  apply (@getitem_Ok_In _ Z.eqb Z.eqb_eq) in Hrs.
  apply for_each_total. intros [label truth] [c1 g1] Hr.
  unfold count_response.
  destruct (@index_In _ Z.eqb Z.eqb_eq classes label) as (j & ->).
  { apply (Hlabels pat by_observer obs rs (label, truth) Hin Hrs Hr). }
  simpl. destruct ((label =? 1)%Z && String.eqb truth "t"); eauto.
Qed.

(** * The class marginals *)

Lemma div_pos a b : 0 < a -> 0 < b -> 0 < a / b.
Proof.
  intros Ha Hb. apply Qlt_shift_div_l; [exact Hb|].
  rewrite Qmult_0_l. exact Ha.
Qed.

Lemma np_sum_ones n : np_sum n (fun _ => 1) == of_nat n.
Proof.
  induction n as [|n IH]; [reflexivity|].
  simpl np_sum. rewrite IH. unfold of_nat.
  rewrite Nat2Z.inj_succ, <- Z.add_1_r, inject_Z_plus. reflexivity.
Qed.

(** The marginals sum to the mean of the row sums of the posterior. *)
Lemma class_marginals_sum counts patient_classes :
  np_sum (nClasses counts) (class_marginals_of counts patient_classes)
  == np_sum (nPatients counts)
       (fun i => np_sum (nClasses counts) (patient_classes i))
     / of_nat (nPatients counts).
Proof.
  unfold class_marginals_of. rewrite np_sum_div.
  rewrite (np_sum_swap (nClasses counts) (nPatients counts)
             (fun j i => patient_classes i j)).
  reflexivity.
Qed.

Lemma class_marginals_pos counts patient_classes i j :
  (forall i, (i < nPatients counts)%nat -> 0 <= patient_classes i j) ->
  (i < nPatients counts)%nat -> 0 < patient_classes i j ->
  0 < class_marginals_of counts patient_classes j.
Proof.
  intros Hpc Hi Hpos. unfold class_marginals_of.
  apply div_pos; [|apply of_nat_pos; lia].
  apply Qlt_le_trans with (patient_classes i j); [exact Hpos|].
  apply (@np_sum_ge_term (nPatients counts)
           (fun i => patient_classes i j) i Hpc Hi).
Qed.

Lemma soft_counts_pos counts patient_classes i k j l :
  (forall i, (i < nPatients counts)%nat -> 0 <= patient_classes i j) ->
  (i < nPatients counts)%nat -> 0 < patient_classes i j ->
  (0 < count counts i k l)%nat ->
  0 < soft_counts counts patient_classes k j l.
Proof.
  intros Hpc Hi Hpos Hcount. unfold soft_counts, np_dot.
  apply Qlt_le_trans
    with (patient_classes i j * of_nat (count counts i k l)).
  - apply Qmult_lt_0_compat; [exact Hpos | apply of_nat_pos; exact Hcount].
  - apply (@np_sum_ge_term (nPatients counts)
             (fun i => patient_classes i j * of_nat (count counts i k l))
             i); [|exact Hi].
    intros i' Hi'. apply Qmult_le_0_compat; [auto | apply of_nat_nonneg].
Qed.

(** An error rate is positive where an item that may be of class [j] has
    a count, unless the row is the forced one and the label is not 0. *)
Lemma normalize_pos n r l :
  (forall l, (l < n)%nat -> 0 <= r l) -> (l < n)%nat -> 0 < r l ->
  0 < normalize n r l.
Proof.
  intros Hr Hl Hpos.
  assert (Htotal : 0 < np_sum n r).
  { apply Qlt_le_trans with (r l); [exact Hpos|].
    apply (@np_sum_ge_term n r l Hr Hl). }
  rewrite (@normalize_positive n r l Htotal).
  apply div_pos; assumption.
Qed.

Lemma m_row_pos counts patient_classes AM_noise i k j l :
  (forall i, (i < nPatients counts)%nat -> 0 <= patient_classes i j) ->
  (i < nPatients counts)%nat -> 0 < patient_classes i j ->
  (l < nClasses counts)%nat -> (0 < count counts i k l)%nat ->
  (AM_noise = 0%Z -> j = 0%nat -> l = 0%nat) ->
  0 < m_row counts patient_classes AM_noise k j l.
Proof.
  intros Hpc Hi Hpos Hl Hcount Hforced.
  assert (Hfree : 0 < normalize (nClasses counts)
                        (soft_counts counts patient_classes k j) l).
  { apply normalize_pos; [|exact Hl|].
    - intros l' _. apply soft_counts_nonneg. exact Hpc.
    - apply (@soft_counts_pos counts patient_classes i); assumption. }
  unfold m_row.
  destruct (Z.eqb_spec AM_noise 0) as [HA|HA];
    destruct (Nat.eqb_spec j 0) as [Hj|Hj]; simpl; try exact Hfree.
  rewrite (Hforced HA Hj). reflexivity.
Qed.

Lemma class_likelihood_pos counts error_rates i j :
  (forall k l, (k < nObservers counts)%nat -> (l < nClasses counts)%nat ->
     (0 < count counts i k l)%nat -> 0 < error_rates k j l) ->
  0 < class_likelihood counts error_rates i j.
Proof.
  intros H. unfold class_likelihood.
  apply np_prod_pos. intros k Hk. apply np_prod_pos. intros l Hl.
  destruct (count counts i k l) as [|c] eqn:Hc.
  - reflexivity.
  - apply np_power_pos. apply (H k l Hk Hl). lia.
Qed.

(** Either some label other than 0 has a count for item [i], or none. *)
Lemma other_label_spec counts i :
  (exists k l, (k < nObservers counts)%nat /\ (l < nClasses counts)%nat
               /\ l <> 0%nat /\ (0 < count counts i k l)%nat)
  \/ (forall k l, (k < nObservers counts)%nat -> (l < nClasses counts)%nat ->
                  l <> 0%nat -> count counts i k l = 0%nat).
Proof.
  destruct (other_label counts i) eqn:E; unfold other_label in E.
  - left. apply existsb_exists in E. destruct E as (k & Hk & E).
    apply existsb_exists in E. destruct E as (l & Hl & E).
    apply in_seq in Hk, Hl. apply andb_true_iff in E. destruct E as [E1 E2].
    exists k, l. split; [lia|]. split; [lia|]. split.
    + destruct (Nat.eqb_spec l 0); [discriminate | assumption].
    + apply Nat.ltb_lt. exact E2.
  - right. intros k l Hk Hl Hne.
    destruct (Nat.eq_dec (count counts i k l) 0) as [Hz|Hnz]; [exact Hz|].
    exfalso.
    assert (Hfound : existsb (fun k =>
              existsb (fun l =>
                negb (l =? 0)%nat && (0 <? count counts i k l)%nat)
                (seq 0 (nClasses counts)))
              (seq 0 (nObservers counts)) = true).
    { apply existsb_exists. exists k. split; [apply in_seq; lia|].
      apply existsb_exists. exists l. split; [apply in_seq; lia|].
      apply andb_true_iff. split.
      - destruct (Nat.eqb_spec l 0); [contradiction | reflexivity].
      - apply Nat.ltb_lt. lia. }
    congruence.
Qed.

(** An observed item has a count in a class that is admissible for it. *)
Lemma admissible_choice counts AM_noise i :
  observed counts i ->
  exists k l, (k < nObservers counts)%nat /\ (l < nClasses counts)%nat
              /\ (0 < count counts i k l)%nat
              /\ admissible counts AM_noise i l.
Proof.
  intros (k & l & Hk & Hl & Hcount).
  destruct (other_label_spec counts i)
    as [(k' & l' & Hk' & Hl' & Hne & Hcount')|Hnone].
  - exists k', l'. repeat (split; [assumption|]).
    intros _ H0. contradiction.
  - exists k, l. repeat (split; [assumption|]).
    intros _ _. exact Hnone.
Qed.

Lemma initial_row_pos counts i k l :
  (k < nObservers counts)%nat -> (l < nClasses counts)%nat ->
  (0 < count counts i k l)%nat ->
  0 < initial_row counts false i l.
Proof.
  intros Hk Hl Hcount.
  assert (Hsum : 0 < response_sums counts i l).
  { unfold response_sums.
    apply Qlt_le_trans with (of_nat (count counts i k l));
      [apply of_nat_pos; exact Hcount|].
    apply (@np_sum_ge_term (nObservers counts)
             (fun k => of_nat (count counts i k l)) k); [|exact Hk].
    intros k' _. apply of_nat_nonneg. }
  assert (Htotal : 0 < np_sum (nClasses counts) (response_sums counts i)).
  { apply Qlt_le_trans with (response_sums counts i l); [exact Hsum|].
    apply (@np_sum_ge_term (nClasses counts) (response_sums counts i) l);
      [|exact Hl].
    intros l' _. apply response_sums_nonneg. }
  unfold initial_row. apply Qltb_lt in Htotal. rewrite Htotal.
  apply Qltb_lt in Htotal. apply div_pos; assumption.
Qed.

(** A row with a positive entry is not all-zero. *)
Lemma not_all_zero n (r : vec) j :
  (j < n)%nat -> 0 < r j ->
  np_sum n r == 1 \/ (forall j, (j < n)%nat -> r j == 0) ->
  np_sum n r == 1.
Proof.
  intros Hj Hpos [Hone|Hzero]; [exact Hone|].
  specialize (Hzero j Hj). rewrite Hzero in Hpos.
  exfalso. apply (Qlt_irrefl 0 Hpos).
Qed.

Lemma initialize_supported counts gold_data AM_noise pc rb :
  (forall i, (i < nPatients counts)%nat -> observed counts i) ->
  initialize counts gold_data AM_noise = Ok (pc, rb) ->
  supported counts AM_noise pc.
Proof.
  intros Hobs Hinit i Hi.
  destruct (@initialize_rows _ _ _ _ _ _ Hinit Hi) as (c & _ & Htwo & Hrow).
  assert (Hpos : exists j, (j < nClasses counts)%nat /\ 0 < pc i j
                           /\ admissible counts AM_noise i j).
  { destruct c.
    - exists 1%nat. split; [auto|]. split.
      + rewrite Hrow. reflexivity.
      + intros _ H. discriminate.
    - destruct (@admissible_choice counts AM_noise i (Hobs i Hi))
        as (k & l & Hk & Hl & Hcount & Hadm).
      exists l. split; [exact Hl|]. split; [|exact Hadm].
      rewrite Hrow. apply (@initial_row_pos counts i k l); assumption. }
  split; [|split; [|exact Hpos]].
  - intros j _. rewrite Hrow. apply initial_row_nonneg.
  - destruct Hpos as (j & Hj & Hpos & _).
    apply (@not_all_zero (nClasses counts) (pc i) j Hj Hpos).
    destruct (@initial_row_sum counts c i Htwo) as [Hone|Hzero].
    + left. rewrite (np_sum_ext _ _ (fun j _ => Hrow j)). exact Hone.
    + right. intros j' Hj'. rewrite Hrow. apply Hzero. exact Hj'.
Qed.

Lemma e_step_supported counts gold_data AM_noise pc0 cm er pc :
  supported counts AM_noise pc0 ->
  m_step counts pc0 AM_noise = Ok (cm, er) ->
  e_step counts gold_data cm er AM_noise = Ok pc ->
  supported counts AM_noise pc.
Proof.
  intros Hsup Hm He i Hi.
  assert (Hpc0 : forall i j, (i < nPatients counts)%nat ->
            (j < nClasses counts)%nat -> 0 <= pc0 i j)
    by (intros i' j Hi' Hj; apply (proj1 (Hsup i' Hi') j Hj)).
  destruct (@m_step_nonneg counts pc0 AM_noise cm er Hpc0 Hm) as [Hcm Her].
  destruct (@e_step_rows_normalized counts gold_data cm er AM_noise pc i
              Hcm Her He Hi) as [Hnonneg Hsum].
  destruct (Hsup i Hi) as (_ & _ & j0 & Hj0 & Hpos0 & Hadm).
  destruct (@e_step_rows _ _ _ _ _ _ _ _ He Hi Hj0) as (c & Hc & Htwo & Hv).
  assert (Hpos : exists j, (j < nClasses counts)%nat /\ 0 < pc i j
                           /\ admissible counts AM_noise i j).
  { destruct c.
    - exists 1%nat. split; [auto|]. split; [|intros _ H; discriminate].
      destruct (@e_step_rows _ _ _ _ _ _ _ _ He Hi (Htwo eq_refl))
        as (c' & Hc' & _ & Hv').
      rewrite Hc in Hc'. inversion Hc'; subst c'. rewrite Hv'.
      unfold e_scores. rewrite (@normalize_override _ 1%nat (Htwo eq_refl)).
      reflexivity.
    - exists j0. split; [exact Hj0|]. split; [|exact Hadm].
      rewrite Hv. apply normalize_pos; [|exact Hj0|].
      + intros j Hj. apply e_scores_nonneg; [auto|].
        intros k l Hk Hl. auto.
      + unfold e_scores.
        apply m_step_rows in Hm. destruct Hm as [-> Hrows].
        apply Qmult_lt_0_compat.
        * apply (@class_marginals_pos counts pc0 i j0); auto.
        * apply class_likelihood_pos. intros k l Hk Hl Hcount.
          rewrite (Hrows k j0 l Hk Hj0 Hl).
          apply (@m_row_pos counts pc0 AM_noise i k j0 l); auto.
          intros HA H0.
          destruct (Nat.eq_dec l 0) as [Hl0|Hl0]; [exact Hl0|].
          rewrite (Hadm HA H0 k l Hk Hl Hl0) in Hcount. lia. }
  split; [exact Hnonneg|]. split; [|exact Hpos].
  destruct Hpos as (j & Hj & Hpos & _).
  apply (@not_all_zero (nClasses counts) (pc i) j Hj Hpos Hsum).
Qed.

(** When every item has an observation, every posterior of a run gives
    every item a distribution over the classes. *)
Lemma posterior_supported counts gold_data AM_noise pc :
  (forall i, (i < nPatients counts)%nat -> observed counts i) ->
  posterior counts gold_data AM_noise pc ->
  supported counts AM_noise pc.
Proof.
  intros Hobs. induction 1 as [pc rb Hinit | pc0 cm er pc _ IH Hm He].
  - apply (@initialize_supported counts gold_data AM_noise pc rb Hobs Hinit).
  - apply (@e_step_supported counts gold_data AM_noise pc0 cm er pc IH Hm He).
Qed.

(** C5 (as amended).  In a run on at least one item, the class marginals
    returned by the M-step of any iteration sum to the mean over the items
    of the row sums of the posterior the M-step is given; when every item
    has at least one observation, they sum to 1 after the M-step of every
    iteration. *)
Theorem class_marginals_sum_to_one counts gold_data AM_noise pc cm er :
  posterior counts gold_data AM_noise pc ->
  m_step counts pc AM_noise = Ok (cm, er) ->
  (0 < nPatients counts)%nat ->
  np_sum (nClasses counts) cm
  == np_sum (nPatients counts) (fun i => np_sum (nClasses counts) (pc i))
     / of_nat (nPatients counts)
  /\ ((forall i, (i < nPatients counts)%nat -> observed counts i) ->
      np_sum (nClasses counts) cm == 1).
Proof.
  intros Hpost Hm HnP.
  pose proof (@m_step_rows _ _ _ _ _ Hm) as [-> _].
  split; [apply class_marginals_sum|].
  intros Hobs. rewrite class_marginals_sum.
  pose proof (@posterior_supported _ _ _ _ Hobs Hpost) as Hsup.
  rewrite (np_sum_ext_eq _ (fun _ => 1)).
  - rewrite np_sum_ones. field.
    assert (0 < of_nat (nPatients counts)) by (apply of_nat_pos; exact HnP).
    lra.
  - intros i Hi. apply (proj1 (proj2 (Hsup i Hi))).
Qed.

(** The marginals of the first M-step on [counts = [[[1, 2]]]] are
    [[1/3, 2/3]]. *)
Lemma class_marginals_sum_to_one_witness :
  exists pc rb cm er,
    initialize counts_1_2 no_gold 1 = Ok (pc, rb)
    /\ m_step counts_1_2 pc 1 = Ok (cm, er)
    /\ np_sum 2 cm == 1.
Proof.
  eexists _, _, _, _. split; [reflexivity|]. split; [reflexivity|].
  assert (Hpost : posterior counts_1_2 no_gold 1 _)
    by (eapply posterior_initialize; reflexivity).
  apply (proj2 (@class_marginals_sum_to_one counts_1_2 no_gold 1 _ _ _
                  Hpost eq_refl (Nat.lt_0_succ 0))).
  exists 0%nat, 0%nat. simpl in *.
  assert (i = 0%nat) by lia. subst i. simpl. lia.
Defined.

(** C5 as stated fails on an input with an item without observations: on
    [counts = [[[2, 0]], [[0, 0]]]] the initial posterior is
    [[[1, 0], [0, 0]]] and the class marginals of the first M-step are
    [[1/2, 0]], which sum to 1/2. *)
Lemma class_marginals_unobserved_item :
  exists pc rb cm er,
    initialize counts_unobserved no_gold 1 = Ok (pc, rb)
    /\ m_step counts_unobserved pc 1 = Ok (cm, er)
    /\ cm 0%nat == 1 # 2 /\ cm 1%nat == 0
    /\ ~ np_sum 2 cm == 1.
Proof.
  eexists _, _, _, _. split; [reflexivity|]. split; [reflexivity|].
  split; [reflexivity|]. split; [reflexivity|].
  intros H. vm_compute in H. discriminate.
Qed.

(** * Further properties of the estimator *)

(** ** A loop that raises *)

Lemma for_each_raise (A S : Type) (body : A -> S -> result S) xs (s : S) e :
  for_each body xs s = Raise e ->
  exists x s1, In x xs /\ body x s1 = Raise e.
Proof.
  revert s. induction xs as [|x xs IH]; intros s; simpl; [discriminate|].
  destruct (body x s) as [s'|e'] eqn:Hb; simpl.
  - intros H. destruct (IH s' H) as (y & s1 & Hy & Hr). eauto.
  - intros H. inversion H; subst. eauto.
Qed.

Lemma for_each_ok_each (A S : Type) (body : A -> S -> result S) xs (s s' : S) :
  for_each body xs s = Ok s' ->
  forall x, In x xs -> exists s1 s2, body x s1 = Ok s2.
Proof.
  revert s. induction xs as [|y xs IH]; intros s; simpl; [contradiction|].
  intros H x Hx. apply bind_ok in H. destruct H as (s1 & Hb & Hrest).
  destruct Hx as [->|Hx]; [eauto | apply (IH s1 Hrest x Hx)].
Qed.

(** A loop whose first pass raises, raises. *)
Lemma for_range_first_raise (S : Type) n (body : nat -> S -> result S) s e :
  body 0%nat s = Raise e -> for_range (Datatypes.S n) body s = Raise e.
Proof.
  intros H. unfold for_range. simpl. rewrite H. reflexivity.
Qed.

(** ** The rows and the list of blind spots of [initialize] *)

Lemma observed_p_sum counts p :
  observed counts p ->
  0 < np_sum (nClasses counts) (response_sums counts p).
Proof.
  intros (k & l & Hk & Hl & Hcount).
  apply Qlt_le_trans with (response_sums counts p l).
  - unfold response_sums.
    apply Qlt_le_trans with (of_nat (count counts p k l));
      [apply of_nat_pos; exact Hcount|].
    apply (@np_sum_ge_term (nObservers counts)
             (fun k => of_nat (count counts p k l)) k); [|exact Hk].
    intros k' _. apply of_nat_nonneg.
  - apply (@np_sum_ge_term (nClasses counts) (response_sums counts p) l);
      [|exact Hl].
    intros l' _. apply response_sums_nonneg.
Qed.

Lemma unobserved_p_sum counts p :
  (forall k l, (k < nObservers counts)%nat -> (l < nClasses counts)%nat ->
               count counts p k l = 0%nat) ->
  np_sum (nClasses counts) (response_sums counts p) == 0.
Proof.
  intros H. apply np_sum_zero. intros l Hl. unfold response_sums.
  apply np_sum_zero. intros k Hk. rewrite (H k l Hk Hl). reflexivity.
Qed.

(** X1.  The default strategy of [initialize]. For an item to which no
    blind-spot override applies: if the item has an observation, its row is
    the per-class totals over the observers divided by the total number of
    observations, and sums to 1; if it has none, its row is all-zero. *)
Theorem initialize_proportional counts gold_data AM_noise pc rb p :
  initialize counts gold_data AM_noise = Ok (pc, rb) ->
  (p < nPatients counts)%nat ->
  blind_spot counts gold_data AM_noise p = Ok false ->
  (observed counts p ->
     (forall j, pc p j
                == response_sums counts p j
                   / np_sum (nClasses counts) (response_sums counts p))
     /\ np_sum (nClasses counts) (pc p) == 1)
  /\ ((forall k l, (k < nObservers counts)%nat ->
         (l < nClasses counts)%nat -> count counts p k l = 0%nat) ->
      forall j, pc p j == 0).
Proof.
  intros Hinit Hp Hc.
  destruct (@initialize_rows _ _ _ _ _ _ Hinit Hp) as (c & Hc' & _ & Hrow).
  rewrite Hc in Hc'. inversion Hc'; subst c. split.
  - intros Hobs. pose proof (observed_p_sum Hobs) as Hpos.
    assert (Hcell : forall j, pc p j
              == response_sums counts p j
                 / np_sum (nClasses counts) (response_sums counts p)).
    { intros j. rewrite Hrow. unfold initial_row.
      apply Qltb_lt in Hpos. rewrite Hpos. reflexivity. }
    split; [exact Hcell|].
    rewrite (np_sum_ext_eq _ _ (fun j _ => Hcell j)).
    apply np_sum_normalized. exact Hpos.
  - intros Hnone j. rewrite Hrow. unfold initial_row.
    assert (Hle : np_sum (nClasses counts) (response_sums counts p) <= 0)
      by (rewrite (@unobserved_p_sum counts p Hnone); apply Qle_refl).
    apply Qltb_ge in Hle. rewrite Hle. reflexivity.
Qed.

(** [counts = [[[1, 2]]]] without noise model: the row is [[1/3, 2/3]]. *)
Lemma initialize_proportional_witness :
  exists pc rb,
    initialize counts_1_2 no_gold 1 = Ok (pc, rb)
    /\ pc 0%nat 0%nat == 1 # 3 /\ pc 0%nat 1%nat == 2 # 3.
Proof.
  eexists _, _. split; [reflexivity|].
  destruct (@initialize_proportional counts_1_2 no_gold 1 _ _ 0%nat eq_refl
              (Nat.lt_0_succ 0) eq_refl) as [Hobs _].
  destruct Hobs as [Hrow _].
  - exists 0%nat, 0%nat. simpl. lia.
  - split; [rewrite (Hrow 0%nat) | rewrite (Hrow 1%nat)]; reflexivity.
Defined.

(** X2.  The list [reviewed_blindspots] returned by [initialize] holds, in
    increasing order and once each, exactly the items for which the
    blind-spot test holds; the rows of these items are [[0, 1]]. *)
Theorem initialize_reviewed_blindspots counts gold_data AM_noise pc rb :
  initialize counts gold_data AM_noise = Ok (pc, rb) ->
  rb = filter (forced counts gold_data AM_noise) (seq 0 (nPatients counts))
  /\ (forall p, In p rb
                <-> (p < nPatients counts)%nat
                    /\ blind_spot counts gold_data AM_noise p = Ok true)
  /\ (forall p, In p rb -> pc p 0%nat = 0 /\ pc p 1%nat = 1).
Proof.
  intros Hinit.
  assert (Hrb : rb = filter (forced counts gold_data AM_noise)
                       (seq 0 (nPatients counts))).
  { unfold initialize in Hinit.
    apply (for_range_inv (fun n (st : mat * list nat) =>
             snd st = filter (forced counts gold_data AM_noise) (seq 0 n)))
      in Hinit; [exact Hinit | reflexivity |].
    intros n [pc1 rb1] [pc2 rb2] _ Hinv Hbody. cbn [snd] in *.
    rewrite seq_S, filter_app. cbn [filter Nat.add]. unfold forced at 2.
    unfold initialize_body in Hbody.
    destruct (blind_spot counts gold_data AM_noise n) as [c|e];
      simpl in Hbody; [|discriminate].
    destruct c.
    - destruct (setitem2 (nClasses counts) pc1 n 1 1) as [a|e];
        simpl in Hbody; [|discriminate].
      destruct (setitem2 (nClasses counts) a n 0 0) as [b|e];
        simpl in Hbody; [|discriminate].
      inversion Hbody; subst. reflexivity.
    - rewrite app_nil_r.
      destruct (Qltb 0 _); inversion Hbody; subst; reflexivity. }
  assert (Hin : forall p, In p rb
                  <-> (p < nPatients counts)%nat
                      /\ blind_spot counts gold_data AM_noise p = Ok true).
  { intros p. rewrite Hrb, filter_In, in_seq. unfold forced.
    destruct (blind_spot counts gold_data AM_noise p) as [[|]|e]; split;
      intros [H1 H2]; try discriminate; (split; [lia | reflexivity]). }
  split; [exact Hrb|]. split; [exact Hin|].
  intros p Hp. apply Hin in Hp. destruct Hp as [Hp Hc].
  destruct (@initialize_rows _ _ _ _ _ _ Hinit Hp) as (c & Hc' & _ & Hrow).
  rewrite Hc in Hc'. inversion Hc'; subst c.
  rewrite !Hrow. split; reflexivity.
Qed.

(** With [AM_noise == 2] and gold evidence on item 0 of
    [counts = [[[4, 0]]]], the list is [[0]]. *)
Lemma initialize_reviewed_blindspots_witness :
  exists pc rb,
    initialize counts_4_0 gold_at_0 2 = Ok (pc, rb) /\ rb = [0%nat].
Proof.
  eexists _, _. split; [reflexivity|].
  apply (proj1 (@initialize_reviewed_blindspots counts_4_0 gold_at_0 2 _ _
                  eq_refl)).
Defined.

(** ** When the three steps raise *)

Lemma for_range_raise (S : Type) n (body : nat -> S -> result S) (s : S) e :
  for_range n body s = Raise e ->
  exists i s1, (i < n)%nat /\ body i s1 = Raise e.
Proof.
  intros H. apply for_each_raise in H. destruct H as (i & s1 & Hi & Hb).
  apply in_seq in Hi. exists i, s1. split; [lia | exact Hb].
Qed.

Lemma for_range_ok_each (S : Type) n (body : nat -> S -> result S)
    (s s' : S) :
  for_range n body s = Ok s' ->
  forall i, (i < n)%nat -> exists s1 s2, body i s1 = Ok s2.
Proof.
  intros H i Hi. apply (for_each_ok_each _ _ _ H). apply in_seq. lia.
Qed.

(** With no observer, or with two or more, the test of [AM_noise == 0]
    raises: the truth value of [counts[p,:,1] > 0] is ambiguous. *)
Lemma blind_spot_ambiguous counts gold_data p :
  nObservers counts <> 1%nat -> (1 < nClasses counts)%nat ->
  blind_spot counts gold_data 0 p = Raise ValueError.
Proof.
  intros HO HC. unfold blind_spot. simpl.
  destruct (Nat.ltb_spec 1 (nClasses counts)); [|lia].
  destruct (nObservers counts) as [|[|n]]; [reflexivity | lia | reflexivity].
Qed.

Lemma blind_spot_raise counts gold_data AM_noise p e :
  blind_spot counts gold_data AM_noise p = Raise e ->
  AM_noise = 0%Z
  /\ (((nClasses counts <= 1)%nat /\ e = IndexError)
      \/ ((1 < nClasses counts)%nat /\ nObservers counts <> 1%nat
          /\ e = ValueError)).
Proof.
  unfold blind_spot.
  destruct (Z.eqb_spec AM_noise 0) as [H0|H0]; [|discriminate].
  destruct (Nat.ltb_spec 1 (nClasses counts)) as [HC|HC].
  - destruct (nObservers counts) as [|[|n]]; simpl; try discriminate;
      intros H; inversion H; (split; [exact H0|]); right;
      (split; [lia|]); (split; [lia | reflexivity]).
  - intros H. inversion H. split; [exact H0|]. left. split; [lia|reflexivity].
Qed.

Lemma blind_spot_true counts gold_data AM_noise p :
  blind_spot counts gold_data AM_noise p = Ok true ->
  (AM_noise = 0%Z /\ (1 < nClasses counts)%nat)
  \/ (AM_noise = 2%Z /\ (0 < gold_data p)%nat).
Proof.
  unfold blind_spot.
  destruct (Z.eqb_spec AM_noise 0) as [H0|H0].
  - destruct (Nat.ltb_spec 1 (nClasses counts)) as [HC|HC]; [|discriminate].
    intros _. left. split; assumption.
  - intros H. inversion H as [Hb]. apply andb_prop in Hb.
    destruct Hb as [H2 Hg]. apply Z.eqb_eq in H2. apply Nat.ltb_lt in Hg.
    right. split; assumption.
Qed.

(** The two stores of an override raise exactly when there is no column 1. *)
Lemma override_raise n (a : mat) i e :
  (pc <- setitem2 n a i 1 1 ;; setitem2 n pc i 0 0) = Raise e ->
  (n <= 1)%nat /\ e = IndexError.
Proof.
  unfold setitem2.
  destruct (Nat.ltb_spec 1 n) as [H1|H1]; simpl.
  - destruct (Nat.ltb_spec 0 n) as [H0|H0]; [discriminate | lia].
  - intros H. inversion H. split; [lia | reflexivity].
Qed.

Lemma override_raises n (a : mat) i :
  (n <= 1)%nat ->
  (pc <- setitem2 n a i 1 1 ;; setitem2 n pc i 0 0) = Raise IndexError.
Proof.
  intros Hn. unfold setitem2.
  destruct (Nat.ltb_spec 1 n) as [H1|H1]; [lia | reflexivity].
Qed.

Lemma initialize_body_raise counts gold_data AM_noise p st e :
  initialize_body counts gold_data AM_noise p st = Raise e ->
  (AM_noise = 0%Z /\ (nClasses counts <= 1)%nat /\ e = IndexError)
  \/ (AM_noise = 0%Z /\ (1 < nClasses counts)%nat
      /\ nObservers counts <> 1%nat /\ e = ValueError)
  \/ (AM_noise = 2%Z /\ (nClasses counts <= 1)%nat
      /\ (0 < gold_data p)%nat /\ e = IndexError).
Proof.
  destruct st as [pc rb]. unfold initialize_body.
  destruct (blind_spot counts gold_data AM_noise p) as [c|e'] eqn:Hb; simpl.
  - destruct c.
    + intros H.
      destruct (setitem2 (nClasses counts) pc p 1 1) as [a|e1] eqn:H1;
        simpl in H.
      * destruct (setitem2 (nClasses counts) a p 0 0) as [b|e2] eqn:H2;
          simpl in H; [discriminate|].
        unfold setitem2 in H1, H2.
        destruct (Nat.ltb_spec 1 (nClasses counts)); [|discriminate].
        destruct (Nat.ltb_spec 0 (nClasses counts)); [discriminate | lia].
      * unfold setitem2 in H1.
        destruct (Nat.ltb_spec 1 (nClasses counts)) as [HC|HC];
          [discriminate|].
        inversion H1; subst e1. inversion H; subst e.
        destruct (blind_spot_true _ _ _ _ Hb) as [[H0 HC']|[H2 Hg]];
          [lia|].
        right. right. repeat split; assumption.
    + destruct (Qltb 0 _); discriminate.
  - intros H. inversion H; subst e'.
    destruct (blind_spot_raise _ _ _ _ Hb) as [H0 [[HC He]|(HC & HO & He)]].
    + left. repeat split; assumption.
    + right. left. repeat split; assumption.
Qed.

(** X3.  [initialize] raises in exactly three situations.  With
    [AM_noise == 0] and at least one item: IndexError when there are fewer
    than two classes (column 1 of [counts] is loaded), and ValueError when
    there are at least two classes and the number of observers is not one
    (the truth value of an array that is empty or has several entries is
    asked for).  With [AM_noise == 2]: IndexError when
    there are fewer than two classes and some item has gold evidence.  In
    every other case it returns. *)
Theorem initialize_raises counts gold_data AM_noise e :
  initialize counts gold_data AM_noise = Raise e
  <-> ((0 < nPatients counts)%nat /\ AM_noise = 0%Z
       /\ (nClasses counts <= 1)%nat /\ e = IndexError)
      \/ ((0 < nPatients counts)%nat /\ AM_noise = 0%Z
          /\ (1 < nClasses counts)%nat /\ nObservers counts <> 1%nat
          /\ e = ValueError)
      \/ (AM_noise = 2%Z /\ (nClasses counts <= 1)%nat
          /\ (exists p, (p < nPatients counts)%nat /\ (0 < gold_data p)%nat)
          /\ e = IndexError).
Proof.
  assert (Honly : forall e', initialize counts gold_data AM_noise = Raise e' ->
            ((0 < nPatients counts)%nat /\ AM_noise = 0%Z
             /\ (nClasses counts <= 1)%nat /\ e' = IndexError)
            \/ ((0 < nPatients counts)%nat /\ AM_noise = 0%Z
                /\ (1 < nClasses counts)%nat /\ nObservers counts <> 1%nat
                /\ e' = ValueError)
            \/ (AM_noise = 2%Z /\ (nClasses counts <= 1)%nat
                /\ (exists p, (p < nPatients counts)%nat
                              /\ (0 < gold_data p)%nat)
                /\ e' = IndexError)).
  { intros e' H. unfold initialize in H. apply for_range_raise in H.
    destruct H as (p & st & Hp & Hb).
    destruct (initialize_body_raise _ _ _ _ _ Hb)
      as [(H0 & HC & He)|[(H0 & HC & HO & He)|(H2 & HC & Hg & He)]].
    - left. repeat split; [lia | assumption..].
    - right. left. repeat split; [lia | assumption..].
    - right. right. repeat split; [assumption.. | eauto | assumption]. }
  split; [apply Honly|].
  intros [(HP & H0 & HC & He)|[(HP & H0 & HC & HO & He)|(H2 & HC & Hg & He)]];
    subst e.
  - unfold initialize. destruct (nPatients counts) as [|n]; [lia|].
    apply for_range_first_raise. unfold initialize_body, blind_spot.
    subst AM_noise. simpl.
    destruct (Nat.ltb_spec 1 (nClasses counts)); [lia | reflexivity].
  - unfold initialize. destruct (nPatients counts) as [|n]; [lia|].
    apply for_range_first_raise. unfold initialize_body. subst AM_noise.
    rewrite (@blind_spot_ambiguous counts gold_data 0%nat HO HC).
    reflexivity.
  - destruct Hg as (p & Hp & Hg).
    destruct (initialize counts gold_data AM_noise) as [st|e'] eqn:Hrun.
    + unfold initialize in Hrun.
      destruct (for_range_ok_each _ _ Hrun Hp) as ([pc1 rb1] & s2 & Hb).
      exfalso. unfold initialize_body in Hb. subst AM_noise.
      rewrite blind_spot_gold in Hb.
      destruct (Nat.ltb_spec 0 (gold_data p)) as [_|Hn]; [|lia].
      simpl in Hb. unfold setitem2 in Hb.
      destruct (Nat.ltb_spec 1 (nClasses counts)); [lia | discriminate].
    + destruct (Honly e' eq_refl)
        as [(_ & H0 & _)|[(_ & H0 & _)|(_ & _ & _ & He)]];
        [subst AM_noise; discriminate.. | subst e'; reflexivity].
Qed.

Lemma e_step_body_raise counts gold_data cm er AM_noise i j pc e :
  e_step_body counts gold_data cm er AM_noise i j pc = Raise e ->
  (AM_noise = 0%Z /\ (nClasses counts <= 1)%nat /\ e = IndexError)
  \/ (AM_noise = 0%Z /\ (1 < nClasses counts)%nat
      /\ nObservers counts <> 1%nat /\ e = ValueError)
  \/ (AM_noise = 2%Z /\ (nClasses counts <= 1)%nat
      /\ (0 < gold_data i)%nat /\ e = IndexError).
Proof.
  unfold e_step_body.
  destruct (blind_spot counts gold_data AM_noise i) as [c|e'] eqn:Hb; simpl.
  - destruct c; [|discriminate]. intros H.
    apply override_raise in H. destruct H as [HC He].
    destruct (blind_spot_true _ _ _ _ Hb) as [[H0 HC']|[H2 Hg]]; [lia|].
    right. right. repeat split; assumption.
  - intros H. inversion H; subst e'.
    destruct (blind_spot_raise _ _ _ _ Hb) as [H0 [[HC He]|(HC & HO & He)]].
    + left. repeat split; assumption.
    + right. left. repeat split; assumption.
Qed.

(** X4.  [e_step] raises in exactly three situations.  With
    [AM_noise == 0] and at least one item: IndexError when there is exactly
    one class, and ValueError when there are at least two classes and the
    number of observers is not one.  With [AM_noise == 2]: IndexError when
    there is exactly one class and some item has gold evidence.  In every
    other case it returns; with no class at all the loop over the classes
    is never entered. *)
Theorem e_step_raises counts gold_data class_marginals error_rates AM_noise
    e :
  e_step counts gold_data class_marginals error_rates AM_noise = Raise e
  <-> ((0 < nPatients counts)%nat /\ AM_noise = 0%Z
       /\ nClasses counts = 1%nat /\ e = IndexError)
      \/ ((0 < nPatients counts)%nat /\ AM_noise = 0%Z
          /\ (1 < nClasses counts)%nat /\ nObservers counts <> 1%nat
          /\ e = ValueError)
      \/ (AM_noise = 2%Z /\ nClasses counts = 1%nat
          /\ (exists p, (p < nPatients counts)%nat /\ (0 < gold_data p)%nat)
          /\ e = IndexError).
Proof.
  assert (Honly : forall e',
            e_step counts gold_data class_marginals error_rates AM_noise
            = Raise e' ->
            ((0 < nPatients counts)%nat /\ AM_noise = 0%Z
             /\ nClasses counts = 1%nat /\ e' = IndexError)
            \/ ((0 < nPatients counts)%nat /\ AM_noise = 0%Z
                /\ (1 < nClasses counts)%nat /\ nObservers counts <> 1%nat
                /\ e' = ValueError)
            \/ (AM_noise = 2%Z /\ nClasses counts = 1%nat
                /\ (exists p, (p < nPatients counts)%nat
                              /\ (0 < gold_data p)%nat)
                /\ e' = IndexError)).
  { intros e' H. unfold e_step in H. apply for_range_raise in H.
    destruct H as (i & pc & Hi & Hp). unfold e_step_patient in Hp.
    destruct (for_range (nClasses counts)
                (e_step_body counts gold_data class_marginals error_rates
                   AM_noise i) pc) as [pc1|e1] eqn:Hrow; simpl in Hp.
    - destruct (Qltb 0 _); discriminate.
    - inversion Hp; subst e1. apply for_range_raise in Hrow.
      destruct Hrow as (j & pc1 & Hj & Hb).
      destruct (e_step_body_raise _ _ _ _ _ _ _ _ Hb)
        as [(H0 & HC & He)|[(H0 & HC & HO & He)|(H2 & HC & Hg & He)]].
      + left. repeat split; [lia | assumption | lia | assumption].
      + right. left. repeat split; [lia | assumption..].
      + right. right.
        repeat split; [assumption | lia | eauto | assumption]. }
  split; [apply Honly|].
  intros [(HP & H0 & HC & He)|[(HP & H0 & HC & HO & He)|(H2 & HC & Hg & He)]];
    subst e.
  - unfold e_step. destruct (nPatients counts) as [|n]; [lia|].
    apply for_range_first_raise. unfold e_step_patient. rewrite HC.
    rewrite (@for_range_first_raise _ 0 _ _ IndexError); [reflexivity|].
    unfold e_step_body, blind_spot. subst AM_noise. rewrite HC. reflexivity.
  - unfold e_step. destruct (nPatients counts) as [|n]; [lia|].
    apply for_range_first_raise. unfold e_step_patient.
    destruct (nClasses counts) as [|c] eqn:Hc; [lia|].
    rewrite (@for_range_first_raise _ c _ _ ValueError); [reflexivity|].
    unfold e_step_body. subst AM_noise.
    rewrite (@blind_spot_ambiguous counts gold_data 0%nat HO);
      [reflexivity | lia].
  - destruct Hg as (p & Hp & Hg).
    destruct (e_step counts gold_data class_marginals error_rates AM_noise)
      as [st|e'] eqn:Hrun.
    + unfold e_step in Hrun.
      destruct (for_range_ok_each _ _ Hrun Hp) as (pc1 & s2 & Hb).
      exfalso. unfold e_step_patient in Hb. apply bind_ok in Hb.
      destruct Hb as (pc2 & Hrow & _).
      assert (H0C : (0 < nClasses counts)%nat) by lia.
      destruct (for_range_ok_each _ _ Hrow H0C) as (pc3 & pc4 & Hb).
      unfold e_step_body in Hb. subst AM_noise.
      rewrite blind_spot_gold in Hb.
      destruct (Nat.ltb_spec 0 (gold_data p)) as [_|Hn]; [|lia].
      simpl in Hb. unfold setitem2 in Hb. rewrite HC in Hb. discriminate.
    + destruct (Honly e' eq_refl)
        as [(_ & H0 & _)|[(_ & H0 & _)|(_ & _ & _ & He)]];
        [subst AM_noise; discriminate.. | subst e'; reflexivity].
Qed.

(** X5.  [m_step] raises in exactly one situation: with [AM_noise == 0],
    at least one observer and exactly one class, the store
    [error_rates[k,0,1] = 0] raises IndexError.  In every other case it
    returns. *)
Theorem m_step_raises counts patient_classes AM_noise e :
  m_step counts patient_classes AM_noise = Raise e
  <-> AM_noise = 0%Z /\ (0 < nObservers counts)%nat
      /\ nClasses counts = 1%nat /\ e = IndexError.
Proof.
  split.
  - unfold m_step. intros H.
    destruct (for_range (nObservers counts)
                (fun k er => for_range (nClasses counts)
                   (m_step_body counts patient_classes AM_noise k) er)
                zeros3) as [er|e1] eqn:Hrun; simpl in H; [discriminate|].
    inversion H; subst e1. apply for_range_raise in Hrun.
    destruct Hrun as (k & er1 & Hk & Hrow). apply for_range_raise in Hrow.
    destruct Hrow as (j & er2 & Hj & Hb). unfold m_step_body in Hb.
    destruct ((AM_noise =? 0)%Z && (j =? 0)%nat)%bool eqn:Hcase.
    + apply andb_prop in Hcase. destruct Hcase as [H0 Hj0].
      apply Z.eqb_eq in H0. unfold setitem3 in Hb.
      destruct (Nat.ltb_spec 0 (nClasses counts)) as [_|HC]; [|lia].
      simpl in Hb.
      destruct (Nat.ltb_spec 1 (nClasses counts)) as [HC|HC];
        [discriminate|].
      inversion Hb. repeat split; [assumption | lia | lia].
    + exfalso.
      destruct (for_range (nClasses counts) _ er2) as [er3|e3] eqn:Hin;
        simpl in Hb.
      * destruct (Qltb 0 _); discriminate.
      * apply for_range_raise in Hin. destruct Hin as (l & er3 & _ & Hl).
        discriminate.
  - intros (H0 & HO & HC & He). subst e AM_noise. unfold m_step.
    destruct (nObservers counts) as [|n]; [lia|].
    rewrite (@for_range_first_raise _ n _ _ IndexError); [reflexivity|].
    rewrite HC. apply for_range_first_raise.
    unfold m_step_body, setitem3. rewrite HC. reflexivity.
Qed.

(** ** An item without observations in the E-step *)

Lemma class_likelihood_unobserved counts error_rates i j :
  (forall k l, (k < nObservers counts)%nat -> (l < nClasses counts)%nat ->
               count counts i k l = 0%nat) ->
  class_likelihood counts error_rates i j == 1.
Proof.
  intros Hnone. unfold class_likelihood.
  apply np_prod_one. intros k Hk. apply np_prod_one. intros l Hl.
  rewrite (Hnone k l Hk Hl). reflexivity.
Qed.

Lemma normalize_ext_eq n r r' j :
  (forall l, (l < n)%nat -> r l == r' l) -> (j < n)%nat ->
  normalize n r j == normalize n r' j.
Proof.
  intros Hr Hj. unfold normalize.
  pose proof (np_sum_ext_eq _ _ Hr) as Hsum.
  destruct (Qltb 0 (np_sum n r)) eqn:E.
  - apply Qltb_lt in E.
    assert (E' : 0 < np_sum n r') by (rewrite <- Hsum; exact E).
    apply Qltb_lt in E'. rewrite E'. rewrite (Hr j Hj), Hsum. reflexivity.
  - assert (E' : Qltb 0 (np_sum n r') = false).
    { destruct (Qltb 0 (np_sum n r')) eqn:E2; [|reflexivity].
      apply Qltb_lt in E2. rewrite <- Hsum in E2. apply Qltb_lt in E2.
      congruence. }
    rewrite E'. apply Hr. exact Hj.
Qed.

(** X6.  The E-step gives an item without any observation, to which no
    blind-spot override applies, the class marginals themselves, divided by
    their sum when that sum is positive: the error rates do not enter (every
    factor is a power with exponent 0, that is 1). When the marginals sum to
    1 the row is the vector of marginals. *)
Theorem e_step_unobserved_item counts gold_data class_marginals error_rates
    AM_noise pc i :
  e_step counts gold_data class_marginals error_rates AM_noise = Ok pc ->
  (i < nPatients counts)%nat ->
  blind_spot counts gold_data AM_noise i = Ok false ->
  (forall k l, (k < nObservers counts)%nat -> (l < nClasses counts)%nat ->
               count counts i k l = 0%nat) ->
  (forall j, (j < nClasses counts)%nat ->
     pc i j == normalize (nClasses counts) class_marginals j)
  /\ (np_sum (nClasses counts) class_marginals == 1 ->
      forall j, (j < nClasses counts)%nat -> pc i j == class_marginals j).
Proof.
  intros Hrun Hi Hc Hnone.
  assert (Hrow : forall j, (j < nClasses counts)%nat ->
            pc i j == normalize (nClasses counts) class_marginals j).
  { intros j Hj.
    destruct (@e_step_rows _ _ _ _ _ _ _ _ Hrun Hi Hj) as (c & Hc' & _ & Hv).
    rewrite Hc in Hc'. inversion Hc'; subst c. rewrite Hv.
    apply normalize_ext_eq; [|exact Hj].
    intros l Hl. unfold e_scores.
    rewrite (@class_likelihood_unobserved counts error_rates i l Hnone).
    apply Qmult_1_r. }
  split; [exact Hrow|].
  intros Hone j Hj. rewrite (Hrow j Hj).
  assert (Hpos : 0 < np_sum (nClasses counts) class_marginals)
    by (rewrite Hone; reflexivity).
  rewrite (normalize_positive _ _ j Hpos), Hone. field.
Qed.

(** Item 1 of [counts_unobserved] has no observation: with the marginals
    [[1/2, 1/2]] its row is [[1/2, 1/2]], whatever the error rates. *)
Lemma e_step_unobserved_item_witness :
  exists pc,
    e_step counts_unobserved no_gold uniform_prior identity_rates 1 = Ok pc
    /\ pc 1%nat 0%nat == 1 # 2 /\ pc 1%nat 1%nat == 1 # 2.
Proof.
  eexists. split; [reflexivity|].
  assert (Hnone : forall k l, (k < nObservers counts_unobserved)%nat ->
            (l < nClasses counts_unobserved)%nat ->
            count counts_unobserved 1 k l = 0%nat).
  { intros [|k] [|[|l]] Hk Hl; simpl in *; try lia; reflexivity. }
  destruct (@e_step_unobserved_item counts_unobserved no_gold uniform_prior
              identity_rates 1 _ 1%nat eq_refl (Nat.lt_succ_diag_r 1) eq_refl
              Hnone) as [_ Hrow].
  split; [rewrite (Hrow eq_refl 0%nat) | rewrite (Hrow eq_refl 1%nat)];
    simpl; try lia; reflexivity.
Defined.

(** ** The likelihood along a run *)

(** The rows of a posterior of a run: non-negative, of sum 1 or
    all-zero. *)
Lemma posterior_rows counts gold_data AM_noise pc :
  posterior counts gold_data AM_noise pc ->
  forall i, (i < nPatients counts)%nat ->
    (forall j, (j < nClasses counts)%nat -> 0 <= pc i j)
    /\ (np_sum (nClasses counts) (pc i) == 1
        \/ forall j, (j < nClasses counts)%nat -> pc i j == 0).
Proof.
  induction 1 as [pc rb Hinit | pc0 cm er pc Hpost IH Hm He]; intros i Hi.
  - destruct (@initialize_rows _ _ _ _ _ _ Hinit Hi)
      as (c & _ & Htwo & Hrow).
    split.
    + intros j _. rewrite Hrow. apply initial_row_nonneg.
    + destruct (@initial_row_sum counts c i Htwo) as [Hone|Hzero].
      * left. rewrite (np_sum_ext _ _ (fun j _ => Hrow j)). exact Hone.
      * right. intros j Hj. rewrite Hrow. apply Hzero. exact Hj.
  - destruct (@m_step_nonneg counts pc0 AM_noise cm er) as [Hcm Her];
      [|exact Hm|].
    + intros i' j Hi' Hj. apply (proj1 (IH i' Hi') j Hj).
    + apply (@e_step_rows_normalized counts gold_data cm er AM_noise pc i);
        assumption.
Qed.

(** The logarithm of a number that is not negative is finite or minus
    infinity. *)
Lemma np_log_nonneg x :
  0 <= x ->
  (0 < x /\ np_log x = Ln x) \/ (x == 0 /\ np_log x = NegInf).
Proof.
  intros Hx. unfold np_log. destruct (Qltb 0 x) eqn:E.
  - apply Qltb_lt in E. left. split; [exact E | reflexivity].
  - apply Qltb_ge in E. right.
    assert (H0 : x == 0) by (apply Qle_antisym; assumption).
    split; [exact H0|]. apply Qeq_bool_iff in H0. rewrite H0. reflexivity.
Qed.

Lemma np_isfinite_Ln a : np_isfinite a = true -> exists q, a = Ln q.
Proof.
  destruct a as [q| |]; [eauto | discriminate | discriminate].
Qed.

(** X7.  In a run the likelihood of an item is never negative, so that the
    logarithm the likelihood evaluator takes is never NaN: after the M-step
    of any iteration, if [calc_likelihood] exits at an item, the likelihood
    of that item is zero, the value accumulated before it is finite, and
    both the logarithm of the item and the new value are minus
    infinity. *)
Theorem likelihood_exit_zero counts gold_data AM_noise pc cm er :
  posterior counts gold_data AM_noise pc ->
  m_step counts pc AM_noise = Ok (cm, er) ->
  (forall i, (i < nPatients counts)%nat ->
     0 <= patient_likelihood counts cm er i)
  /\ forall i log_L term temp,
       calc_likelihood counts cm er = SysExit i log_L term temp ->
       patient_likelihood counts cm er i == 0
       /\ (exists q, log_L = Ln q)
       /\ term = NegInf /\ temp = NegInf.
Proof.
  intros Hpost Hm.
  assert (Hpc : forall i j, (i < nPatients counts)%nat ->
            (j < nClasses counts)%nat -> 0 <= pc i j)
    by (intros i j Hi Hj;
        apply (proj1 (@posterior_rows counts gold_data AM_noise pc Hpost i
                        Hi) j Hj)).
  destruct (@m_step_nonneg counts pc AM_noise cm er Hpc Hm) as [Hcm Her].
  assert (Hnn : forall i, 0 <= patient_likelihood counts cm er i).
  { intros i. unfold patient_likelihood. apply np_sum_nonneg. intros j Hj.
    apply Qmult_le_0_compat; [apply Hcm; exact Hj|].
    apply class_likelihood_nonneg. intros k l Hk Hl. apply Her; assumption. }
  split; [intros i _; apply Hnn|].
  intros i log_L term temp Hexit.
  pose proof (calc_likelihood_loop_spec counts cm er (nPatients counts) 0)
    as Hloop.
  change (calc_likelihood_loop counts cm er (seq 0 (nPatients counts))
            (log_L_upto counts cm er 0))
    with (calc_likelihood counts cm er) in Hloop.
  rewrite Hexit in Hloop. cbn [Nat.add] in Hloop.
  destruct Hloop as (Hi & Hbefore & Hbad & -> & -> & ->).
  assert (Hfin : np_isfinite (log_L_upto counts cm er i) = true).
  { destruct i as [|i]; [reflexivity | apply Hbefore; lia]. }
  destruct (np_isfinite_Ln _ Hfin) as (q & Hq).
  cbn [log_L_upto] in Hbad |- *. rewrite Hq in Hbad |- *.
  destruct (np_log_nonneg (Hnn i)) as [[Hpos Hlog]|[Hzero Hlog]];
    rewrite Hlog in Hbad |- *.
  - discriminate.
  - split; [exact Hzero|]. split; [eauto|]. split; reflexivity.
Qed.

(** One patient without any response: the first M-step gives the
    marginals [[0, 0]], the likelihood of the item is 0 and the evaluator
    exits at it with minus infinity. *)
Lemma likelihood_exit_zero_witness :
  exists pc rb cm er,
    initialize counts_no_observation no_gold 1 = Ok (pc, rb)
    /\ m_step counts_no_observation pc 1 = Ok (cm, er)
    /\ calc_likelihood counts_no_observation cm er
       = SysExit 0 (Ln 1) NegInf NegInf
    /\ patient_likelihood counts_no_observation cm er 0 == 0.
Proof.
  eexists _, _, _, _. split; [reflexivity|]. split; [reflexivity|].
  split; [reflexivity|].
  apply (proj2 (@likelihood_exit_zero counts_no_observation no_gold 1 _ _ _
                  (@posterior_initialize counts_no_observation no_gold 1 _ _
                     eq_refl)
                  eq_refl) 0%nat (Ln 1) NegInf NegInf eq_refl).
Defined.

(** ** A run that does not raise *)

Lemma em_loop_never_raises counts gold_data AM_noise tol max_iter fuel :
  (1 < nClasses counts)%nat ->
  (AM_noise = 0%Z -> (0 < nPatients counts)%nat ->
   nObservers counts = 1%nat) ->
  forall it old pc,
    match em_loop fuel counts gold_data AM_noise tol max_iter it old pc with
    | Raised _ _ => False
    | _ => True
    end.
Proof.
  intros HC HO. induction fuel as [|fuel IH]; intros it old pc; [exact I|].
  simpl.
  destruct (@m_step_total counts pc AM_noise) as (cm & er & Hm);
    [intros _; left; lia|].
  rewrite Hm.
  destruct (@e_step_total counts gold_data cm er AM_noise) as (pc' & He).
  { intros i Hi.
    destruct (@blind_spot_returns counts gold_data AM_noise i HC)
      as (c & Hc); [intros HA; apply (HO HA); lia|].
    exists c. split; [exact Hc | intros _; exact HC]. }
  rewrite He.
  destruct (calc_likelihood counts cm er) as [v|i a b c]; [|exact I].
  destruct (converged_test counts tol max_iter (S it) old cm er); [exact I|].
  apply IH.
Qed.

Lemma em_not_raised counts gold_data AM_noise tol max_iter fuel :
  (1 < nClasses counts)%nat ->
  (AM_noise = 0%Z -> (0 < nPatients counts)%nat ->
   nObservers counts = 1%nat) ->
  match em fuel counts gold_data AM_noise tol max_iter with
  | Raised _ _ => False
  | _ => True
  end.
Proof.
  intros HC HO.
  destruct (@initialize_total counts gold_data AM_noise) as (pc0 & rb & Hinit).
  { intros p Hp.
    destruct (@blind_spot_returns counts gold_data AM_noise p HC)
      as (c & Hc); [intros HA; apply (HO HA); lia|].
    exists c. split; [exact Hc | intros _; exact HC]. }
  unfold em. rewrite Hinit.
  apply (@em_loop_never_raises counts gold_data AM_noise tol max_iter fuel
           HC HO 0%nat None pc0).
Qed.

(** With [max (max_iter + 1) 2] passes of fuel the loop has ended. *)
Lemma em_enough_fuel counts gold_data AM_noise tol max_iter fuel :
  (Z.to_nat (Z.max (max_iter + 1) 2) <= fuel)%nat ->
  em fuel counts gold_data AM_noise tol max_iter <> OutOfFuel.
Proof.
  intros Hfuel. unfold em.
  destruct (initialize counts gold_data AM_noise) as [[pc0 rb]|e];
    [|discriminate].
  pose proof (@em_loop_fuel counts gold_data AM_noise tol max_iter fuel
                0%nat None pc0) as H.
  cbv beta zeta in H. apply H. simpl. lia.
Qed.

(** X8.  With at least two classes and, when [AM_noise == 0] and there is
    an item, exactly one observer, the EM part of [run] never raises,
    whatever the counts: no store is out of range and no truth value is
    ambiguous.  The run ends, within [max (max_iter + 1) 2] passes, by
    returning or by the exit of the likelihood evaluator. *)
Theorem em_never_raises counts gold_data AM_noise tol max_iter :
  (1 < nClasses counts)%nat ->
  (AM_noise = 0%Z -> (0 < nPatients counts)%nat ->
   nObservers counts = 1%nat) ->
  (forall fuel n e,
     em fuel counts gold_data AM_noise tol max_iter <> Raised n e)
  /\ (forall fuel,
        (Z.to_nat (Z.max (max_iter + 1) 2) <= fuel)%nat ->
        (exists n pc cm er,
           em fuel counts gold_data AM_noise tol max_iter
           = Returned n pc cm er)
        \/ (exists n i log_L term temp,
              em fuel counts gold_data AM_noise tol max_iter
              = Exited n i log_L term temp)).
Proof.
  intros HC HO. split.
  - intros fuel n e H.
    pose proof (@em_not_raised counts gold_data AM_noise tol max_iter fuel
                  HC HO) as Hok.
    rewrite H in Hok. exact Hok.
  - intros fuel Hfuel.
    pose proof (@em_not_raised counts gold_data AM_noise tol max_iter fuel
                  HC HO) as Hok.
    pose proof (@em_enough_fuel counts gold_data AM_noise tol max_iter fuel
                  Hfuel) as Hend.
    destruct (em fuel counts gold_data AM_noise tol max_iter)
      as [n pc cm er|n i a b c|n e|].
    + left. eauto.
    + right. eauto 6.
    + contradiction.
    + congruence.
Qed.

(** One patient with the four labels 0 under the noise model 0, with the
    defaults [tol = 0.00001] and [max_iter = 100]. *)
Lemma em_never_raises_witness :
  (exists n pc cm er,
     em 101 counts_4_0 no_gold 0 default_tol default_max_iter
     = Returned n pc cm er)
  \/ (exists n i log_L term temp,
        em 101 counts_4_0 no_gold 0 default_tol default_max_iter
        = Exited n i log_L term temp).
Proof.
  destruct (@em_never_raises counts_4_0 no_gold 0 default_tol
              default_max_iter) as [_ Hends];
    [simpl; lia | intros _ _; reflexivity|].
  apply Hends. simpl. lia.
Defined.

(** ** Labels outside [classes] *)

Lemma index_raise (K : Type) (eqb : K -> K -> bool) l x e :
  (forall a b, eqb a b = true <-> a = b) ->
  index eqb l x = Raise e -> e = ValueError /\ ~ In x l.
Proof.
  intros eqb_eq. induction l as [|y l IH]; simpl.
  - intros H. inversion H. split; [reflexivity | tauto].
  - destruct (eqb y x) eqn:E; [discriminate|].
    destruct (index eqb l x) as [n|e'] eqn:Hi; simpl; [discriminate|].
    intros H. inversion H; subst e'. destruct (IH eq_refl) as [He Hn].
    split; [exact He|]. intros [Hy|Hin]; [|tauto].
    apply eqb_eq in Hy. congruence.
Qed.

Lemma index_lt (K : Type) (eqb : K -> K -> bool) l x n :
  index eqb l x = Ok n -> (n < List.length l)%nat.
Proof.
  revert n. induction l as [|y l IH]; intros n; simpl; [discriminate|].
  destruct (eqb y x).
  - intros H. inversion H. lia.
  - intros H. apply bind_ok in H. destruct H as (m & Hm & Hret).
    inversion Hret. specialize (IH m Hm). lia.
Qed.

(** Where the aggregation raises, a response carries a label that is not
    in [classes], and the exception is the ValueError of [list.index]. *)
Lemma responses_to_counts_raise list_of_set (responses : responses_t)
    classes e :
  (forall l x, In x l -> In x (list_of_set l)) ->
  responses_to_counts list_of_set responses classes = Raise e ->
  e = ValueError
  /\ exists pat by_observer obs rs r,
       In (pat, by_observer) responses /\ In (obs, rs) by_observer
       /\ In r rs /\ ~ In (fst r) classes.
Proof.
  intros Hset Hrun. unfold responses_to_counts in Hrun.
  destruct (for_each _ (keys responses) _) as [[c g]|e1] eqn:Hloop;
    simpl in Hrun; [discriminate|].
  inversion Hrun; subst e1; clear Hrun.
  apply for_each_raise in Hloop.
  destruct Hloop as (pat & st & Hpat & Hbody). unfold count_patient in Hbody.
  destruct (@index_In _ tuple_eqb tuple_eqb_eq _ _ Hpat) as (i & Hi).
  rewrite Hi in Hbody. simpl in Hbody.
  destruct (@getitem_key _ tuple_eqb tuple_eqb_eq _ responses pat Hpat)
    as (by_observer & Hd).
  rewrite Hd in Hbody. simpl in Hbody.
  pose proof (@getitem_Ok_In _ tuple_eqb tuple_eqb_eq _ _ _ _ Hd) as Hin.
  apply for_each_raise in Hbody.
  destruct Hbody as (obs & st1 & Hobs & Hbody).
  unfold count_observer in Hbody.
  destruct (@index_In _ Z.eqb Z.eqb_eq
              (list_of_set (collect_observers responses)) obs) as (k & Hk).
  { apply Hset. apply (@collect_observers_In _ _ _ _ Hin Hobs). }
  rewrite Hk in Hbody. simpl in Hbody. rewrite Hd in Hbody. simpl in Hbody.
  destruct (@getitem_key _ Z.eqb Z.eqb_eq _ by_observer obs Hobs)
    as (rs & Hrs).
  rewrite Hrs in Hbody. simpl in Hbody.
  apply (@getitem_Ok_In _ Z.eqb Z.eqb_eq) in Hrs.
  apply for_each_raise in Hbody.
  destruct Hbody as ([label truth] & [c1 g1] & Hr & Hbody).
  unfold count_response in Hbody.
  destruct (index Z.eqb classes label) as [j|e2] eqn:Hj; simpl in Hbody.
  - destruct ((label =? 1)%Z && String.eqb truth "t"); discriminate.
  - inversion Hbody; subst e2.
    destruct (@index_raise _ Z.eqb classes label e Z.eqb_eq Hj) as [He Hnot].
    split; [exact He|].
    exists pat, by_observer, obs, rs, (label, truth). auto.
Qed.

(** Where the aggregation returns, every label is in [classes]. *)
Lemma responses_to_counts_labels list_of_set (responses : responses_t)
    classes res :
  well_formed responses ->
  responses_to_counts list_of_set responses classes = Ok res ->
  forall pat (by_observer : dict observer (list response)) obs rs r,
    In (pat, by_observer) responses -> In (obs, rs) by_observer ->
    In r rs -> In (fst r) classes.
Proof.
  intros [Hnd Hinner] Hrun pat by_observer obs rs r Hin Hrs Hr.
  unfold responses_to_counts in Hrun.
  apply bind_ok in Hrun. destruct Hrun as (st & Hloop & _).
  assert (Hpat : In pat (keys responses))
    by (apply (in_map fst responses (pat, by_observer) Hin)).
  destruct (for_each_ok_each _ _ _ Hloop pat Hpat) as (s1 & s2 & Hbody).
  unfold count_patient in Hbody.
  apply bind_ok in Hbody. destruct Hbody as (i & _ & Hbody).
  rewrite (@getitem_In _ tuple_eqb tuple_eqb_eq _ responses pat by_observer
             Hnd Hin) in Hbody.
  simpl in Hbody.
  assert (Hobs : In obs (keys by_observer))
    by (apply (in_map fst by_observer (obs, rs) Hrs)).
  destruct (for_each_ok_each _ _ _ Hbody obs Hobs) as (s3 & s4 & Hbody').
  unfold count_observer in Hbody'.
  apply bind_ok in Hbody'. destruct Hbody' as (k & _ & Hbody').
  rewrite (@getitem_In _ tuple_eqb tuple_eqb_eq _ responses pat by_observer
             Hnd Hin) in Hbody'.
  simpl in Hbody'.
  rewrite (@getitem_In _ Z.eqb Z.eqb_eq _ by_observer obs rs
             (Hinner pat by_observer Hin) Hrs) in Hbody'.
  simpl in Hbody'.
  destruct (for_each_ok_each _ _ _ Hbody' r Hr) as ([c5 g5] & s6 & Hbody'').
  unfold count_response in Hbody''. destruct r as [label truth].
  apply bind_ok in Hbody''. destruct Hbody'' as (j & Hj & _).
  apply (@index_Ok_In _ Z.eqb Z.eqb_eq _ _ _ Hj).
Qed.

(** X9.  [responses_to_counts] raises exactly when some response carries a
    class label that is not in [classes], and the exception is then
    ValueError: no other lookup of the three loops can fail. *)
Theorem responses_to_counts_raises list_of_set (responses : responses_t)
    classes e :
  (forall l x, In x l -> In x (list_of_set l)) ->
  well_formed responses ->
  (responses_to_counts list_of_set responses classes = Raise e
   <-> e = ValueError
       /\ exists pat by_observer obs rs r,
            In (pat, by_observer) responses /\ In (obs, rs) by_observer
            /\ In r rs /\ ~ In (fst r) classes).
Proof.
  intros Hset Hwf. split.
  - apply responses_to_counts_raise. exact Hset.
  - intros (-> & pat & by_observer & obs & rs & r & Hin & Hrs & Hr & Hnot).
    destruct (responses_to_counts list_of_set responses classes)
      as [res|e'] eqn:Hrun.
    + exfalso. apply Hnot.
      apply (@responses_to_counts_labels list_of_set responses classes res
               Hwf Hrun pat by_observer obs rs r Hin Hrs Hr).
    + destruct (@responses_to_counts_raise list_of_set responses classes e'
                  Hset Hrun) as [-> _].
      reflexivity.
Qed.

(** The four labels 0 of [responses_4_0] aggregated against
    [classes = [1]] raise ValueError. *)
Lemma responses_to_counts_raises_witness :
  responses_to_counts (fun l => l) responses_4_0 [1%Z] = Raise ValueError.
Proof.
  apply (@responses_to_counts_raises (fun l => l) responses_4_0 [1%Z]
           ValueError).
  - intros l x H. exact H.
  - split.
    + repeat constructor. simpl. tauto.
    + intros pat by_observer [H|[]]. inversion H; subst.
      repeat constructor. simpl. tauto.
  - split; [reflexivity|].
    exists [1%Z], [(1%Z, [(0%Z, "f"%string); (0%Z, "f"%string);
                          (0%Z, "f"%string); (0%Z, "f"%string)])],
      1%Z, [(0%Z, "f"%string); (0%Z, "f"%string);
            (0%Z, "f"%string); (0%Z, "f"%string)], (0%Z, "f"%string).
    simpl. repeat split; auto. intros [H|[]]. discriminate.
Defined.

(** ** Every response is counted once *)

Lemma list_sum_map_add (A : Type) (f g : A -> nat) l :
  list_sum (map (fun x => (f x + g x)%nat) l)
  = (list_sum (map f l) + list_sum (map g l))%nat.
Proof.
  induction l as [|x l IH]; simpl; [reflexivity | lia].
Qed.

Lemma list_sum_indicator j0 n :
  list_sum (map (fun j => if (j0 =? j)%nat then 1%nat else 0%nat) (seq 0 n))
  = if (j0 <? n)%nat then 1%nat else 0%nat.
Proof.
  induction n as [|n IH]; [reflexivity|].
  rewrite seq_S, map_app, list_sum_app, IH. simpl.
  destruct (Nat.eqb_spec j0 n), (Nat.ltb_spec j0 n), (Nat.ltb_spec j0 (S n));
    lia.
Qed.

Lemma hits_total classes rs :
  (forall r, In r rs -> In (fst r) classes) ->
  list_sum (map (fun j => hits classes j rs) (seq 0 (List.length classes)))
  = List.length rs.
Proof.
  induction rs as [|r rs IH]; intros Hall.
  - simpl. induction (seq 0 (List.length classes)) as [|x l IHl];
      [reflexivity | exact IHl].
  - rewrite (map_ext _ _ (fun j => hits_cons classes j r rs)).
    rewrite list_sum_map_add, IH
      by (intros r' Hr'; apply Hall; right; exact Hr').
    destruct (@index_In _ Z.eqb Z.eqb_eq classes (fst r)) as (j0 & Hj0);
      [apply Hall; left; reflexivity|].
    rewrite Hj0, list_sum_indicator.
    pose proof (index_lt _ _ _ Hj0) as Hlt.
    destruct (Nat.ltb_spec j0 (List.length classes)); [reflexivity | lia].
Qed.

(** X10.  Every response is counted exactly once: after
    [responses_to_counts], the cells of a patient and an observer, summed
    over the classes, are the number of responses of that observer on that
    patient. *)
Theorem responses_to_counts_conserves list_of_set responses classes patients
    observers cls counts gold_data pat obs i k :
  well_formed responses ->
  responses_to_counts list_of_set responses classes
  = Ok (patients, observers, cls, counts, gold_data) ->
  index tuple_eqb patients pat = Ok i ->
  index Z.eqb observers obs = Ok k ->
  list_sum (map (count counts i k) (seq 0 (nClasses counts)))
  = List.length (observations responses pat obs).
Proof.
  intros Hwf Hrun Hi Hk.
  pose proof (@responses_to_counts_labels list_of_set responses classes _
                Hwf Hrun) as Hlabels.
  unfold responses_to_counts in Hrun.
  apply bind_ok in Hrun. destruct Hrun as ([c g] & Hloop & Hret).
  inversion Hret; subst patients observers cls counts gold_data; clear Hret.
  simpl.
  apply count_patient_loop in Hloop; [|exact Hwf | apply Hwf].
  destruct Hloop as [Hc _].
  assert (Hin : existsb (tuple_eqb pat) (keys responses) = true).
  { apply existsb_tuple_In.
    apply (@index_Ok_In _ tuple_eqb tuple_eqb_eq _ _ _ Hi). }
  rewrite (map_ext _
             (fun j => hits classes j (observations responses pat obs))).
  2:{ intros j. rewrite (Hc pat i obs k j Hi Hk), Hin. reflexivity. }
  apply hits_total. intros r Hr. unfold observations in Hr.
  destruct (getitem tuple_eqb responses pat) as [by_observer|e] eqn:Hd;
    [|contradiction].
  destruct (getitem Z.eqb by_observer obs) as [rs|e] eqn:Hrs;
    [|contradiction].
  apply (@getitem_Ok_In _ tuple_eqb tuple_eqb_eq) in Hd.
  apply (@getitem_Ok_In _ Z.eqb Z.eqb_eq) in Hrs.
  apply (Hlabels pat by_observer obs rs r Hd Hrs Hr).
Qed.

(** The four labels of [responses_4_0]: the cells of the patient and the
    observer sum to 4. *)
Lemma responses_to_counts_conserves_witness :
  exists patients observers cls counts gold_data,
    responses_to_counts (fun l => l) responses_4_0 [0%Z; 1%Z]
    = Ok (patients, observers, cls, counts, gold_data)
    /\ list_sum (map (count counts 0 0) (seq 0 (nClasses counts))) = 4%nat.
Proof.
  eexists _, _, _, _, _. split; [reflexivity|].
  eapply (@responses_to_counts_conserves (fun l => l) responses_4_0
            [0%Z; 1%Z] _ _ _ _ _ [1%Z] 1%Z 0%nat 0%nat).
  - split.
    + repeat constructor. simpl. tauto.
    + intros pat by_observer [H|[]]. inversion H; subst.
      repeat constructor. simpl. tauto.
  - reflexivity.
  - reflexivity.
  - reflexivity.
Defined.

(** ** [majority_voting] *)

Lemma np_maximum_spec a b :
  a <= np_maximum a b /\ b <= np_maximum a b
  /\ (np_maximum a b = a \/ np_maximum a b = b).
Proof.
  unfold np_maximum. destruct (Qle_bool a b) eqn:E.
  - apply Qle_bool_iff in E. repeat split; [exact E | apply Qle_refl | auto].
  - assert (Hlt : Qltb b a = true) by (unfold Qltb; rewrite E; reflexivity).
    apply Qltb_lt in Hlt.
    repeat split; [apply Qle_refl | apply Qlt_le_weak; exact Hlt | auto].
Qed.

Lemma max_upto_ge n f j : (j <= n)%nat -> f j <= max_upto n f.
Proof.
  induction n as [|n IH]; intros Hj; simpl.
  - replace j with 0%nat by lia. apply Qle_refl.
  - destruct (np_maximum_spec (max_upto n f) (f (S n))) as (Ha & Hb & _).
    destruct (Nat.eq_dec j (S n)) as [->|Hne]; [exact Hb|].
    apply Qle_trans with (max_upto n f); [apply IH; lia | exact Ha].
Qed.

Lemma max_upto_attained n f : exists j, (j <= n)%nat /\ max_upto n f = f j.
Proof.
  induction n as [|n (j & Hj & IH)]; simpl; [exists 0%nat; auto|].
  destruct (np_maximum_spec (max_upto n f) (f (S n))) as (_ & _ & [H|H]);
    rewrite H.
  - exists j. split; [lia | exact IH].
  - exists (S n). auto.
Qed.

Lemma fold_min_spec l x :
  (fold_left Nat.min l x = x \/ In (fold_left Nat.min l x) l)
  /\ (fold_left Nat.min l x <= x)%nat
  /\ forall y, In y l -> (fold_left Nat.min l x <= y)%nat.
Proof.
  revert x. induction l as [|z l IH]; intros x; simpl.
  - split; [auto|]. split; [lia | contradiction].
  - destruct (IH (Nat.min x z)) as (Hin & Hle & Hall).
    split; [|split].
    + destruct Hin as [Heq|Hin]; [|auto].
      rewrite Heq. destruct (Nat.min_spec x z) as [[_ ->]|[_ ->]]; auto.
    + lia.
    + intros y [->|Hy]; [lia | apply Hall; exact Hy].
Qed.

Lemma np_min_spec l :
  l <> [] ->
  exists m, np_min l = Ok m /\ In m l /\ forall y, In y l -> (m <= y)%nat.
Proof.
  destruct l as [|x l]; [congruence|]. intros _.
  destruct (fold_min_spec l x) as (Hin & Hle & Hall).
  exists (fold_left Nat.min l x). split; [reflexivity|]. split.
  - simpl. destruct Hin as [->|Hin]; auto.
  - intros y [<-|Hy]; [exact Hle | apply Hall; exact Hy].
Qed.

(** One pass of the loop stores a 1 at the lowest index of a maximal
    response total. *)
Lemma majority_voting_body_spec counts p pc :
  (0 < nClasses counts)%nat ->
  exists w,
    (w < nClasses counts)%nat
    /\ (forall j, (j < nClasses counts)%nat ->
          response_sums counts p j <= response_sums counts p w)
    /\ (forall j, (j < w)%nat ->
          response_sums counts p j < response_sums counts p w)
    /\ majority_voting_body counts p pc = Ok (set2 pc p w 1).
Proof.
  intros HC. unfold majority_voting_body.
  destruct (nClasses counts) as [|m] eqn:HnC; [lia|]. simpl np_max. simpl bind.
  set (f := response_sums counts p).
  destruct (max_upto_attained m f) as (j0 & Hj0 & Hmax).
  assert (Hne : np_argwhere (S m) (fun j => Qeq_bool (f j) (max_upto m f))
                <> []).
  { intros Hnil.
    assert (Hin : In j0 (np_argwhere (S m)
                           (fun j => Qeq_bool (f j) (max_upto m f)))).
    { apply filter_In. split; [apply in_seq; lia|].
      apply Qeq_bool_iff. rewrite Hmax. reflexivity. }
    rewrite Hnil in Hin. contradiction. }
  destruct (np_min_spec Hne) as (w & Hw & Hin & Hleast).
  apply filter_In in Hin. destruct Hin as [Hrange Heq].
  apply in_seq in Hrange. apply Qeq_bool_iff in Heq.
  exists w. split; [lia|]. split; [|split].
  - intros j Hj. rewrite Heq. apply max_upto_ge. lia.
  - intros j Hj.
    assert (Hle : f j <= max_upto m f) by (apply max_upto_ge; lia).
    rewrite Heq. apply Qle_lt_or_eq in Hle. destruct Hle as [Hlt|He];
      [exact Hlt|].
    exfalso.
    assert (Hin : In j (np_argwhere (S m)
                          (fun j => Qeq_bool (f j) (max_upto m f)))).
    { apply filter_In. split; [apply in_seq; lia|].
      apply Qeq_bool_iff. exact He. }
    specialize (Hleast j Hin). lia.
  - rewrite Hw. reflexivity.
Qed.

(** X11.  With at least one class, [majority_voting] returns a matrix whose
    row for each item is one-hot: the 1 is at a class with the greatest
    response total over the observers, and at the lowest such class when
    several tie. *)
Theorem majority_voting_spec counts :
  (0 < nClasses counts)%nat ->
  exists pc,
    majority_voting counts = Ok pc
    /\ forall p, (p < nPatients counts)%nat ->
         exists w,
           (w < nClasses counts)%nat
           /\ (forall j, (j < nClasses counts)%nat ->
                 response_sums counts p j <= response_sums counts p w)
           /\ (forall j, (j < w)%nat ->
                 response_sums counts p j < response_sums counts p w)
           /\ forall j, pc p j = if (j =? w)%nat then 1 else 0.
Proof.
  intros HC. unfold majority_voting.
  destruct (@for_range_total _
              (fun n (a : mat) =>
                 (forall p, (p < n)%nat ->
                    exists w,
                      (w < nClasses counts)%nat
                      /\ (forall j, (j < nClasses counts)%nat ->
                            response_sums counts p j
                            <= response_sums counts p w)
                      /\ (forall j, (j < w)%nat ->
                            response_sums counts p j
                            < response_sums counts p w)
                      /\ forall j, a p j = if (j =? w)%nat then 1 else 0)
                 /\ forall p j, (n <= p)%nat -> a p j = 0)
              (nPatients counts) (majority_voting_body counts) zeros2)
    as (pc & Hrun & Hinv & _).
  - split; [intros p Hp; lia | reflexivity].
  - intros i a Hi [Hdone Hrest].
    destruct (@majority_voting_body_spec counts i a HC)
      as (w & Hw & Hmax & Hfirst & Hbody).
    exists (set2 a i w 1). split; [exact Hbody|]. split.
    + intros p Hp. destruct (Nat.eq_dec p i) as [->|Hne].
      * exists w. repeat (split; [assumption|]).
        intros j. destruct (Nat.eqb_spec j w) as [->|Hjw].
        -- apply set2_same.
        -- rewrite set2_other_col by exact Hjw. apply Hrest. lia.
      * destruct (Hdone p) as (w' & H1 & H2 & H3 & H4); [lia|].
        exists w'. repeat (split; [assumption|]).
        intros j. rewrite set2_other_row by exact Hne. apply H4.
    + intros p j Hp. rewrite set2_other_row by lia. apply Hrest. lia.
  - exists pc. split; [exact Hrun | exact Hinv].
Qed.

(** [counts = [[[1, 2]]]]: the vote goes to class 1. *)
Lemma majority_voting_spec_witness :
  exists pc, majority_voting counts_1_2 = Ok pc
             /\ pc 0%nat 0%nat = 0 /\ pc 0%nat 1%nat = 1.
Proof.
  destruct (@majority_voting_spec counts_1_2) as (pc & Hrun & Hrows);
    [simpl; lia|].
  exists pc. split; [exact Hrun|].
  destruct (Hrows 0%nat) as (w & Hw & Hmax & _ & Hrow); [simpl; lia|].
  assert (Hw1 : w = 1%nat).
  { destruct w as [|[|w]]; [|reflexivity | simpl in Hw; lia].
    exfalso.
    assert (H : response_sums counts_1_2 0%nat 1%nat
                <= response_sums counts_1_2 0%nat 0%nat)
      by (apply Hmax; simpl; lia).
    vm_compute in H. apply H. reflexivity. }
  subst w. rewrite !Hrow. split; reflexivity.
Defined.

(** X12.  [majority_voting] raises exactly when there is an item and no
    class: [np.max] of an empty row raises ValueError. *)
Theorem majority_voting_raises counts e :
  majority_voting counts = Raise e
  <-> (0 < nPatients counts)%nat /\ nClasses counts = 0%nat
      /\ e = ValueError.
Proof.
  split.
  - intros Hrun. unfold majority_voting in Hrun.
    apply for_range_raise in Hrun. destruct Hrun as (p & a & Hp & Hbody).
    destruct (Nat.eq_dec (nClasses counts) 0) as [HC|HC].
    + unfold majority_voting_body in Hbody. rewrite HC in Hbody.
      simpl in Hbody. inversion Hbody. repeat split; [lia | exact HC].
    + destruct (@majority_voting_body_spec counts p a)
        as (w & _ & _ & _ & Hok); [lia|].
      rewrite Hok in Hbody. discriminate.
  - intros (HP & HC & ->). unfold majority_voting.
    destruct (nPatients counts) as [|n]; [lia|].
    apply for_range_first_raise. unfold majority_voting_body.
    rewrite HC. reflexivity.
Qed.

(** ** [write_to_file] *)

Lemma argmax_upto_spec n f :
  (argmax_upto n f <= n)%nat
  /\ (forall j, (j <= n)%nat -> f j <= f (argmax_upto n f))
  /\ (forall j, (j < argmax_upto n f)%nat -> f j < f (argmax_upto n f)).
Proof.
  induction n as [|n (Hle & Hmax & Hfirst)]; simpl.
  - split; [lia|]. split; [|intros j Hj; lia].
    intros j Hj. replace j with 0%nat by lia. apply Qle_refl.
  - destruct (Qltb (f (argmax_upto n f)) (f (S n))) eqn:E.
    + apply Qltb_lt in E. split; [lia|]. split.
      * intros j Hj. destruct (Nat.eq_dec j (S n)) as [->|Hne];
          [apply Qle_refl|].
        apply Qlt_le_weak. apply Qle_lt_trans with (f (argmax_upto n f));
          [apply Hmax; lia | exact E].
      * intros j Hj. apply Qle_lt_trans with (f (argmax_upto n f));
          [apply Hmax; lia | exact E].
    + apply Qltb_ge in E. split; [lia|]. split; [|exact Hfirst].
      intros j Hj. destruct (Nat.eq_dec j (S n)) as [->|Hne];
        [exact E | apply Hmax; lia].
Qed.

Lemma best_labels_closed nPatients m pc :
  best_labels nPatients (S m) pc
  = Ok (map (fun i => argmax_upto m (pc i)) (seq 0 nPatients),
        map (fun i => pc i (argmax_upto m (pc i))) (seq 0 nPatients)).
Proof.
  unfold best_labels. induction nPatients as [|n IH]; [reflexivity|].
  rewrite for_range_S, IH. simpl bind.
  rewrite seq_S, !map_app. reflexivity.
Qed.

Lemma nth_error_map_seq (A : Type) (g : nat -> A) n i :
  (i < n)%nat -> nth_error (map g (seq 0 n)) i = Some (g i).
Proof.
  intros Hi. rewrite nth_error_map, nth_error_seq.
  destruct (Nat.ltb_spec i n); [reflexivity | lia].
Qed.

Lemma write_to_file_closed nPatients m patients pc :
  (nPatients <= List.length patients)%nat ->
  write_to_file nPatients (S m) patients pc
  = Ok (map (fun i => (nth i patients [], argmax_upto m (pc i),
                       pc i (argmax_upto m (pc i))))
          (seq 0 nPatients)).
Proof.
  intros Hlen. unfold write_to_file. rewrite best_labels_closed. simpl bind.
  set (labels := map (fun i => argmax_upto m (pc i)) (seq 0 nPatients)).
  set (weights := map (fun i => pc i (argmax_upto m (pc i)))
                    (seq 0 nPatients)).
  assert (Hgen : forall n, (n <= nPatients)%nat ->
            for_range n
              (fun i (f : list line_t) =>
                 pat <- list_getitem patients i ;;
                 label <- list_getitem labels i ;;
                 weight <- list_getitem weights i ;;
                 Ok (f ++ [(pat, label, weight)])) []
            = Ok (map (fun i => (nth i patients [], argmax_upto m (pc i),
                                 pc i (argmax_upto m (pc i))))
                    (seq 0 n))).
  { induction n as [|n IH]; intros Hn; [reflexivity|].
    rewrite for_range_S, IH by lia. simpl bind.
    unfold list_getitem, labels, weights.
    rewrite !nth_error_map_seq by lia.
    destruct (nth_error patients n) as [pat|] eqn:Hpat.
    - simpl bind. rewrite seq_S, map_app. cbn [map Nat.add].
      rewrite (@nth_error_nth _ patients n pat [] Hpat). reflexivity.
    - apply nth_error_None in Hpat. lia. }
  apply Hgen. lia.
Qed.

(** X13.  With at least one class and a key for every item, [write_to_file]
    writes one line per item, in order: the key of the item, the first class
    at which the row of the item is greatest, and the entry of the row at
    that class. *)
Theorem write_to_file_spec nPatients nClasses patients pc :
  (0 < nClasses)%nat -> (nPatients <= List.length patients)%nat ->
  exists f,
    write_to_file nPatients nClasses patients pc = Ok f
    /\ List.length f = nPatients
    /\ forall i, (i < nPatients)%nat ->
         exists pat label,
           nth_error patients i = Some pat
           /\ nth_error f i = Some (pat, label, pc i label)
           /\ (label < nClasses)%nat
           /\ (forall j, (j < nClasses)%nat -> pc i j <= pc i label)
           /\ (forall j, (j < label)%nat -> pc i j < pc i label).
Proof.
  intros HC Hlen. destruct nClasses as [|m]; [lia|].
  eexists. split; [apply write_to_file_closed; exact Hlen|].
  split; [rewrite length_map, length_seq; reflexivity|].
  intros i Hi.
  destruct (nth_error patients i) as [pat|] eqn:Hpat;
    [|apply nth_error_None in Hpat; lia].
  destruct (argmax_upto_spec m (pc i)) as (Hle & Hmax & Hfirst).
  exists pat, (argmax_upto m (pc i)). split; [reflexivity|]. split.
  - rewrite nth_error_map_seq by exact Hi.
    rewrite (@nth_error_nth _ patients i pat [] Hpat). reflexivity.
  - split; [lia|]. split; [|exact Hfirst].
    intros j Hj. apply Hmax. lia.
Qed.

(** Two items with the rows [[1/4, 3/4]] and [[1/2, 1/2]]: two lines are
    written, the first with label 1 and weight 3/4. *)
Lemma write_to_file_spec_witness :
  exists f,
    write_to_file 2 2 [[7%Z]; [8%Z]]
      (fun i j => match i, j with
                  | O, O => 1 # 4
                  | O, _ => 3 # 4
                  | _, _ => 1 # 2
                  end) = Ok f
    /\ List.length f = 2%nat
    /\ nth_error f 0 = Some ([7%Z], 1%nat, 3 # 4).
Proof.
  destruct (@write_to_file_spec 2 2 [[7%Z]; [8%Z]]
              (fun i j => match i, j with
                          | O, O => 1 # 4
                          | O, _ => 3 # 4
                          | _, _ => 1 # 2
                          end)) as (f & Hrun & Hlen & Hrows);
    [lia | simpl; lia|].
  exists f. split; [exact Hrun|]. split; [exact Hlen|].
  destruct (Hrows 0%nat) as (pat & label & Hpat & Hline & Hlt & Hmax & _);
    [lia|].
  inversion Hpat; subst pat.
  destruct label as [|[|label]]; [|exact Hline | lia].
  exfalso. specialize (Hmax 1%nat). cbv beta iota in Hmax.
  assert (H : (3 # 4) <= (1 # 4)) by (apply Hmax; lia).
  vm_compute in H. apply H. reflexivity.
Defined.

Lemma write_to_file_raise nPatients nClasses patients pc e :
  write_to_file nPatients nClasses patients pc = Raise e ->
  ((0 < nPatients)%nat /\ nClasses = 0%nat /\ e = ValueError)
  \/ ((0 < nClasses)%nat /\ (List.length patients < nPatients)%nat
      /\ e = IndexError).
Proof.
  destruct nClasses as [|m].
  - destruct nPatients as [|n]; [discriminate|].
    unfold write_to_file, best_labels.
    rewrite (@for_range_first_raise _ n _ _ ValueError) by reflexivity.
    intros H. inversion H. left. repeat split. lia.
  - unfold write_to_file. rewrite best_labels_closed. simpl bind.
    intros H. apply for_range_raise in H. destruct H as (i & f & Hi & Hbody).
    unfold list_getitem in Hbody.
    rewrite !nth_error_map_seq in Hbody by exact Hi.
    destruct (nth_error patients i) as [pat|] eqn:Hpat; [discriminate|].
    inversion Hbody. apply nth_error_None in Hpat.
    right. repeat split; lia.
Qed.

(** X14.  [write_to_file] raises in exactly two situations: ValueError when
    there is an item and the rows are empty ([np.argmax] of an empty row),
    and IndexError when the rows are not empty and there are fewer keys than
    items. *)
Theorem write_to_file_raises nPatients nClasses patients pc e :
  write_to_file nPatients nClasses patients pc = Raise e
  <-> ((0 < nPatients)%nat /\ nClasses = 0%nat /\ e = ValueError)
      \/ ((0 < nClasses)%nat /\ (List.length patients < nPatients)%nat
          /\ e = IndexError).
Proof.
  split; [apply write_to_file_raise|].
  intros [(HP & -> & ->)|(HC & Hlen & ->)].
  - destruct nPatients as [|n]; [lia|].
    unfold write_to_file, best_labels.
    rewrite (@for_range_first_raise _ n _ _ ValueError) by reflexivity.
    reflexivity.
  - destruct (write_to_file nPatients nClasses patients pc) as [f|e'] eqn:Hrun.
    + exfalso. destruct nClasses as [|m]; [lia|].
      unfold write_to_file in Hrun. rewrite best_labels_closed in Hrun.
      simpl bind in Hrun.
      destruct (for_range_ok_each _ _ Hrun Hlen) as (f1 & f2 & Hbody).
      apply bind_ok in Hbody. destruct Hbody as (pat & Hpat & _).
      unfold list_getitem in Hpat.
      destruct (nth_error patients (List.length patients)) as [x|] eqn:Hx;
        [|discriminate].
      assert (Hnone : nth_error patients (List.length patients) = None)
        by (apply nth_error_None; lia).
      congruence.
    + destruct (write_to_file_raise _ _ _ _ Hrun)
        as [(_ & H0 & _)|(_ & _ & ->)]; [lia | reflexivity].
Qed.

(** ** What a run writes *)

Lemma nth_seq_id (A : Type) (l : list A) d :
  map (fun i => nth i l d) (seq 0 (List.length l)) = l.
Proof.
  induction l as [|a l IH]; [reflexivity|].
  cbn [List.length seq map nth]. f_equal.
  rewrite <- seq_shift, map_map. exact IH.
Qed.

(** A line of the file, read off the lists the two loops build. *)
Lemma written_line nPatients m (patients : list patient) (pc : mat) i pat
    label weight :
  nth_error
    (map (fun i => (nth i patients [], argmax_upto m (pc i),
                    pc i (argmax_upto m (pc i))))
       (seq 0 nPatients)) i
  = Some (pat, label, weight) ->
  (i < nPatients)%nat
  /\ (label < S m)%nat
  /\ weight = pc i label
  /\ (forall j, (j < S m)%nat -> pc i j <= pc i label)
  /\ (forall j, (j < label)%nat -> pc i j < pc i label).
Proof.
  intros Hline.
  assert (Hi : (i < nPatients)%nat).
  { destruct (Nat.lt_ge_cases i nPatients) as [Hi|Hi]; [exact Hi|].
    assert (Hnone : nth_error
                      (map (fun i => (nth i patients [],
                                      argmax_upto m (pc i),
                                      pc i (argmax_upto m (pc i))))
                         (seq 0 nPatients)) i = None).
    { apply nth_error_None. rewrite length_map, length_seq. exact Hi. }
    congruence. }
  rewrite (nth_error_map_seq _ Hi) in Hline.
  inversion Hline; subst pat label weight.
  destruct (argmax_upto_spec m (pc i)) as (Hle & Hmax & Hfirst).
  split; [exact Hi|]. split; [lia|]. split; [reflexivity|].
  split; [|exact Hfirst]. intros j Hj. apply Hmax. lia.
Qed.

Lemma em_loop_returned_last counts gold_data AM_noise tol max_iter fuel :
  forall it old pc0 n pc cm er,
    em_loop fuel counts gold_data AM_noise tol max_iter it old pc0
    = Returned n pc cm er ->
    e_step counts gold_data cm er AM_noise = Ok pc
    /\ exists v, calc_likelihood counts cm er = Returns v.
Proof.
  induction fuel as [|fuel IH]; intros it old pc0 n pc cm er; simpl;
    [discriminate|].
  destruct (m_step counts pc0 AM_noise) as [[cm1 er1]|e] eqn:Hm;
    [|discriminate].
  destruct (e_step counts gold_data cm1 er1 AM_noise) as [pc1|e] eqn:He;
    [|discriminate].
  destruct (calc_likelihood counts cm1 er1) as [v|i a b c] eqn:Hl;
    [|discriminate].
  destruct (converged_test counts tol max_iter (S it) old cm1 er1).
  - intros H. inversion H; subst. split; [exact He | eauto].
  - apply IH.
Qed.

(** A run that returns on at least one item has at least one class: with
    no class every item likelihood is 0 and the likelihood evaluator
    exits. *)
Lemma returns_classes counts cm er v :
  calc_likelihood counts cm er = Returns v ->
  (0 < nPatients counts)%nat -> (0 < nClasses counts)%nat.
Proof.
  intros Hl HP.
  pose proof (calc_likelihood_loop_spec counts cm er (nPatients counts) 0)
    as Hloop.
  change (calc_likelihood_loop counts cm er (seq 0 (nPatients counts))
            (log_L_upto counts cm er 0))
    with (calc_likelihood counts cm er) in Hloop.
  rewrite Hl in Hloop. destruct Hloop as [_ Hfin].
  specialize (Hfin 1%nat). cbn [Nat.add] in Hfin.
  assert (H1 : np_isfinite (log_L_upto counts cm er 1) = true)
    by (apply Hfin; lia).
  pose proof (proj1 (log_L_upto_finite counts cm er 1) H1 0%nat
                (Nat.lt_0_succ 0)) as H0.
  clear H1. rename H0 into H1. unfold patient_likelihood in H1.
  destruct (nClasses counts) as [|m]; [|lia].
  simpl in H1. exfalso. apply (Qlt_irrefl 0 H1).
Qed.

Lemma row_entry_le_1 n (r : vec) j :
  (forall j, (j < n)%nat -> 0 <= r j) ->
  (np_sum n r == 1 \/ forall j, (j < n)%nat -> r j == 0) ->
  (j < n)%nat -> r j <= 1.
Proof.
  intros Hnn [Hone|Hzero] Hj.
  - rewrite <- Hone. apply np_sum_ge_term; assumption.
  - rewrite (Hzero j Hj). discriminate.
Qed.

(** X15.  When the EM loop of [run] returns, the call of [write_to_file] that
    ends [run] does not raise. It writes one line for every key of
    [responses], in the order of the dictionary; the label of a line is a
    position of [classes] at which the posterior row of the item is greatest,
    the weight is that posterior value and lies between 0 and 1; an item for
    which the blind-spot test holds is written with label 1 and weight 1. *)
Theorem run_writes_posterior list_of_set fuel responses classes AM_noise tol
    max_iter n pc cm er :
  run list_of_set fuel responses classes AM_noise tol max_iter
  = Returned n pc cm er ->
  exists patients observers cls counts gold_data f,
    responses_to_counts list_of_set responses classes
    = Ok (patients, observers, cls, counts, gold_data)
    /\ write_to_file (nPatients counts) (nClasses counts) patients pc = Ok f
    /\ map (fun line : line_t => fst (fst line)) f = keys responses
    /\ forall i pat label weight,
         nth_error f i = Some (pat, label, weight) ->
         (label < List.length classes)%nat
         /\ weight = pc i label
         /\ (forall j, (j < List.length classes)%nat -> pc i j <= weight)
         /\ 0 <= weight /\ weight <= 1
         /\ (blind_spot counts gold_data AM_noise i = Ok true ->
             label = 1%nat /\ weight == 1).
Proof.
  unfold run. intros Hrun.
  destruct (responses_to_counts list_of_set responses classes)
    as [[[[[patients observers] cls] counts] gold_data]|e] eqn:Hagg;
    [|discriminate].
  exists patients, observers, cls, counts, gold_data.
  assert (Hshape : patients = keys responses
                   /\ nPatients counts = List.length patients
                   /\ nClasses counts = List.length classes).
  { unfold responses_to_counts in Hagg. apply bind_ok in Hagg.
    destruct Hagg as ([c g] & _ & Hret). inversion Hret; subst. auto. }
  destruct Hshape as (Hpat & HnP & HnC).
  destruct (@em_returned_posterior fuel counts gold_data AM_noise tol
              max_iter n pc cm er Hrun) as [Hpost _].
  assert (Hlast : e_step counts gold_data cm er AM_noise = Ok pc
                  /\ exists v, calc_likelihood counts cm er = Returns v).
  { unfold em in Hrun.
    destruct (initialize counts gold_data AM_noise) as [[pc0 rb]|e];
      [|discriminate].
    apply (em_loop_returned_last _ _ _ _ _ _ _ _ _ Hrun). }
  destruct Hlast as (He & v & Hl).
  destruct (Nat.eq_dec (nPatients counts) 0) as [Hzero|Hpos].
  - exists []. rewrite Hzero.
    split; [|split; [|split]]; try reflexivity.
    + rewrite <- Hpat. rewrite Hzero in HnP.
      destruct patients; [reflexivity | discriminate].
    + intros i pat label weight H. destruct i; discriminate.
  - assert (HC : (0 < nClasses counts)%nat)
      by (apply (returns_classes _ _ _ Hl); lia).
    assert (Hm : exists m, nClasses counts = S m)
      by (destruct (nClasses counts) as [|m]; [lia | eauto]).
    destruct Hm as (m & Hm).
    exists (map (fun i => (nth i patients [], argmax_upto m (pc i),
                           pc i (argmax_upto m (pc i))))
              (seq 0 (nPatients counts))).
    split; [reflexivity|].
    split; [rewrite Hm; apply write_to_file_closed; lia|]. split.
    + rewrite <- Hpat, map_map. cbn [fst]. rewrite HnP. apply nth_seq_id.
    + intros i pat label weight Hline.
      destruct (written_line _ _ _ _ _ Hline)
        as (Hi & Hlt' & Hw & Hmax' & Hfirst).
      assert (Hlt : (label < nClasses counts)%nat)
        by (rewrite Hm; exact Hlt').
      assert (Hmax : forall j, (j < nClasses counts)%nat ->
                pc i j <= pc i label)
        by (intros j Hj; apply Hmax'; rewrite <- Hm; exact Hj).
      subst weight.
      destruct (@posterior_rows counts gold_data AM_noise pc Hpost i Hi)
        as [Hnn Hsum].
      rewrite <- HnC.
      split; [exact Hlt|]. split; [reflexivity|]. split; [exact Hmax|].
      split; [apply Hnn; exact Hlt|].
      split; [apply (row_entry_le_1 _ Hnn Hsum Hlt)|].
      intros Hb.
      assert (Hrow : forall j, (j < nClasses counts)%nat ->
                pc i j == if (j =? 0)%nat then 0
                          else if (j =? 1)%nat then 1 else 0).
      { intros j Hj.
        destruct (@e_step_rows _ _ _ _ _ _ _ _ He Hi Hj)
          as (c & Hc & Htwo & Hv).
        rewrite Hb in Hc. inversion Hc; subst c. rewrite Hv.
        unfold e_scores. apply normalize_override. apply Htwo. reflexivity. }
      assert (Htwo : (1 < nClasses counts)%nat).
      { destruct (@e_step_rows _ _ _ _ _ _ _ _ He Hi HC)
          as (c & Hc & Htwo & _).
        rewrite Hb in Hc. inversion Hc; subst c. apply Htwo. reflexivity. }
      assert (Hlabel : label = 1%nat).
      { destruct label as [|[|label]]; [|reflexivity|]; exfalso.
        - pose proof (Hmax 1%nat Htwo) as H.
          rewrite (Hrow 1%nat Htwo), (Hrow 0%nat HC) in H. simpl in H.
          apply (Qle_not_lt _ _ H). reflexivity.
        - assert (H : pc i 1%nat < pc i (S (S label)))
            by (apply Hfirst; lia).
          rewrite (Hrow 1%nat Htwo), (Hrow (S (S label)) Hlt) in H.
          simpl in H. apply (Qlt_not_le _ _ H). discriminate. }
      subst label. split; [reflexivity|]. rewrite (Hrow 1%nat Htwo).
      reflexivity.
Qed.

(** The run on the four labels 0 of one patient, with [max_iter = 0],
    returns after two passes; one line is written. *)
Lemma run_writes_posterior_witness :
  exists pc cm er patients observers cls counts gold_data f,
    run (fun l => l) 2 responses_4_0 [0%Z; 1%Z] 1 default_tol 0
    = Returned 2 pc cm er
    /\ responses_to_counts (fun l => l) responses_4_0 [0%Z; 1%Z]
       = Ok (patients, observers, cls, counts, gold_data)
    /\ write_to_file (nPatients counts) (nClasses counts) patients pc = Ok f
    /\ map (fun line : line_t => fst (fst line)) f = [[1%Z]].
Proof.
  assert (Hrun : exists pc cm er,
            run (fun l => l) 2 responses_4_0 [0%Z; 1%Z] 1 default_tol 0
            = Returned 2 pc cm er)
    by (eexists _, _, _; vm_compute; reflexivity).
  destruct Hrun as (pc & cm & er & Hrun).
  destruct (@run_writes_posterior (fun l => l) 2 responses_4_0 [0%Z; 1%Z] 1
              default_tol 0 2 pc cm er Hrun)
    as (patients & observers & cls & counts & gold_data & f & Hagg & Hf
        & Hkeys & _).
  exists pc, cm, er, patients, observers, cls, counts, gold_data, f.
  split; [exact Hrun|]. split; [exact Hagg|]. split; [exact Hf|].
  exact Hkeys.
Defined.

(** ** Loops with an invariant *)

Lemma for_each_inv (A S : Type) (Inv : S -> Prop)
    (body : A -> S -> result S) xs (s s' : S) :
  Inv s ->
  (forall x s1 s2, In x xs -> Inv s1 -> body x s1 = Ok s2 -> Inv s2) ->
  for_each body xs s = Ok s' -> Inv s'.
Proof.
  revert s. induction xs as [|x xs IH]; intros s Hs Hstep; simpl.
  - intros H. inversion H; subst. exact Hs.
  - intros H. apply bind_ok in H. destruct H as (s1 & Hb & Hrest).
    apply (IH s1).
    + apply (Hstep x s s1); [left; reflexivity | exact Hs | exact Hb].
    + intros y t1 t2 Hy. apply Hstep. right. exact Hy.
    + exact Hrest.
Qed.

Lemma for_each_raise_inv (A S : Type) (Inv : S -> Prop)
    (body : A -> S -> result S) xs (s : S) e :
  Inv s ->
  (forall x s1 s2, In x xs -> Inv s1 -> body x s1 = Ok s2 -> Inv s2) ->
  for_each body xs s = Raise e ->
  exists x s1, In x xs /\ Inv s1 /\ body x s1 = Raise e.
Proof.
  revert s. induction xs as [|x xs IH]; intros s Hs Hstep; simpl;
    [discriminate|].
  destruct (body x s) as [s1|e1] eqn:Hb; simpl.
  - intros H. destruct (IH s1) as (y & t & Hy & Ht & Hr).
    + apply (Hstep x s s1); [left; reflexivity | exact Hs | exact Hb].
    + intros y t1 t2 Hy. apply Hstep. right. exact Hy.
    + exact H.
    + exists y, t. split; [right; exact Hy | split; assumption].
  - intros H. inversion H; subst e1. exists x, s.
    split; [left; reflexivity | split; assumption].
Qed.

Lemma bind_raise (A B : Type) (c : result A) (k : A -> result B) e :
  (x <- c ;; k x) = Raise e ->
  c = Raise e \/ exists a, c = Ok a /\ k a = Raise e.
Proof.
  destruct c as [a|e']; simpl; intros H; [right; eauto|].
  left. inversion H. reflexivity.
Qed.

(** ** Dictionary updates *)

Lemma NoDup_snoc (A : Type) (l : list A) x :
  NoDup l -> ~ In x l -> NoDup (l ++ [x]).
Proof.
  induction l as [|y l IH]; intros Hnd Hx; simpl.
  - constructor; [tauto | constructor].
  - inversion Hnd as [|? ? Hy Hnd']; subst. constructor.
    + rewrite in_app_iff. simpl. intros [H|[H|[]]]; [tauto|].
      subst. apply Hx. left. reflexivity.
    + apply IH; [exact Hnd'|]. intros H. apply Hx. right. exact H.
Qed.

Section Updates.

Variables (K : Type) (eqb : K -> K -> bool).
Hypothesis eqb_eq : forall x y, eqb x y = true <-> x = y.

Lemma contains_In (V : Type) (d : dict K V) key :
  contains eqb d key = true <-> In key (keys d).
Proof.
  unfold contains. rewrite existsb_exists. split.
  - intros (k & Hk & E). apply eqb_eq in E. subst. exact Hk.
  - intros H. exists key. split; [exact H | apply eqb_eq; reflexivity].
Qed.

Lemma setitem_new (V : Type) (d : dict K V) key v :
  ~ In key (keys d) -> setitem eqb d key v = d ++ [(key, v)].
Proof.
  induction d as [|[k v0] d IH]; simpl; intros H; [reflexivity|].
  destruct (eqb k key) eqn:E.
  - apply eqb_eq in E. subst. tauto.
  - rewrite IH by tauto. reflexivity.
Qed.

Lemma keys_setitem_In (V : Type) (d : dict K V) key v :
  In key (keys d) -> keys (setitem eqb d key v) = keys d.
Proof.
  induction d as [|[k v0] d IH]; simpl; intros H; [contradiction|].
  destruct (eqb k key) eqn:E; simpl; [reflexivity|].
  f_equal. apply IH. destruct H as [H|H]; [|exact H].
  subst k. rewrite (proj2 (eqb_eq key key) eq_refl) in E. discriminate.
Qed.

Lemma In_setitem (V : Type) (d : dict K V) key v k' v' :
  NoDup (keys d) -> In (k', v') (setitem eqb d key v) ->
  (k' = key /\ v' = v) \/ (k' <> key /\ In (k', v') d).
Proof.
  induction d as [|[k v0] d IH]; simpl; intros Hnd H.
  - destruct H as [H|[]]. inversion H. auto.
  - inversion Hnd as [|? ? Hnot Hnd']; subst.
    destruct (eqb k key) eqn:E.
    + apply eqb_eq in E. subst k. destruct H as [H|H].
      * inversion H. auto.
      * right. split; [|auto]. intros ->. apply Hnot.
        apply (in_map fst d (key, v') H).
    + destruct H as [H|H].
      * inversion H; subst. right. split; [|auto]. intros ->.
        rewrite (proj2 (eqb_eq key key) eq_refl) in E. discriminate.
      * destruct (IH Hnd' H) as [Hnew|[Hne Hold]]; auto.
Qed.

Lemma setitem_sum (V : Type) (w : V -> nat) (d : dict K V) key v v0 :
  getitem eqb d key = Ok v0 ->
  (list_sum (map (fun kv => w (snd kv)) (setitem eqb d key v)) + w v0
   = list_sum (map (fun kv => w (snd kv)) d) + w v)%nat.
Proof.
  induction d as [|[k v1] d IH]; simpl; [discriminate|].
  destruct (eqb k key); simpl.
  - intros H. inversion H; subst. lia.
  - intros H. specialize (IH H). lia.
Qed.

End Updates.

(** ** [read_input_data] *)

Lemma split_nonempty sep s : exists w ws, split sep s = w :: ws.
Proof.
  destruct s as [|c s]; simpl; [eauto|].
  destruct (Ascii.eqb c sep); [eauto|].
  destruct (split sep s); eauto.
Qed.

Lemma list_getitem_raise (A : Type) (l : list A) i e :
  list_getitem l i = Raise e -> e = IndexError.
Proof.
  unfold list_getitem. destruct (nth_error l i); [discriminate|].
  intros H. inversion H. reflexivity.
Qed.

Lemma np_index_raise n i e : np_index n i = Raise e -> e = IndexError.
Proof.
  unfold np_index.
  destruct ((0 <=? i)%Z && (i <? Z.of_nat n)%Z); [discriminate|].
  destruct ((- Z.of_nat n <=? i)%Z && (i <? 0)%Z); [discriminate|].
  intros H. inversion H. reflexivity.
Qed.

Lemma labelled_labelling x_i data :
  NoDup (keys data) -> In x_i (keys data) -> labelled data ->
  labelling x_i data.
Proof.
  intros Hnd Hin Hl. split; [exact Hnd|]. split; [exact Hin|].
  intros pat by_observer H. destruct (Hl pat by_observer H) as (rs & -> & Hne).
  exists rs. auto.
Qed.

Section ReaderProofs.

Variable int : string -> option Z.
Variable strip : string -> string.

Lemma py_int_raise s e : py_int int s = Raise e -> e = ValueError.
Proof.
  unfold py_int. destruct (int s); [discriminate|].
  intros H. inversion H. reflexivity.
Qed.

Lemma parse_ints_raise xs e :
  parse_ints int strip xs = Raise e -> e = ValueError.
Proof.
  induction xs as [|x xs IH]; simpl; [discriminate|].
  intros H. apply bind_raise in H. destruct H as [H|(z & _ & H)].
  - apply (py_int_raise _ H).
  - apply bind_raise in H. destruct H as [H|(zs & _ & H)];
      [apply IH; exact H | discriminate].
Qed.

(** While the labels of a line are read, the lookups [data[x_i][1]]
    succeed. *)
Lemma labelling_lookup x_i (data : responses_t) :
  labelling x_i data ->
  exists rs,
    getitem tuple_eqb data x_i = Ok [(1%Z, rs)]
    /\ In (x_i, [(1%Z, rs)]) data.
Proof.
  intros (Hnd & Hin & Hshape).
  destruct (@getitem_key _ tuple_eqb tuple_eqb_eq _ data x_i Hin)
    as (by_observer & Hd).
  pose proof (@getitem_Ok_In _ tuple_eqb tuple_eqb_eq _ _ _ _ Hd) as Hmem.
  destruct (Hshape x_i by_observer Hmem) as (rs & -> & _).
  exists rs. split; assumption.
Qed.

Lemma read_label_ok classes x_i label_str (data : responses_t) rc st' :
  labelling x_i data ->
  read_label int classes x_i label_str (data, rc) = Ok st' ->
  NoDup (keys (fst st')) /\ In x_i (keys (fst st')) /\ labelled (fst st').
Proof.
  intros Hinv Hrun.
  destruct (labelling_lookup Hinv) as (rs & Hd & Hmem).
  destruct Hinv as (Hnd & Hin & Hshape).
  unfold read_label in Hrun.
  apply bind_ok in Hrun. destruct Hrun as (s & _ & Hrun).
  apply bind_ok in Hrun. destruct Hrun as (class_label & _ & Hrun).
  apply bind_ok in Hrun. destruct Hrun as (truth_label & _ & Hrun).
  apply bind_ok in Hrun. destruct Hrun as (rc' & _ & Hrun).
  rewrite Hd in Hrun. simpl in Hrun. inversion Hrun; subst st'; clear Hrun.
  simpl fst.
  rewrite (@keys_setitem_In _ tuple_eqb tuple_eqb_eq _ data x_i _ Hin).
  split; [exact Hnd|]. split; [exact Hin|].
  intros pat by_observer H.
  apply (@In_setitem _ tuple_eqb tuple_eqb_eq _ data x_i _ pat by_observer Hnd)
    in H.
  destruct H as [[-> ->]|[Hne Hold]].
  - eexists. split; [reflexivity|]. intros E.
    apply app_eq_nil in E. destruct E as [_ E]. discriminate.
  - destruct (Hshape pat by_observer Hold) as (rs' & -> & Hrs).
    exists rs'. split; [reflexivity | apply Hrs; exact Hne].
Qed.

Lemma read_label_raise classes x_i label_str (data : responses_t) rc e :
  labelling x_i data ->
  read_label int classes x_i label_str (data, rc) = Raise e ->
  e = IndexError \/ e = ValueError.
Proof.
  intros Hinv Hrun.
  destruct (labelling_lookup Hinv) as (rs & Hd & _).
  unfold read_label in Hrun.
  apply bind_raise in Hrun. destruct Hrun as [H|(s & _ & Hrun)];
    [left; apply (list_getitem_raise _ _ H)|].
  apply bind_raise in Hrun. destruct Hrun as [H|(class_label & _ & Hrun)];
    [right; apply (py_int_raise _ H)|].
  apply bind_raise in Hrun. destruct Hrun as [H|(truth_label & _ & Hrun)];
    [left; apply (list_getitem_raise _ _ H)|].
  apply bind_raise in Hrun. destruct Hrun as [H|(rc' & _ & Hrun)].
  - left. destruct (String.eqb truth_label "t"); [|discriminate].
    apply bind_raise in H. destruct H as [H|(i & _ & H)];
      [apply (np_index_raise _ _ H) | discriminate].
  - rewrite Hd in Hrun. simpl in Hrun. discriminate.
Qed.

(** The dictionary after the key of a line has been looked up and, when
    new, added. *)
Lemma labelling_start x_i (data : responses_t) :
  NoDup (keys data) -> labelled data ->
  labelling x_i
    (if contains tuple_eqb data x_i then data
     else setitem tuple_eqb data x_i [(1%Z, [])]).
Proof.
  intros Hnd Hl. destruct (contains tuple_eqb data x_i) eqn:E.
  - apply (@contains_In _ tuple_eqb tuple_eqb_eq) in E.
    apply labelled_labelling; assumption.
  - assert (Hnot : ~ In x_i (keys data)).
    { intros H. apply (@contains_In _ tuple_eqb tuple_eqb_eq) in H.
      congruence. }
    rewrite (@setitem_new _ tuple_eqb tuple_eqb_eq _ data x_i _ Hnot).
    unfold labelling, keys. rewrite map_app. simpl. split; [|split].
    + apply NoDup_snoc; assumption.
    + apply in_or_app. right. left. reflexivity.
    + intros pat by_observer H. apply in_app_or in H.
      destruct H as [H|[H|[]]].
      * destruct (Hl pat by_observer H) as (rs & -> & Hrs). exists rs. auto.
      * inversion H; subst. exists []. split; [reflexivity|].
        intros Hne. congruence.
Qed.

Lemma read_line_ok classes line (data : responses_t) rc st' :
  NoDup (keys data) -> labelled data ->
  read_line int strip classes line (data, rc) = Ok st' ->
  NoDup (keys (fst st')) /\ labelled (fst st').
Proof.
  intros Hnd Hl Hrun. unfold read_line in Hrun.
  apply bind_ok in Hrun. destruct Hrun as (v0 & _ & Hrun).
  apply bind_ok in Hrun. destruct Hrun as (x_i & _ & Hrun).
  apply bind_ok in Hrun. destruct Hrun as (v1 & _ & Hrun).
  pose proof (@labelling_start x_i data Hnd Hl) as Hstart.
  destruct (split_nonempty "," (strip_ends v1)) as (w & ws & Hsplit).
  rewrite Hsplit in Hrun. cbn [for_each] in Hrun.
  apply bind_ok in Hrun. destruct Hrun as ([data1 rc1] & Hfirst & Hrest).
  pose proof (@read_label_ok classes x_i w _ rc (data1, rc1) Hstart Hfirst)
    as Hinv1.
  assert (Hfinal : NoDup (keys (fst st')) /\ In x_i (keys (fst st'))
                   /\ labelled (fst st')).
  { apply (@for_each_inv _ _
             (fun st : responses_t * vec =>
                NoDup (keys (fst st)) /\ In x_i (keys (fst st))
                /\ labelled (fst st))
             (read_label int classes x_i) ws (data1, rc1) st' Hinv1);
      [|exact Hrest].
    intros l [d1 r1] s2 _ (H1 & H2 & H3) Hbody.
    apply (@read_label_ok classes x_i l d1 r1 s2
             (@labelled_labelling x_i d1 H1 H2 H3) Hbody). }
  destruct Hfinal as (H1 & _ & H3). split; assumption.
Qed.

Lemma read_line_raise classes line (data : responses_t) rc e :
  NoDup (keys data) -> labelled data ->
  read_line int strip classes line (data, rc) = Raise e ->
  e = IndexError \/ e = ValueError.
Proof.
  intros Hnd Hl Hrun. unfold read_line in Hrun.
  apply bind_raise in Hrun. destruct Hrun as [H|(v0 & _ & Hrun)];
    [left; apply (list_getitem_raise _ _ H)|].
  apply bind_raise in Hrun. destruct Hrun as [H|(x_i & _ & Hrun)];
    [right; apply (parse_ints_raise _ H)|].
  apply bind_raise in Hrun. destruct Hrun as [H|(v1 & _ & Hrun)];
    [left; apply (list_getitem_raise _ _ H)|].
  pose proof (@labelling_start x_i data Hnd Hl) as Hstart.
  set (d0 := if contains tuple_eqb data x_i then data
             else setitem tuple_eqb data x_i [(1%Z, [])]) in *.
  destruct (@for_each_raise_inv _ _
              (fun st : responses_t * vec => labelling x_i (fst st))
              (read_label int classes x_i) (split "," (strip_ends v1))
              (d0, rc) e Hstart)
    as (l & [d1 r1] & _ & Hinv & Hbody); [|exact Hrun|].
  - intros l [d1 r1] s2 _ Hinv Hbody.
    destruct (@read_label_ok classes x_i l d1 r1 s2 Hinv Hbody)
      as (H1 & H2 & H3).
    apply labelled_labelling; assumption.
  - apply (@read_label_raise classes x_i l d1 r1 e Hinv Hbody).
Qed.

Lemma read_input_data_inv file data review_counts classes :
  read_input_data int strip file = Ok (data, review_counts, classes) ->
  classes = [0%Z; 1%Z] /\ NoDup (keys data) /\ labelled data.
Proof.
  unfold read_input_data. intros Hrun.
  apply bind_ok in Hrun. destruct Hrun as ([d rc] & Hloop & Hret).
  inversion Hret; subst d rc classes; clear Hret.
  split; [reflexivity|].
  apply (@for_each_inv _ _
           (fun st : responses_t * vec =>
              NoDup (keys (fst st)) /\ labelled (fst st))
           (read_line int strip [0%Z; 1%Z]) (map rstrip_newline file)
           ([], fun _ => 0) (data, review_counts)); [| |exact Hloop].
  - split; [constructor | intros pat by_observer []].
  - intros line [d1 r1] s2 _ [H1 H2] Hbody.
    apply (@read_line_ok [0%Z; 1%Z] line d1 r1 s2 H1 H2 Hbody).
Qed.

(** X16.  What [read_input_data] returns is a dictionary of dictionaries: the
    patient keys are pairwise different (the lines of one key are merged),
    every patient has the single observer 1, with at least one response; the
    classes are [[0, 1]]. *)
Theorem read_input_data_shape file data review_counts classes :
  read_input_data int strip file = Ok (data, review_counts, classes) ->
  classes = [0%Z; 1%Z]
  /\ well_formed data
  /\ forall pat by_observer,
       In (pat, by_observer) data ->
       exists rs, by_observer = [(1%Z, rs)] /\ rs <> [].
Proof.
  intros Hrun.
  destruct (read_input_data_inv _ Hrun) as (Hclasses & Hnd & Hl).
  split; [exact Hclasses|]. split; [|exact Hl].
  split; [exact Hnd|].
  intros pat by_observer H. destruct (Hl pat by_observer H) as (rs & -> & _).
  simpl. constructor; [tauto | constructor].
Qed.

(** X17.  [read_input_data] never raises KeyError: the lookups [data[x_i][1]]
    always find the key of the line and the observer 1. What it raises is the
    ValueError of [int] or an IndexError (a line without ['='], a label
    without [';'], a reviewed class label out of the range of
    [review_counts]). *)
Theorem read_input_data_exceptions file e :
  read_input_data int strip file = Raise e ->
  e = IndexError \/ e = ValueError.
Proof.
  unfold read_input_data. intros Hrun.
  apply bind_raise in Hrun. destruct Hrun as [H|([d rc] & _ & H)];
    [|discriminate].
  destruct (@for_each_raise_inv _ _
              (fun st : responses_t * vec =>
                 NoDup (keys (fst st)) /\ labelled (fst st))
              (read_line int strip [0%Z; 1%Z]) (map rstrip_newline file)
              ([], fun _ => 0) e)
    as (line & [d1 r1] & _ & [H1 H2] & Hbody); [| |exact H|].
  - split; [constructor | intros pat by_observer []].
  - intros line [d1 r1] s2 _ [H1 H2] Hbody.
    apply (@read_line_ok [0%Z; 1%Z] line d1 r1 s2 H1 H2 Hbody).
  - apply (@read_line_raise [0%Z; 1%Z] line d1 r1 e H1 H2 Hbody).
Qed.

End ReaderProofs.

(** The file of two lines gives two patients. *)
Lemma read_input_data_shape_witness :
  exists data review_counts classes,
    read_input_data int_0_1 no_strip file_two_lines
    = Ok (data, review_counts, classes)
    /\ keys data = [[1%Z]; [0%Z]]
    /\ well_formed data.
Proof.
  eexists _, _, _. split; [reflexivity|]. split; [reflexivity|].
  apply (proj1 (proj2 (@read_input_data_shape int_0_1 no_strip
                         file_two_lines _ _ _ eq_refl))).
Defined.

(** A line without ['=']: IndexError. *)
Lemma read_input_data_exceptions_witness :
  read_input_data int_0_1 no_strip ["(1)"%string] = Raise IndexError
  /\ (IndexError = IndexError \/ IndexError = ValueError).
Proof.
  split; [reflexivity|].
  apply (@read_input_data_exceptions int_0_1 no_strip ["(1)"%string]
           IndexError eq_refl).
Defined.

(** ** The review counts *)

Lemma of_nat_plus n m : of_nat (n + m) == of_nat n + of_nat m.
Proof.
  unfold of_nat. rewrite Nat2Z.inj_add, inject_Z_plus. reflexivity.
Qed.

(** Appending a response to the list of observer 1 of patient [x_i] adds
    it to the total. *)
Lemma reviewed_total_append n j (data : responses_t) x_i
    (by_observer : dict observer (list response)) rs r :
  getitem tuple_eqb data x_i = Ok by_observer ->
  getitem Z.eqb by_observer 1%Z = Ok rs ->
  reviewed_total n j
    (setitem tuple_eqb data x_i (setitem Z.eqb by_observer 1%Z (rs ++ [r])))
  = (reviewed_total n j data + if reviewed n j r then 1 else 0)%nat.
Proof.
  intros Hd Hrs. unfold reviewed_total.
  set (w_in := fun l : list response =>
                 List.length (filter (reviewed n j) l)).
  set (w_out := fun by_obs : dict observer (list response) =>
                  list_sum
                    (map (fun ors : observer * list response =>
                            w_in (snd ors)) by_obs)).
  set (total := fun d : responses_t =>
                  list_sum
                    (map (fun pb : patient * dict observer (list response) =>
                            w_out (snd pb)) d)).
  change (total (setitem tuple_eqb data x_i
                   (setitem Z.eqb by_observer 1%Z (rs ++ [r])))
          = (total data + if reviewed n j r then 1 else 0)%nat).
  assert (Hout : (total (setitem tuple_eqb data x_i
                           (setitem Z.eqb by_observer 1%Z (rs ++ [r])))
                  + w_out by_observer
                  = total data
                    + w_out (setitem Z.eqb by_observer 1%Z (rs ++ [r])))%nat)
    by (apply (@setitem_sum patient tuple_eqb _ w_out data x_i _ _ Hd)).
  assert (Hin : (w_out (setitem Z.eqb by_observer 1%Z (rs ++ [r]))
                 + w_in rs
                 = w_out by_observer + w_in (rs ++ [r]))%nat)
    by (apply (@setitem_sum observer Z.eqb _ w_in by_observer 1%Z _ _ Hrs)).
  assert (Happ : w_in (rs ++ [r])
                 = (w_in rs + if reviewed n j r then 1 else 0)%nat).
  { unfold w_in. rewrite filter_app, length_app. cbn [filter].
    destruct (reviewed n j r); reflexivity. }
  lia.
Qed.

Section ReaderCounts.

Variable int : string -> option Z.
Variable strip : string -> string.

Lemma read_label_counts classes x_i label_str (data : responses_t) rc data'
    rc' :
  read_label int classes x_i label_str (data, rc) = Ok (data', rc') ->
  (forall j, rc j == of_nat (reviewed_total (List.length classes) j data)) ->
  forall j, rc' j == of_nat (reviewed_total (List.length classes) j data').
Proof.
  intros Hrun Hinv j. unfold read_label in Hrun.
  apply bind_ok in Hrun. destruct Hrun as (s & _ & Hrun).
  apply bind_ok in Hrun. destruct Hrun as (class_label & _ & Hrun).
  apply bind_ok in Hrun. destruct Hrun as (truth_label & _ & Hrun).
  apply bind_ok in Hrun. destruct Hrun as (rc1 & Hrc & Hrun).
  apply bind_ok in Hrun. destruct Hrun as (by_observer & Hd & Hrun).
  apply bind_ok in Hrun. destruct Hrun as (rs & Hrs & Hret).
  inversion Hret; subst data' rc'; clear Hret.
  rewrite (reviewed_total_append _ j _ _ (class_label, truth_label) Hd Hrs).
  rewrite of_nat_plus, <- (Hinv j).
  unfold reviewed. cbn [fst snd].
  destruct (String.eqb truth_label "t").
  - apply bind_ok in Hrc. destruct Hrc as (i & Hi & Hret).
    inversion Hret; subst rc1; clear Hret. rewrite Hi. unfold incr1.
    rewrite (Nat.eqb_sym i j).
    destruct (j =? i)%nat; simpl; [reflexivity|].
    rewrite Qplus_0_r. reflexivity.
  - inversion Hrc; subst rc1. simpl. rewrite Qplus_0_r. reflexivity.
Qed.

Lemma read_line_counts classes line (data : responses_t) rc data' rc' :
  read_line int strip classes line (data, rc) = Ok (data', rc') ->
  (forall j, rc j == of_nat (reviewed_total (List.length classes) j data)) ->
  forall j, rc' j == of_nat (reviewed_total (List.length classes) j data').
Proof.
  intros Hrun Hinv. unfold read_line in Hrun.
  apply bind_ok in Hrun. destruct Hrun as (v0 & _ & Hrun).
  apply bind_ok in Hrun. destruct Hrun as (x_i & _ & Hrun).
  apply bind_ok in Hrun. destruct Hrun as (v1 & _ & Hrun).
  apply (@for_each_inv _ _
           (fun st : responses_t * vec =>
              forall j, snd st j
                        == of_nat (reviewed_total (List.length classes) j
                                     (fst st)))
           (read_label int classes x_i) (split "," (strip_ends v1))
           (if contains tuple_eqb data x_i then data
            else setitem tuple_eqb data x_i [(1%Z, [])], rc)
           (data', rc')); [| |exact Hrun].
  - cbn [fst snd]. intros j. rewrite (Hinv j).
    destruct (contains tuple_eqb data x_i) eqn:E; [reflexivity|].
    assert (Hnot : ~ In x_i (keys data)).
    { intros H. apply (@contains_In _ tuple_eqb tuple_eqb_eq) in H.
      congruence. }
    rewrite (@setitem_new _ tuple_eqb tuple_eqb_eq _ data x_i _ Hnot).
    unfold reviewed_total. rewrite map_app, list_sum_app. simpl.
    rewrite !Nat.add_0_r. reflexivity.
  - intros l [d1 r1] [d2 r2] _ H1 Hbody. cbn [fst snd] in *.
    apply (@read_label_counts classes x_i l d1 r1 d2 r2 Hbody H1).
Qed.

(** X18.  [review_counts] counts the reviewed responses: its entry [j] is the
    number of responses of the dictionary returned whose truth label is ['t']
    and whose class label designates position [j] of the array of two entries
    (a negative label counts from the end). *)
Theorem read_input_data_review_counts file data review_counts classes :
  read_input_data int strip file = Ok (data, review_counts, classes) ->
  forall j, review_counts j == of_nat (reviewed_total 2 j data).
Proof.
  unfold read_input_data. intros Hrun.
  apply bind_ok in Hrun. destruct Hrun as ([d rc] & Hloop & Hret).
  inversion Hret; subst d rc classes; clear Hret.
  apply (@for_each_inv _ _
           (fun st : responses_t * vec =>
              forall j, snd st j == of_nat (reviewed_total 2 j (fst st)))
           (read_line int strip [0%Z; 1%Z]) (map rstrip_newline file)
           ([], fun _ => 0) (data, review_counts)); [| |exact Hloop].
  - intros j. reflexivity.
  - intros line [d1 r1] [d2 r2] _ H1 Hbody. cbn [fst snd] in *.
    apply (@read_line_counts [0%Z; 1%Z] line d1 r1 d2 r2 Hbody H1).
Qed.

End ReaderCounts.

(** The file of two lines has one reviewed response, of class 1. *)
Lemma read_input_data_review_counts_witness :
  exists data review_counts classes,
    read_input_data int_0_1 no_strip file_two_lines
    = Ok (data, review_counts, classes)
    /\ review_counts 0%nat == 0 /\ review_counts 1%nat == 1.
Proof.
  eexists _, _, _. split; [reflexivity|].
  pose proof (@read_input_data_review_counts int_0_1 no_strip
                file_two_lines _ _ _ eq_refl) as H.
  split; [rewrite (H 0%nat) | rewrite (H 1%nat)]; reflexivity.
Defined.

(** ** From the file to the posterior *)

Lemma index_nth (K : Type) (eqb : K -> K -> bool) l i d :
  (forall x y, eqb x y = true <-> x = y) ->
  NoDup l -> (i < List.length l)%nat -> index eqb l (nth i l d) = Ok i.
Proof.
  intros eqb_eq. revert i. induction l as [|y l IH]; intros i Hnd Hi;
    [simpl in Hi; lia|].
  inversion Hnd as [|? ? Hnot Hnd']; subst. destruct i as [|i]; simpl.
  - rewrite (proj2 (eqb_eq y y) eq_refl). reflexivity.
  - destruct (eqb y (nth i l d)) eqn:E.
    + apply eqb_eq in E. exfalso. apply Hnot. rewrite E.
      apply nth_In. simpl in Hi. lia.
    + rewrite IH; [reflexivity | exact Hnd' | simpl in Hi; lia].
Qed.

Lemma hits_pos classes j r rs :
  In r rs -> index Z.eqb classes (fst r) = Ok j ->
  (0 < hits classes j rs)%nat.
Proof.
  induction rs as [|r' rs IH]; intros Hin Hj; [contradiction|].
  rewrite hits_cons. destruct Hin as [->|Hin].
  - rewrite Hj, Nat.eqb_refl. lia.
  - specialize (IH Hin Hj). lia.
Qed.

Lemma collect_keys_NoDup ks (seen : list observer) :
  NoDup seen ->
  NoDup (fold_left
           (fun seen k =>
              if existsb (Z.eqb k) seen then seen else seen ++ [k])
           ks seen).
Proof.
  revert seen. induction ks as [|k ks IH]; intros seen H; simpl; [exact H|].
  apply IH. destruct (existsb (Z.eqb k) seen) eqn:E; [exact H|].
  apply NoDup_snoc; [exact H|]. intros Hin.
  apply existsb_eqb_In in Hin. congruence.
Qed.

Lemma collect_fold_NoDup (rs : responses_t) (seen : list observer) :
  NoDup seen ->
  NoDup (fold_left
           (fun seen (ik : patient * dict observer (list response)) =>
              fold_left
                (fun seen k =>
                   if existsb (Z.eqb k) seen then seen else seen ++ [k])
                (keys (snd ik)) seen)
           rs seen).
Proof.
  revert seen. induction rs as [|ik rs IH]; intros seen H; simpl; [exact H|].
  apply IH. apply collect_keys_NoDup. exact H.
Qed.

Lemma single_length (l : list Z) a :
  NoDup l -> (forall x, In x l -> x = a) -> (List.length l <= 1)%nat.
Proof.
  destruct l as [|x [|y l]]; simpl; intros Hnd H; try lia.
  exfalso. inversion Hnd as [|? ? Hnot _]; subst. apply Hnot.
  left. rewrite (H x), (H y); auto.
Qed.

(** The counts aggregated from a dictionary in which every patient has
    the single observer 1 and at least one response: two classes, at most
    one observer, an observation for every item. *)
Lemma labelled_counts list_of_set (data : responses_t) patients observers cls
    counts gold_data :
  (forall l x, In x (list_of_set l) <-> In x l) ->
  (forall l, NoDup l -> NoDup (list_of_set l)) ->
  NoDup (keys data) -> labelled data ->
  (forall pat by_observer obs rs r,
     In (pat, by_observer) data -> In (obs, rs) by_observer -> In r rs ->
     In (fst r) [0%Z; 1%Z]) ->
  responses_to_counts list_of_set data [0%Z; 1%Z]
  = Ok (patients, observers, cls, counts, gold_data) ->
  nClasses counts = 2%nat
  /\ (nObservers counts <= 1)%nat
  /\ forall i, (i < nPatients counts)%nat -> observed counts i.
Proof.
  intros Hset Hset' Hnd Hl Hlabels Hrun.
  assert (Hwf : well_formed data).
  { split; [exact Hnd|]. intros pat by_observer H.
    destruct (Hl pat by_observer H) as (rs & -> & _).
    simpl. constructor; [tauto | constructor]. }
  unfold responses_to_counts in Hrun.
  apply bind_ok in Hrun. destruct Hrun as ([c g] & Hloop & Hret).
  inversion Hret; subst patients observers cls counts gold_data; clear Hret.
  cbn [nClasses nObservers nPatients count].
  apply count_patient_loop in Hloop; [|exact Hwf | exact Hnd].
  destruct Hloop as [Hc _].
  split; [reflexivity|]. split.
  - apply (@single_length _ 1%Z).
    + apply Hset'. unfold collect_observers.
      apply collect_fold_NoDup. constructor.
    + intros x Hx. apply (proj1 (Hset _ _)) in Hx.
      unfold collect_observers in Hx.
      apply collect_fold_In in Hx.
      destruct Hx as [[]|([pat by_observer] & Hik & Hx)].
      destruct (Hl pat by_observer Hik) as (rs & Hby & _).
      simpl in Hx. rewrite Hby in Hx. simpl in Hx.
      destruct Hx as [Hx|[]]. symmetry. exact Hx.
  - intros i Hi.
    set (pat := nth i (keys data) []).
    assert (Hpat : In pat (keys data)) by (apply nth_In; exact Hi).
    assert (Hidx : index tuple_eqb (keys data) pat = Ok i)
      by (apply (@index_nth _ tuple_eqb (keys data) i [] tuple_eqb_eq Hnd
                   Hi)).
    unfold keys in Hpat. apply in_map_iff in Hpat.
    destruct Hpat as ([pat' by_observer] & Hfst & Hmem).
    simpl in Hfst. subst pat'.
    destruct (Hl pat by_observer Hmem) as (rs & Hby & Hne).
    destruct rs as [|r rs]; [congruence|]. subst by_observer.
    assert (Hr : In (fst r) [0%Z; 1%Z]).
    { apply (Hlabels pat [(1%Z, r :: rs)] 1%Z (r :: rs) r Hmem);
        left; reflexivity. }
    destruct (@index_In _ Z.eqb Z.eqb_eq _ _ Hr) as (j & Hj).
    assert (Hobs : In 1%Z (list_of_set (collect_observers data))).
    { apply (proj2 (Hset _ _)).
      apply (@collect_observers_In data pat [(1%Z, r :: rs)] 1%Z Hmem).
      left. reflexivity. }
    destruct (@index_In _ Z.eqb Z.eqb_eq _ _ Hobs) as (k & Hk).
    exists k, j. cbn [count nObservers nClasses].
    split; [apply (@index_lt _ Z.eqb _ _ _ Hk)|].
    split; [apply (@index_lt _ Z.eqb _ _ _ Hj)|].
    rewrite (Hc pat i 1%Z k j Hidx Hk).
    assert (Hin : existsb (tuple_eqb pat) (keys data) = true).
    { apply existsb_tuple_In.
      apply (@index_Ok_In _ tuple_eqb tuple_eqb_eq _ _ _ Hidx). }
    rewrite Hin. unfold observations.
    rewrite (@getitem_In _ tuple_eqb tuple_eqb_eq _ data pat _ Hnd Hmem).
    simpl getitem. apply (@hits_pos _ j r); [left; reflexivity | exact Hj].
Qed.

(** X19.  The pipeline of [main]: when [read_input_data] returns and every
    class label of the file is 0 or 1, [run] on the dictionary read never
    raises, whatever the noise model: every label is a known class, there
    are two classes and, when there is an item, the single observer 1, so
    that neither the aggregation nor a step of the loop raises.  The run
    ends, within [max (max_iter + 1) 2] passes, by returning or by the exit
    of the likelihood evaluator. *)
Theorem read_then_run list_of_set int strip file data review_counts classes
    AM_noise tol max_iter :
  (forall l x, In x (list_of_set l) <-> In x l) ->
  (forall l, NoDup l -> NoDup (list_of_set l)) ->
  read_input_data int strip file = Ok (data, review_counts, classes) ->
  (forall pat by_observer obs rs r,
     In (pat, by_observer) data -> In (obs, rs) by_observer -> In r rs ->
     fst r = 0%Z \/ fst r = 1%Z) ->
  (forall fuel n e,
     run list_of_set fuel data classes AM_noise tol max_iter <> Raised n e)
  /\ (forall fuel,
        (Z.to_nat (Z.max (max_iter + 1) 2) <= fuel)%nat ->
        (exists n pc cm er,
           run list_of_set fuel data classes AM_noise tol max_iter
           = Returned n pc cm er)
        \/ (exists n i log_L term temp,
              run list_of_set fuel data classes AM_noise tol max_iter
              = Exited n i log_L term temp)).
Proof.
  intros Hset Hset' Hread Hlabels.
  destruct (read_input_data_inv _ _ _ Hread) as (-> & Hnd & Hl).
  assert (Hin : forall pat (by_observer : dict observer (list response)) obs
                  rs r,
            In (pat, by_observer) data -> In (obs, rs) by_observer ->
            In r rs -> In (fst r) [0%Z; 1%Z]).
  { intros pat by_observer obs rs r H1 H2 H3.
    destruct (Hlabels pat by_observer obs rs r H1 H2 H3) as [->| ->];
      simpl; auto. }
  destruct (@responses_to_counts_total list_of_set data [0%Z; 1%Z])
    as ([[[[patients observers] cls] counts] gold_data] & Hagg);
    [intros l x H; apply (proj2 (Hset l x)); exact H | exact Hin|].
  destruct (@labelled_counts list_of_set data patients observers cls counts
              gold_data Hset Hset' Hnd Hl Hin Hagg) as (HC & HO & Hobs).
  assert (HC' : (1 < nClasses counts)%nat) by lia.
  assert (HO' : AM_noise = 0%Z -> (0 < nPatients counts)%nat ->
                nObservers counts = 1%nat).
  { intros _ HP. destruct (Hobs 0%nat HP) as (k & _ & Hk & _). lia. }
  assert (Hrun : forall fuel,
            run list_of_set fuel data [0%Z; 1%Z] AM_noise tol max_iter
            = em fuel counts gold_data AM_noise tol max_iter)
    by (intros fuel; unfold run; rewrite Hagg; reflexivity).
  split.
  - intros fuel n e H. rewrite Hrun in H.
    pose proof (@em_not_raised counts gold_data AM_noise tol max_iter fuel
                  HC' HO') as Hok.
    rewrite H in Hok. exact Hok.
  - intros fuel Hfuel. rewrite Hrun.
    pose proof (@em_not_raised counts gold_data AM_noise tol max_iter fuel
                  HC' HO') as Hok.
    pose proof (@em_enough_fuel counts gold_data AM_noise tol max_iter fuel
                  Hfuel) as Hend.
    destruct (em fuel counts gold_data AM_noise tol max_iter)
      as [n pc cm er|n i a b c|n e|].
    + left. eauto.
    + right. eauto 6.
    + contradiction.
    + congruence.
Qed.

(** The file of two lines, read and run with the defaults of [run] under
    the noise model 0. *)
Lemma read_then_run_witness :
  exists data review_counts classes,
    read_input_data int_0_1 no_strip file_two_lines
    = Ok (data, review_counts, classes)
    /\ ((exists n pc cm er,
           run (fun l => l) 101 data classes 0 default_tol default_max_iter
           = Returned n pc cm er)
        \/ (exists n i log_L term temp,
              run (fun l => l) 101 data classes 0 default_tol
                default_max_iter
              = Exited n i log_L term temp)).
Proof.
  assert (Hread : exists data review_counts,
            read_input_data int_0_1 no_strip file_two_lines
            = Ok (data, review_counts, [0%Z; 1%Z])
            /\ data = [([1%Z], [(1%Z, [(0%Z, "f"%string);
                                       (1%Z, "t"%string)])]);
                       ([0%Z], [(1%Z, [(0%Z, "f"%string)])])])
    by (eexists _, _; split; reflexivity).
  destruct Hread as (data & rc & Hread & Hdata).
  destruct (@read_then_run (fun l => l) int_0_1 no_strip file_two_lines data
              rc [0%Z; 1%Z] 0 default_tol default_max_iter)
    as [_ Hends].
  - intros l x. tauto.
  - intros l H. exact H.
  - exact Hread.
  - subst data. intros pat by_observer obs rs r [H|[H|[]]];
      inversion H; subst; intros [H1|[]]; inversion H1; subst;
      simpl; intuition (subst; simpl; auto).
  - exists data, rc, [0%Z; 1%Z]. split; [exact Hread|].
    apply Hends. simpl. lia.
Defined.

(** ** A tolerance that is never met *)

Lemma class_marginals_diff_nonneg counts cm old_cm :
  0 <= class_marginals_diff counts cm old_cm.
Proof.
  unfold class_marginals_diff. apply np_sum_nonneg.
  intros j _. apply Qabs_nonneg.
Qed.

(** X20.  With a tolerance that is zero or negative the convergence test on
    the parameters never holds (the summed absolute differences are not
    negative), and the loop is only left through the iteration bound: a run
    that returns has entered the loop body exactly [max (max_iter + 1) 2]
    times. *)
Theorem em_nonpositive_tol counts gold_data AM_noise tol max_iter fuel n pc
    cm er :
  tol <= 0 ->
  em fuel counts gold_data AM_noise tol max_iter = Returned n pc cm er ->
  n = Z.to_nat (Z.max (max_iter + 1) 2).
Proof.
  intros Htol Hrun. unfold em in Hrun.
  destruct (initialize counts gold_data AM_noise) as [[pc0 rb]|e] eqn:Hinit;
    [|discriminate].
  pose proof (@em_loop_bound counts gold_data AM_noise tol max_iter fuel
                0%nat None pc0 n) as Hbound.
  cbv beta zeta in Hbound. rewrite Hrun in Hbound.
  destruct (Hbound eq_refl) as [_ Hle].
  pose proof (@em_loop_min counts gold_data AM_noise tol max_iter fuel
                0%nat None pc0 n pc cm er Hrun) as Hmin.
  apply em_loop_returned in Hrun;
    [|apply (@posterior_initialize counts gold_data AM_noise pc0 rb Hinit)
     |exact I].
  destruct Hrun as (pa & old_cm & old_er & pb & _ & _ & _ & _ & _ & Hconv).
  apply converged_test_spec in Hconv. destruct Hconv as [[Hcm _]|Hmax].
  - exfalso.
    pose proof (class_marginals_diff_nonneg counts cm old_cm) as Hnn.
    apply (Qlt_irrefl 0).
    apply Qle_lt_trans with (class_marginals_diff counts cm old_cm);
      [exact Hnn|].
    apply Qlt_le_trans with tol; assumption.
  - simpl in Hle, Hmin. lia.
Qed.

(** One patient with the four labels 0, [tol = 0] and [max_iter = 0]: the
    run returns after [max (0 + 1) 2 = 2] passes. *)
Lemma em_nonpositive_tol_witness :
  exists pc cm er,
    em 2 counts_4_0 no_gold 1 0 0 = Returned 2 pc cm er
    /\ 2%nat = Z.to_nat (Z.max (0 + 1) 2).
Proof.
  assert (Hrun : exists pc cm er,
            em 2 counts_4_0 no_gold 1 0 0 = Returned 2 pc cm er)
    by (eexists _, _, _; vm_compute; reflexivity).
  destruct Hrun as (pc & cm & er & Hrun).
  exists pc, cm, er. split; [exact Hrun|].
  apply (@em_nonpositive_tol counts_4_0 no_gold 1 0 0 2 2 pc cm er);
    [apply Qle_refl | exact Hrun].
Defined.

(** ** The responses read from a file *)

Lemma getitem_setitem (K V : Type) (eqb : K -> K -> bool) (d : dict K V)
    k v k' :
  (forall x y, eqb x y = true <-> x = y) ->
  getitem eqb (setitem eqb d k v) k'
  = if eqb k k' then Ok v else getitem eqb d k'.
Proof.
  intros eqb_eq. induction d as [|[k0 v0] d IH]; simpl.
  - destruct (eqb k k'); reflexivity.
  - destruct (eqb k0 k) eqn:E0; simpl.
    + apply eqb_eq in E0. subst k0.
      destruct (eqb k k'); reflexivity.
    + destruct (eqb k0 k') eqn:E1.
      * destruct (eqb k k') eqn:E2; [|reflexivity].
        apply eqb_eq in E1, E2. subst.
        rewrite (proj2 (eqb_eq k' k') eq_refl) in E0. discriminate.
      * exact IH.
Qed.

(** The responses of a patient after [data[x_i][1]] has been replaced. *)
Lemma observations_setitem (data : responses_t) x_i
    (by_observer : dict observer (list response)) rs pat :
  observations
    (setitem tuple_eqb data x_i (setitem Z.eqb by_observer 1%Z rs)) pat 1%Z
  = if tuple_eqb x_i pat then rs else observations data pat 1%Z.
Proof.
  unfold observations.
  rewrite (@getitem_setitem _ _ tuple_eqb data x_i _ pat tuple_eqb_eq).
  destruct (tuple_eqb x_i pat); [|reflexivity].
  rewrite (@getitem_setitem _ _ Z.eqb by_observer 1%Z rs 1%Z Z.eqb_eq).
  reflexivity.
Qed.

Section ReaderResponses.

Variable int : string -> option Z.
Variable strip : string -> string.

Lemma read_label_response classes x_i label_str (data : responses_t) rc
    data' rc' :
  read_label int classes x_i label_str (data, rc) = Ok (data', rc') ->
  exists r,
    parse_response int label_str = Some r
    /\ forall pat,
         observations data' pat 1%Z
         = observations data pat 1%Z
           ++ (if tuple_eqb x_i pat then [r] else []).
Proof.
  intros Hrun. unfold read_label in Hrun.
  apply bind_ok in Hrun. destruct Hrun as (s & Hs & Hrun).
  apply bind_ok in Hrun. destruct Hrun as (class_label & Hc & Hrun).
  apply bind_ok in Hrun. destruct Hrun as (truth_label & Ht & Hrun).
  apply bind_ok in Hrun. destruct Hrun as (rc1 & _ & Hrun).
  apply bind_ok in Hrun. destruct Hrun as (by_observer & Hd & Hrun).
  apply bind_ok in Hrun. destruct Hrun as (rs & Hrs & Hret).
  inversion Hret; subst data' rc'; clear Hret.
  exists (class_label, truth_label). split.
  - unfold parse_response. unfold list_getitem in Hs, Ht.
    destruct (nth_error (split ";" (strip_ends label_str)) 0) as [s'|];
      [|discriminate].
    destruct (nth_error (split ";" (strip_ends label_str)) 1) as [t'|];
      [|discriminate].
    inversion Hs; inversion Ht; subst s' t'.
    unfold py_int in Hc. destruct (int s) as [c|]; [|discriminate].
    inversion Hc. reflexivity.
  - intros pat. rewrite observations_setitem.
    destruct (tuple_eqb x_i pat) eqn:E.
    + apply tuple_eqb_eq in E. subst pat. unfold observations.
      rewrite Hd, Hrs. reflexivity.
    + rewrite app_nil_r. reflexivity.
Qed.

Lemma read_labels_responses classes x_i labels :
  forall (data : responses_t) rc data' rc',
    for_each (read_label int classes x_i) labels (data, rc)
    = Ok (data', rc') ->
    forall pat,
      observations data' pat 1%Z
      = observations data pat 1%Z
        ++ (if tuple_eqb x_i pat
            then flat_map (fun label_str =>
                             match parse_response int label_str with
                             | Some r => [r]
                             | None => []
                             end) labels
            else []).
Proof.
  induction labels as [|l labels IH]; intros data rc data' rc' Hrun pat.
  - simpl in Hrun. inversion Hrun; subst.
    destruct (tuple_eqb x_i pat); rewrite app_nil_r; reflexivity.
  - cbn [for_each] in Hrun. apply bind_ok in Hrun.
    destruct Hrun as ([d1 r1] & Hfirst & Hrest).
    destruct (@read_label_response classes x_i l data rc d1 r1 Hfirst)
      as (r & Hr & Hobs).
    rewrite (IH d1 r1 data' rc' Hrest pat), (Hobs pat).
    cbn [flat_map]. rewrite Hr.
    destruct (tuple_eqb x_i pat); rewrite <- app_assoc; reflexivity.
Qed.

Lemma read_line_responses classes line (data : responses_t) rc data' rc' :
  read_line int strip classes line (data, rc) = Ok (data', rc') ->
  forall pat,
    observations data' pat 1%Z
    = observations data pat 1%Z
      ++ match line_key int strip line with
         | Some x_i =>
             if tuple_eqb x_i pat then line_responses int line else []
         | None => []
         end.
Proof.
  intros Hrun pat. unfold read_line in Hrun.
  apply bind_ok in Hrun. destruct Hrun as (v0 & Hv0 & Hrun).
  apply bind_ok in Hrun. destruct Hrun as (x_i & Hx & Hrun).
  apply bind_ok in Hrun. destruct Hrun as (v1 & Hv1 & Hrun).
  unfold line_key, line_responses. unfold list_getitem in Hv0, Hv1.
  destruct (nth_error (split "=" line) 0) as [v0'|]; [|discriminate].
  destruct (nth_error (split "=" line) 1) as [v1'|]; [|discriminate].
  inversion Hv0; inversion Hv1; subst v0' v1'. rewrite Hx.
  rewrite (@read_labels_responses classes x_i _ _ _ _ _ Hrun pat). f_equal.
  destruct (contains tuple_eqb data x_i) eqn:E; [reflexivity|].
  assert (Hnot : ~ In x_i (keys data)).
  { intros H. apply (@contains_In _ tuple_eqb tuple_eqb_eq) in H.
    congruence. }
  unfold observations.
  rewrite (@getitem_setitem _ _ tuple_eqb data x_i _ pat tuple_eqb_eq).
  destruct (tuple_eqb x_i pat) eqn:Ep; [|reflexivity].
  apply tuple_eqb_eq in Ep. subst pat.
  rewrite (@getitem_not_key _ tuple_eqb tuple_eqb_eq _ data x_i Hnot).
  reflexivity.
Qed.

Lemma read_lines_responses classes lines :
  forall (data : responses_t) rc data' rc',
    for_each (read_line int strip classes) lines (data, rc)
    = Ok (data', rc') ->
    forall pat,
      observations data' pat 1%Z
      = observations data pat 1%Z ++ responses_of int strip lines pat.
Proof.
  induction lines as [|line lines IH]; intros data rc data' rc' Hrun pat.
  - simpl in Hrun. inversion Hrun; subst. simpl. rewrite app_nil_r.
    reflexivity.
  - cbn [for_each] in Hrun. apply bind_ok in Hrun.
    destruct Hrun as ([d1 r1] & Hfirst & Hrest).
    rewrite (IH d1 r1 data' rc' Hrest pat).
    rewrite (@read_line_responses classes line data rc d1 r1 Hfirst pat).
    unfold responses_of. cbn [flat_map]. rewrite <- app_assoc. reflexivity.
Qed.

(** X21.  The reader neither loses nor reorders a response: in the
    dictionary returned, the list of observer 1 of a patient is made of the
    responses of all the lines of the file with the key of that patient, in
    the order of the file (and is empty for a key that no line has). *)
Theorem read_input_data_responses file data review_counts classes pat :
  read_input_data int strip file = Ok (data, review_counts, classes) ->
  observations data pat 1%Z
  = responses_of int strip (map rstrip_newline file) pat.
Proof.
  unfold read_input_data. intros Hrun.
  apply bind_ok in Hrun. destruct Hrun as ([d rc] & Hloop & Hret).
  inversion Hret; subst d rc classes; clear Hret.
  rewrite (@read_lines_responses [0%Z; 1%Z] _ _ _ _ _ Hloop pat).
  reflexivity.
Qed.

End ReaderResponses.

(** The file of two lines: the patient [(1)] has the responses [(0, 'f')]
    and [(1, 't')]. *)
Lemma read_input_data_responses_witness :
  exists data review_counts classes,
    read_input_data int_0_1 no_strip file_two_lines
    = Ok (data, review_counts, classes)
    /\ observations data [1%Z] 1%Z = [(0%Z, "f"%string); (1%Z, "t"%string)].
Proof.
  eexists _, _, _. split; [reflexivity|].
  rewrite (@read_input_data_responses int_0_1 no_strip file_two_lines _ _ _
             [1%Z] eq_refl).
  reflexivity.
Defined.
